(** * askyourdoc: knowledge base and four-pillar health analyzer

    A shallow embedding of [knowledge_base.py] (class [MedicalKnowledgeBase])
    and [health_analyzer.py] (class [HealthAnalyzer]), and the properties of
    the specification that were checked against them.

    Conventions of the embedding:
    - a Python [str] is a [string]; each character stands for one code point
      below 256, and the character classes ([str.isspace], [str.lower]) are
      the ones Python uses on that range;
    - a Python [float] is a binary64 value, Rocq's primitive [float]; the
      comparisons are the IEEE ones ([PrimFloat.ltb], [PrimFloat.leb]);
    - a [dict] whose iteration order shows in the output is an association
      list in insertion order ([PyDict]); the reference-range table, which
      the methods embedded here write and read by key only, is a [gmap];
    - a call that can raise returns [result]; a [try]/[except] that swallows
      every exception is a match on that result. *)

From Stdlib Require Import Floats ZArith Ascii.
From stdpp Require Import gmap strings list.

Set Default Proof Using "Type".

(** ** Python strings *)

Module PyStr.

Definition dquote : ascii := "034"%char.
Definition newline : ascii := "010"%char.

(** [str.isspace] on one character, restricted to code points below 256:
    TAB, LF, VT, FF, CR, the separators FS, GS, RS, US, the space, NEL and
    the no-break space. *)
Definition is_space (c : ascii) : bool :=
  let n := nat_of_ascii c in
  (Nat.leb 9 n && Nat.leb n 13) || (Nat.leb 28 n && Nat.leb n 32)
  || Nat.eqb n 133 || Nat.eqb n 160.

(** [str.lower] on one character: the letters A-Z, and the capital letters
    of the Latin-1 supplement (all of 0xC0-0xDE but the multiplication
    sign), move up by 32. *)
Definition lower_char (c : ascii) : ascii :=
  let n := nat_of_ascii c in
  if (Nat.leb 65 n && Nat.leb n 90)
     || (Nat.leb 192 n && Nat.leb n 222 && negb (Nat.eqb n 215))
  then ascii_of_nat (n + 32) else c.

Fixpoint lower (s : string) : string :=
  match s with
  | EmptyString => EmptyString
  | String c s' => String (lower_char c) (lower s')
  end.

(** [c in s] for a one-character [c]. *)
Fixpoint contains_char (c : ascii) (s : string) : bool :=
  match s with
  | EmptyString => false
  | String d s' => Ascii.eqb d c || contains_char c s'
  end.

Fixpoint all_chars (p : ascii -> bool) (s : string) : bool :=
  match s with
  | EmptyString => true
  | String c s' => p c && all_chars p s'
  end.

Fixpoint starts_with (p s : string) : bool :=
  match p, s with
  | EmptyString, _ => true
  | String _ _, EmptyString => false
  | String a p', String b s' => Ascii.eqb a b && starts_with p' s'
  end.

(** [needle in hay]: the substring test. *)
Fixpoint substring_in (needle hay : string) : bool :=
  starts_with needle hay
  || match hay with
     | EmptyString => false
     | String _ hay' => substring_in needle hay'
     end.

(** [s.split(sep)] for a one-character separator: every occurrence of the
    separator cuts, so the result has one piece more than [s] has
    separators, and is never empty. *)
Fixpoint split_on (sep : ascii) (s : string) : list string :=
  match s with
  | EmptyString => [EmptyString]
  | String c s' =>
      if Ascii.eqb c sep then EmptyString :: split_on sep s'
      else match split_on sep s' with
           | [] => [String c EmptyString]
           | h :: t => String c h :: t
           end
  end.

(** [s.split(sep, 1)]: cut at the first separator only. *)
Fixpoint split_once (sep : ascii) (s : string) : list string :=
  match s with
  | EmptyString => [EmptyString]
  | String c s' =>
      if Ascii.eqb c sep then [EmptyString; s']
      else match split_once sep s' with
           | [] => [String c EmptyString]
           | h :: t => String c h :: t
           end
  end.

(** [s.split()]: the maximal runs of non-whitespace characters. *)
Fixpoint split_ws (s : string) : list string :=
  match s with
  | EmptyString => []
  | String c s' =>
      if is_space c then split_ws s'
      else match s' with
           | EmptyString => [String c EmptyString]
           | String c' _ =>
               if is_space c' then String c EmptyString :: split_ws s'
               else match split_ws s' with
                    | [] => [String c EmptyString]
                    | h :: t => String c h :: t
                    end
           end
  end.

(** [s.lstrip], [s.rstrip] and [s.strip] for a class [p] of characters:
    [s.strip()] is [strip is_space s], [s.strip(chars)] is
    [strip (fun c => contains_char c chars) s]. *)
Fixpoint lstrip (p : ascii -> bool) (s : string) : string :=
  match s with
  | EmptyString => EmptyString
  | String c s' => if p c then lstrip p s' else s
  end.

Fixpoint rstrip (p : ascii -> bool) (s : string) : string :=
  match s with
  | EmptyString => EmptyString
  | String c s' =>
      match rstrip p s' with
      | EmptyString => if p c then EmptyString else String c EmptyString
      | r => String c r
      end
  end.

Definition strip (p : ascii -> bool) (s : string) : string :=
  rstrip p (lstrip p s).

Definition strip_ws : string -> string := strip is_space.
Definition strip_chars (chars : string) : string -> string :=
  strip (fun c => contains_char c chars).

(** [sep.join(l)] *)
Fixpoint join (sep : string) (l : list string) : string :=
  match l with
  | [] => EmptyString
  | [x] => x
  | x :: l' => x +:+ sep +:+ join sep l'
  end.

Definition is_empty (s : string) : bool :=
  match s with EmptyString => true | _ => false end.

(** The last character of [s] satisfies [p] ([s] is not empty). *)
Fixpoint last_char (p : ascii -> bool) (s : string) : bool :=
  match s with
  | EmptyString => false
  | String c EmptyString => p c
  | String _ s' => last_char p s'
  end.

Definition first_char (p : ascii -> bool) (s : string) : bool :=
  match s with
  | EmptyString => false
  | String c _ => p c
  end.

End PyStr.

(** ** Python's [float(s)] and [repr] on floats

    The two built-ins are parameters of the embedding ([PyBuiltins] below).
    This module gives the instance used to evaluate the code on concrete
    inputs: decimal literals read with correct rounding, and the shortest
    digit string that reads back, laid out as [repr] does. *)

Module PyFloat.

Definition digit_of (c : ascii) : option Z :=
  let n := nat_of_ascii c in
  if Nat.leb 48 n && Nat.leb n 57 then Some (Z.of_nat (n - 48)) else None.

(** [digitpart ::= digit (["_"] digit)*]: the digits read, most significant
    first, and the text after them. *)
Fixpoint digitpart (s : string) : list Z * string :=
  match s with
  | EmptyString => ([], s)
  | String c s' =>
      match digit_of c with
      | None => ([], s)
      | Some d =>
          let '(ds, r) :=
            match s' with
            | EmptyString => ([], s')
            | String u s'' =>
                if Ascii.eqb u "_" then
                  match digitpart s'' with
                  | ([], _) => ([], s')
                  | more => more
                  end
                else digitpart s'
            end in
          (d :: ds, r)
      end
  end.

Definition digits_value (ds : list Z) : Z :=
  fold_left (fun acc d => 10 * acc + d)%Z ds 0%Z.

(** The binary64 value nearest to [m * 10^e10] (ties to even), for
    [0 <= m]; [neg] is the sign. *)
Definition round_decimal (neg : bool) (m e10 : Z) : float :=
  let signed (x : float) := if neg then (- x)%float else x in
  if (m =? 0)%Z then signed 0%float
  else if (310 <? e10)%Z then signed infinity
  else if (e10 + Z.log2 m <? -1100)%Z then signed 0%float
  else if (0 <=? e10)%Z then
    signed (SF2Prim (binary_normalize prec emax (m * 10 ^ e10) 0 false))
  else
    signed (SF2Prim (SFdiv prec emax
                       (S754_finite false (Z.to_pos m) 0)
                       (S754_finite false (Z.to_pos (10 ^ (- e10))) 0))).

Definition parse_sign (s : string) : bool * string :=
  match s with
  | String c s' =>
      if Ascii.eqb c "-" then (true, s')
      else if Ascii.eqb c "+" then (false, s')
      else (false, s)
  | EmptyString => (false, s)
  end.

(** [exponent ::= ("e" | "E") [sign] digitpart], or nothing. [None] when
    the text is neither. *)
Definition parse_exponent (s : string) : option Z :=
  match s with
  | EmptyString => Some 0%Z
  | String c s' =>
      if Ascii.eqb c "e" || Ascii.eqb c "E" then
        let '(neg, r) := parse_sign s' in
        match digitpart r with
        | ((_ :: _) as ds, EmptyString) =>
            Some (if neg then - digits_value ds else digits_value ds)%Z
        | _ => None
        end
      else None
  end.

(** [floatnumber]: [Some (m, e10)] for the value [m * 10^e10]. *)
Definition parse_floatnumber (s : string) : option (Z * Z) :=
  let '(ip, r1) := digitpart s in
  let '(fp, r2) :=
    match r1 with
    | String c r => if Ascii.eqb c "." then digitpart r else ([], r1)
    | EmptyString => ([], r1)
    end in
  match ip ++ fp with
  | [] => None
  | ds =>
      match parse_exponent r2 with
      | Some ex => Some (digits_value ds, (ex - Z.of_nat (length fp))%Z)
      | None => None
      end
  end.

(** [float(s)]: surrounding whitespace is dropped; a sign, then a decimal
    number, [inf], [infinity] or [nan] in any case. [None] is
    [ValueError]. *)
Definition float_of_string (s : string) : option float :=
  let '(neg, body) := parse_sign (PyStr.strip_ws s) in
  let signed (x : float) := if neg then (- x)%float else x in
  let low := PyStr.lower body in
  if String.eqb low "inf" || String.eqb low "infinity" then
    Some (signed infinity)
  else if String.eqb low "nan" then Some nan
  else
    match parse_floatnumber body with
    | Some (m, e10) => Some (round_decimal neg m e10)
    | None => None
    end.

(** *** [repr] *)

Definition digit_char (d : Z) : ascii := ascii_of_nat (48 + Z.to_nat d).

Fixpoint Z_digits_fuel (fuel : nat) (n : Z) (acc : string) : string :=
  let acc' := String (digit_char (n mod 10)) acc in
  match fuel with
  | O => acc'
  | S fuel' => if (n <? 10)%Z then acc' else Z_digits_fuel fuel' (n / 10) acc'
  end.

(** The decimal digits of [n], for [0 <= n]. *)
Definition Z_digits (n : Z) : string :=
  Z_digits_fuel (Z.to_nat (Z.log2 n)) n EmptyString.

(** [num / den < 10^k] *)
Definition below_pow10 (num den k : Z) : bool :=
  if (0 <=? k)%Z then (num <? den * 10 ^ k)%Z
  else (num * 10 ^ (- k) <? den)%Z.

Fixpoint decimal_exponent_fuel (fuel : nat) (num den k : Z) : Z :=
  match fuel with
  | O => k
  | S fuel' =>
      if below_pow10 num den k then k
      else decimal_exponent_fuel fuel' num den (k + 1)
  end.

(** The least [k] with [num / den < 10^k], for a positive binary64 value
    [num / den]. *)
Definition decimal_exponent (num den : Z) : Z :=
  decimal_exponent_fuel 640 num den (-324).

(** The [n]-digit decimals next to [num / den], the nearer first. *)
Definition candidates (num den k : Z) (n : Z) : list Z :=
  let N := (num * 10 ^ Z.max 0 (n - k))%Z in
  let D := (den * 10 ^ Z.max 0 (k - n))%Z in
  let lo := (N / D)%Z in
  let rem := (N mod D)%Z in
  if (rem =? 0)%Z then [lo]
  else if (2 * rem <? D)%Z then [lo; (lo + 1)%Z]
  else if (D <? 2 * rem)%Z then [(lo + 1)%Z; lo]
  else if Z.even lo then [lo; (lo + 1)%Z] else [(lo + 1)%Z; lo].

Fixpoint shortest_fuel (fuel : nat) (x : float) (num den k n : Z)
    : Z * Z :=
  let found :=
    List.find (fun c => (0 <? c)%Z && (round_decimal false c (k - n) =? x)%float)
      (candidates num den k n) in
  match found, fuel with
  | Some c, _ => (c, (k - n)%Z)
  | None, S fuel' => shortest_fuel fuel' x num den k (n + 1)
  | None, O => (0%Z, 0%Z)
  end.

Fixpoint strip_zeros_rev (s : list ascii) : list ascii :=
  match s with
  | c :: s' => if Ascii.eqb c "0" then strip_zeros_rev s' else s
  | [] => []
  end.

Definition zeros (n : Z) : string :=
  String.string_of_list_ascii (replicate (Z.to_nat n) "0"%char).

(** The shortest digit string that reads back as [x], and the position of
    the decimal point before its first digit: [x = 0.d1d2... * 10^decpt]. *)
Definition shortest_digits (x : float) (m : positive) (e : Z) : string * Z :=
  let num := if (0 <=? e)%Z then (Zpos m * 2 ^ e)%Z else Zpos m in
  let den := if (0 <=? e)%Z then 1%Z else (2 ^ (- e))%Z in
  let k := decimal_exponent num den in
  let '(c, e10) := shortest_fuel 17 x num den k 1 in
  let ds := Z_digits c in
  let decpt := (Z.of_nat (String.length ds) + e10)%Z in
  (String.string_of_list_ascii
     (rev (strip_zeros_rev (rev (String.list_ascii_of_string ds)))), decpt).

Definition format_digits (ds : string) (decpt : Z) : string :=
  let n := Z.of_nat (String.length ds) in
  if (decpt <=? -4)%Z || (16 <? decpt)%Z then
    let ex := (decpt - 1)%Z in
    let mant :=
      match ds with
      | String d EmptyString => ds
      | String d rest => String d ("." +:+ rest)
      | EmptyString => ds
      end in
    let exd := Z_digits (Z.abs ex) in
    mant +:+ "e" +:+ (if (ex <? 0)%Z then "-" else "+")
    +:+ (if (Z.abs ex <? 10)%Z then "0" +:+ exd else exd)
  else if (decpt <=? 0)%Z then "0." +:+ zeros (- decpt) +:+ ds
  else if (n <=? decpt)%Z then ds +:+ zeros (decpt - n) +:+ ".0"
  else
    String.substring 0 (Z.to_nat decpt) ds +:+ "."
    +:+ String.substring (Z.to_nat decpt) (Z.to_nat (n - decpt)) ds.

(** [repr(x)], which is also how an f-string renders [{x}]. *)
Definition repr (x : float) : string :=
  match Prim2SF x with
  | S754_nan => "nan"
  | S754_infinity s => if s then "-inf" else "inf"
  | S754_zero s => if s then "-0.0" else "0.0"
  | S754_finite s m e =>
      let '(ds, decpt) := shortest_digits (abs x) m e in
      (if s then "-" else EmptyString) +:+ format_digits ds decpt
  end.

End PyFloat.
(** ** Exceptions *)

Inductive exn : Set := IndexError | KeyError | ValueError | AssertionError.

Inductive result (A : Type) : Type :=
| Ok (a : A)
| Raise (e : exn).
Arguments Ok {A} a.
Arguments Raise {A} e.

#[global] Instance result_ret : MRet result := fun A a => Ok a.
#[global] Instance result_bind : MBind result := fun A B f r =>
  match r with
  | Ok a => f a
  | Raise e => Raise e
  end.

Definition of_option {A} (e : exn) (o : option A) : result A :=
  match o with
  | Some a => Ok a
  | None => Raise e
  end.

(** [l[i]] on a Python list: a negative index counts from the end, an index
    out of range raises [IndexError]. *)
Definition py_index {A} (l : list A) (i : Z) : result A :=
  let n := Z.of_nat (length l) in
  if (0 <=? i)%Z then of_option IndexError (l !! Z.to_nat i)
  else if (0 <=? n + i)%Z then of_option IndexError (l !! Z.to_nat (n + i))
  else Raise IndexError.

(** ** Dictionaries in insertion order *)

Module PyDict.

Definition dict (V : Type) : Type := list (string * V).

(** [d.get(k)] *)
Fixpoint get {V} (d : dict V) (k : string) : option V :=
  match d with
  | [] => None
  | (k', v) :: d' => if String.eqb k' k then Some v else get d' k
  end.

(** [k in d] *)
Definition mem {V} (k : string) (d : dict V) : bool :=
  match get d k with Some _ => true | None => false end.

(** [d[k] = v]: a key already there keeps its place, a new one goes last. *)
Fixpoint set {V} (d : dict V) (k : string) (v : V) : dict V :=
  match d with
  | [] => [(k, v)]
  | (k', v') :: d' =>
      if String.eqb k' k then (k, v) :: d' else (k', v') :: set d' k v
  end.

End PyDict.

Abbreviation dict := PyDict.dict.

(** [any(bm in d for bm in names)] *)
Definition any_in {V} (names : list string) (d : dict V) : bool :=
  existsb (fun bm => PyDict.mem bm d) names.

(** [x in l] for a list of strings. *)
Definition str_in (x : string) (l : list string) : bool :=
  existsb (String.eqb x) l.

(** ** What the code takes from outside the repository *)

(** The two built-ins the code applies to floats: [float(s)], which raises
    [ValueError] ([None] here) on a string that is no float literal, and the
    rendering of a float inside an f-string. *)
Class PyBuiltins : Type := {
  py_float : string -> option float;
  float_str : float -> string;
}.

(** The sentence encoder and the faiss index: [encode] is
    [SentenceTransformer.encode] on one text, [normalize_L2] is
    [faiss.normalize_L2], and [search] is [IndexFlatIP.search] for one
    query, giving the pairs of [zip(scores[0], indices[0])] or the exception
    it raises. *)
Class VectorBackend : Type := {
  Model : Type;
  Index : Type;
  Vec : Type;
  encode : Model -> string -> Vec;
  normalize_L2 : Vec -> Vec;
  search : Index -> Vec -> Z -> result (list (float * Z));
}.

Definition python_builtins : PyBuiltins :=
  {| py_float := PyFloat.float_of_string; float_str := PyFloat.repr |}.

(** A reference model of the flat inner-product index, from the documented
    behaviour of faiss: [search] wants [0 < k], returns exactly [k] pairs,
    best score first, and fills the places for which the index has no vector
    with the label [-1] and the score [-FLT_MAX]. The encoder is any function
    from texts to vectors. Scores are computed in binary64 here (faiss works
    in binary32); no statement below depends on the value of a score. *)
Module FlatIP.

Definition inner_product (x y : list float) : float :=
  fold_left (fun acc p => (acc + p.1 * p.2)%float) (combine x y) 0%float.

Definition normalize (x : list float) : list float :=
  let nr := inner_product x x in
  if (0 <? nr)%float then
    let inv_nr := (1 / sqrt nr)%float in
    (fun a => (a * inv_nr)%float) <$> x
  else x.

Definition neg_flt_max : float := (-0x1.fffffep+127)%float.

(** Insertion before the first entry whose score is not greater: entries
    of equal score stay in corpus order here. The library does not promise
    an order among hits of equal score, and returns them in another one;
    nothing below depends on the order of such hits. *)
Fixpoint insert_hit (h : float * Z) (l : list (float * Z))
    : list (float * Z) :=
  match l with
  | [] => [h]
  | h' :: l' =>
      if (h'.1 <=? h.1)%float then h :: l else h' :: insert_hit h l'
  end.

Definition ranked (index : list (list float)) (q : list float)
    : list (float * Z) :=
  foldr insert_hit []
    (imap (fun i x => (inner_product q x, Z.of_nat i)) index).

Definition search (index : list (list float)) (q : list float) (k : Z)
    : result (list (float * Z)) :=
  if (k <=? 0)%Z then Raise AssertionError
  else
    let hits := take (Z.to_nat k) (ranked index q) in
    Ok (hits ++ replicate (Z.to_nat k - length hits) (neg_flt_max, (-1)%Z)).

End FlatIP.

Definition flat_backend : VectorBackend :=
  {| Model := string -> list float;
     Index := list (list float);
     Vec := list float;
     encode := fun model query => model query;
     normalize_L2 := FlatIP.normalize;
     search := FlatIP.search |}.

(** ** knowledge_base.py *)

(** One entry of [knowledge_texts]: a dict with the keys ['text'] and
    ['type'] and further string-valued keys (['biomarker'], ['condition'],
    ['source'], ...), kept in [tags]. *)
Record KnowledgeItem : Type := {
  text : string;
  type : string;
  tags : dict string;
}.

(** A retrieved entry: a copy of the item with ['relevance_score'] added. *)
Record Retrieved : Type := {
  item : KnowledgeItem;
  relevance_score : float;
}.

(** The attributes of [MedicalKnowledgeBase] that the methods below read or
    write. *)
Record MedicalKnowledgeBase `{VectorBackend} : Type := {
  reference_ranges : gmap string string;
  embedding_model : option Model;
  vector_index : option Index;
  knowledge_texts : list KnowledgeItem;
}.

Section KnowledgeBase.
Context `{PyBuiltins} `{VectorBackend}.

(** [__init__]: nothing loaded, no model, no index. *)
Definition __init__ : MedicalKnowledgeBase :=
  {| reference_ranges := ∅; embedding_model := None;
     vector_index := None; knowledge_texts := [] |}.

(** The body of the loop of [_parse_reference_ranges], for one line. *)
Definition _parse_reference_ranges_line
    (ranges : gmap string string) (line : string) : gmap string string :=
  if PyStr.contains_char ":" line && PyStr.contains_char PyStr.dquote line
  then
    match PyStr.split_once ":" line with
    | [p0; p1] =>
        let key := PyStr.strip_chars (String PyStr.dquote EmptyString)
                     (PyStr.strip_ws p0) in
        let value := PyStr.strip_chars (String PyStr.dquote ",")
                       (PyStr.strip_ws p1) in
        <[key := value]> ranges
    | _ => ranges
    end
  else ranges.

Definition _parse_reference_ranges
    (self : MedicalKnowledgeBase) (content : string) : MedicalKnowledgeBase :=
  {| reference_ranges :=
       fold_left _parse_reference_ranges_line
         (PyStr.split_on PyStr.newline content) (reference_ranges self);
     embedding_model := embedding_model self;
     vector_index := vector_index self;
     knowledge_texts := knowledge_texts self |}.

Definition get_biomarker_reference_range
    (self : MedicalKnowledgeBase) (biomarker : string) : option string :=
  reference_ranges self !! biomarker.

(** The loop of [retrieve_contextual_knowledge] over
    [zip(scores[0], indices[0])]. *)
Fixpoint retrieve_loop (texts : list KnowledgeItem) (hits : list (float * Z))
    : result (list Retrieved) :=
  match hits with
  | [] => Ok []
  | (score, idx) :: hits' =>
      if (idx <? Z.of_nat (length texts))%Z then
        it ← py_index texts idx;
        results ← retrieve_loop texts hits';
        Ok ({| item := it; relevance_score := score |} :: results)
      else retrieve_loop texts hits'
  end.

(** [top_k] has the default 5 in the source. *)
Definition retrieve_contextual_knowledge
    (self : MedicalKnowledgeBase) (query : string) (top_k : Z)
    : result (list Retrieved) :=
  match vector_index self, embedding_model self with
  | Some index, Some model =>
      let query_embedding := normalize_L2 (encode model query) in
      hits ← search index query_embedding top_k;
      retrieve_loop (knowledge_texts self) hits
  | _, _ => Ok []
  end.

(** [float(parts.split()[i])], with the exceptions of the indexing and of
    [float]. *)
Definition float_token (part : string) (i : Z) : result float :=
  tok ← py_index (PyStr.split_ws part) i;
  of_option ValueError (py_float tok).

(** The body of the [try] of [_classify_value]: [Ok None] when control
    leaves the [try] without a [return]. *)
Definition _classify_value_try (value : float) (range_info : string)
    : result (option string) :=
  if PyStr.contains_char "<" range_info then
    part ← py_index (PyStr.split_on "<" range_info) 1;
    threshold ← float_token part 0;
    Ok (Some (if (threshold <=? value)%float then "High" else "Normal"))
  else if PyStr.contains_char ">" range_info then
    part ← py_index (PyStr.split_on ">" range_info) 1;
    threshold ← float_token part 0;
    Ok (Some (if (value <=? threshold)%float then "Low" else "Normal"))
  else if PyStr.contains_char "-" range_info then
    let parts := PyStr.split_on "-" range_info in
    if Nat.eqb (length parts) 2 then
      p0 ← py_index parts 0;
      low ← float_token p0 (-1);
      p1 ← py_index parts 1;
      high ← float_token p1 0;
      Ok (Some (if (value <? low)%float then "Low"
                else if (high <? value)%float then "High"
                else "Normal"))
    else Ok None
  else Ok None.

(** [value >= threshold] is [threshold <=? value], [value > high] is
    [high <? value]. The bare [except] catches whatever the [try] raised. *)
Definition _classify_value (value : float) (range_info : string) : string :=
  match _classify_value_try value range_info with
  | Ok (Some status) => status
  | Ok None | Raise _ => "Unknown"
  end.

End KnowledgeBase.

(** ** health_analyzer.py *)

(** The dicts the analyzer builds, one record per shape. A key that is only
    sometimes present is an [option]. *)

Record BiomarkerEntry : Type := {
  value : float;
  reference_range : option string;
  status : string;
  interpretation : string;
  contextual_insights : list Retrieved;
}.

Record Pillar1 : Type := {
  title1 : string;
  biomarkers : dict BiomarkerEntry;
}.

Record SymptomAnalysis : Type := {
  symptoms_provided : bool;
  raw_symptoms : option string;
  detected_categories : option (list string);
}.

Record Correlation : Type := {
  biomarker : string;
  correlated_value : float;
  correlated_symptoms : list string;
  explanation : string;
}.

Record Pillar2 : Type := {
  title2 : string;
  correlations : list Correlation;
  symptom_analysis : SymptomAnalysis;
  note : option string;
}.

Record RiskAssessment : Type := {
  condition : string;
  risk_level : string;
  risk_factors : list string;
  risk_insights : list Retrieved;
}.

Record Pillar3 : Type := {
  title3 : string;
  risk_assessments : list RiskAssessment;
  overall_risk_level : string;
}.

Record Pillar4 : Type := {
  title4 : string;
  immediate_actions : list string;
  lifestyle_recommendations : list string;
  monitoring_recommendations : list string;
  medical_consultation_required : bool;
}.

Record AnalysisReport : Type := {
  disclaimer : string;
  timestamp : string;
  pillar_1_biomarker_interpretation : Pillar1;
  pillar_2_symptom_correlation : Pillar2;
  pillar_3_predictive_insights : Pillar3;
  pillar_4_actionable_recommendations : Pillar4;
  contextual_knowledge_used : dict (list Retrieved);
}.

Definition medical_disclaimer : string :=
"
**IMPORTANT MEDICAL DISCLAIMER**

This analysis is for informational purposes only and should not be considered as medical advice, diagnosis, or treatment recommendation. The information provided is based on general medical knowledge and data patterns, but individual health conditions can vary significantly.

**CRITICAL WARNINGS:**
- This analysis is NOT a substitute for professional medical consultation
- Always consult with a qualified healthcare provider for any health concerns
- Do not make medical decisions based solely on this analysis
- Seek immediate medical attention for any urgent health issues
- Individual health conditions require personalized medical evaluation

The insights provided are based on statistical patterns and general medical knowledge, but your specific health situation may differ. Only a licensed healthcare professional can provide proper medical diagnosis and treatment recommendations.
".

(** The table [common_symptoms] of [_analyze_symptoms]. *)
Definition common_symptoms : dict (list string) :=
  [ ("fatigue", ["tired"; "fatigue"; "exhausted"; "weak"]);
    ("weight_changes", ["weight"; "gain"; "loss"; "obese"]);
    ("mood_changes", ["depressed"; "anxious"; "mood"; "irritable"]);
    ("digestive_issues", ["nausea"; "vomiting"; "diarrhea"; "constipation"]);
    ("cardiovascular", ["chest"; "pain"; "heart"; "palpitations"]);
    ("neurological", ["headache"; "dizziness"; "confusion"; "memory"]) ].

(** The table [correlations] of [_find_symptom_biomarker_correlation]. *)
Definition symptom_correlations : dict (list string) :=
  [ ("tsh", ["fatigue"; "weight_changes"; "mood_changes"]);
    ("glucose", ["fatigue"; "weight_changes"; "digestive_issues"]);
    ("hba1c", ["fatigue"; "weight_changes"]);
    ("total_cholesterol", ["cardiovascular"]);
    ("ldl", ["cardiovascular"]);
    ("crp", ["fatigue"; "cardiovascular"]) ].

(** The table [critical_thresholds] of [_identify_critical_findings]. *)
Definition critical_thresholds : dict float :=
  [ ("glucose", 300%float); ("tsh", 20%float);
    ("creatinine", 3.0%float); ("crp", 10.0%float) ].

Definition lipid_names : list string :=
  ["total_cholesterol"; "ldl"; "hdl"; "triglycerides"].

(** The decimal literals of the source that binary64 cannot hold exactly
    (5.7 and 0.4) stand, as in Python, for the nearest binary64 value. *)
#[local] Set Warnings "-inexact-float".

Section HealthAnalyzer.
Context `{PyBuiltins} `{VectorBackend}.
Variable kb : MedicalKnowledgeBase.

Definition _retrieve_contextual_knowledge (biomarker_data : dict float)
    : result (dict (list Retrieved)) :=
  let fix loop (items : list (string * float))
               (contextual_knowledge : dict (list Retrieved)) :=
    match items with
    | [] => Ok contextual_knowledge
    | (biomarker, value) :: items' =>
        let query :=
          biomarker +:+ " " +:+ float_str value +:+ " biomarker analysis" in
        knowledge ← retrieve_contextual_knowledge kb query 3;
        loop items' (PyDict.set contextual_knowledge biomarker knowledge)
    end in
  contextual_knowledge ← loop biomarker_data [];
  let general_query := "health risk assessment biomarker patterns" in
  general_knowledge ← retrieve_contextual_knowledge kb general_query 5;
  Ok (PyDict.set contextual_knowledge "general" general_knowledge).

Definition _classify_biomarker_status
    (biomarker : string) (value : float) (reference_range : option string)
    : string :=
  match reference_range with
  | None => "Unknown"
  | Some range_info =>
      if PyStr.is_empty range_info then "Unknown"
      else _classify_value value range_info
  end.

Definition _generate_biomarker_interpretation
    (biomarker : string) (value : float) (status : string)
    (knowledge : list Retrieved) : result string :=
  let interpretation :=
    "Your " +:+ biomarker +:+ " level is " +:+ float_str value
    +:+ ", which is classified as " +:+ status +:+ "." in
  let fix loop (insights : list Retrieved) (interpretation : string) :=
    match insights with
    | [] => Ok interpretation
    | insight :: insights' =>
        if String.eqb (type (item insight)) "dataset_insight" then
          loop insights' (interpretation +:+ " " +:+ text (item insight))
        else if String.eqb (type (item insight)) "abnormality_mapping" then
          cond ← of_option KeyError
                   (PyDict.get (tags (item insight)) "condition");
          loop insights'
            (interpretation +:+ " This pattern is associated with "
             +:+ cond +:+ ".")
        else loop insights' interpretation
    end in
  loop (take 2 knowledge) interpretation.

Definition _analyze_biomarkers
    (biomarker_data : dict float)
    (contextual_knowledge : dict (list Retrieved)) : result Pillar1 :=
  let fix loop (items : list (string * float)) (acc : dict BiomarkerEntry) :=
    match items with
    | [] => Ok acc
    | (biomarker, value) :: items' =>
        let reference_range := get_biomarker_reference_range kb biomarker in
        let status :=
          _classify_biomarker_status biomarker value reference_range in
        let biomarker_knowledge :=
          default [] (PyDict.get contextual_knowledge biomarker) in
        interp ← _generate_biomarker_interpretation
                   biomarker value status biomarker_knowledge;
        loop items'
          (PyDict.set acc biomarker
             {| value := value; reference_range := reference_range;
                status := status; interpretation := interp;
                contextual_insights := biomarker_knowledge |})
    end in
  entries ← loop biomarker_data [];
  Ok {| title1 := "Interpretation of Key Biomarkers";
        biomarkers := entries |}.

(** [symptoms = user_symptoms.lower().split()] is computed by the source
    and not read afterwards; the test made for each keyword is the
    substring test [symptom in user_symptoms.lower()]. *)
Definition _analyze_symptoms (user_symptoms : string) : SymptomAnalysis :=
  if PyStr.is_empty (PyStr.strip_ws user_symptoms) then
    {| symptoms_provided := false; raw_symptoms := None;
       detected_categories := None |}
  else
    let symptoms := PyStr.split_ws (PyStr.lower user_symptoms) in
    let detected_symptoms :=
      (List.filter
         (fun entry : string * list string =>
            existsb
              (fun symptom =>
                 PyStr.substring_in symptom (PyStr.lower user_symptoms))
              entry.2)
         common_symptoms).*1 in
    {| symptoms_provided := true; raw_symptoms := Some user_symptoms;
       detected_categories := Some detected_symptoms |}.

Definition _find_symptom_biomarker_correlation
    (biomarker : string) (value : float) (user_symptoms : string)
    (knowledge : list Retrieved) : result (option Correlation) :=
  match PyDict.get symptom_correlations biomarker with
  | Some categories =>
      symptom_categories ←
        of_option KeyError
          (detected_categories (_analyze_symptoms user_symptoms));
      let matching_symptoms :=
        List.filter (fun cat => str_in cat categories) symptom_categories in
      match matching_symptoms with
      | [] => Ok None
      | _ =>
          Ok (Some
            {| biomarker := biomarker; correlated_value := value;
               correlated_symptoms := matching_symptoms;
               explanation :=
                 "Your " +:+ biomarker +:+ " level of " +:+ float_str value
                 +:+ " may be related to your reported symptoms: "
                 +:+ PyStr.join ", " matching_symptoms |})
      end
  | None => Ok None
  end.

Definition _correlate_symptoms_biomarkers
    (biomarker_data : dict float) (user_symptoms : string)
    (contextual_knowledge : dict (list Retrieved)) : result Pillar2 :=
  let analysis_symptoms := _analyze_symptoms user_symptoms in
  if PyStr.is_empty (PyStr.strip_ws user_symptoms) then
    Ok {| title2 := "Correlation Between Symptoms and Biomarker Trends";
          correlations := [];
          symptom_analysis := analysis_symptoms;
          note := Some "No symptoms provided for correlation analysis" |}
  else
    let fix loop (items : list (string * float)) :=
      match items with
      | [] => Ok []
      | (biomarker, value) :: items' =>
          let biomarker_knowledge :=
            default [] (PyDict.get contextual_knowledge biomarker) in
          correlation ← _find_symptom_biomarker_correlation
                          biomarker value user_symptoms biomarker_knowledge;
          rest ← loop items';
          Ok (match correlation with
              | Some c => c :: rest
              | None => rest
              end)
      end in
    found ← loop biomarker_data;
    Ok {| title2 := "Correlation Between Symptoms and Biomarker Trends";
          correlations := found;
          symptom_analysis := analysis_symptoms;
          note := None |}.

(** The assessors. Each keeps the local variables [risk_factors] and
    [risk_level] of the source and assigns them in the source's order. *)

Definition make_risk (cond level : string) (factors : list string)
    (insights : list Retrieved) : option RiskAssessment :=
  match factors with
  | [] => None
  | _ => Some {| condition := cond; risk_level := level;
                 risk_factors := factors;
                 risk_insights := take 2 insights |}
  end.

Definition general_insights
    (contextual_knowledge : dict (list Retrieved)) : list Retrieved :=
  default [] (PyDict.get contextual_knowledge "general").

Definition _assess_diabetes_risk
    (biomarker_data : dict float)
    (contextual_knowledge : dict (list Retrieved)) : option RiskAssessment :=
  let '(risk_factors, risk_level) := ([], "low") in
  let '(risk_factors, risk_level) :=
    match PyDict.get biomarker_data "glucose" with
    | Some glucose =>
        if (126 <=? glucose)%float then
          (risk_factors ++ ["Fasting glucose " +:+ float_str glucose
                            +:+ " mg/dL indicates diabetes"], "high")
        else if (100 <=? glucose)%float then
          (risk_factors ++ ["Fasting glucose " +:+ float_str glucose
                            +:+ " mg/dL indicates prediabetes"], "moderate")
        else (risk_factors, risk_level)
    | None => (risk_factors, risk_level)
    end in
  let '(risk_factors, risk_level) :=
    match PyDict.get biomarker_data "hba1c" with
    | Some hba1c =>
        if (6.5 <=? hba1c)%float then
          (risk_factors ++ ["HbA1c " +:+ float_str hba1c
                            +:+ "% indicates diabetes"], "high")
        else if (5.7 <=? hba1c)%float then
          (risk_factors ++ ["HbA1c " +:+ float_str hba1c
                            +:+ "% indicates prediabetes"], "moderate")
        else (risk_factors, risk_level)
    | None => (risk_factors, risk_level)
    end in
  make_risk "Diabetes/Pre-diabetes" risk_level risk_factors
    (general_insights contextual_knowledge).

Definition _assess_cardiovascular_risk
    (biomarker_data : dict float)
    (contextual_knowledge : dict (list Retrieved)) : option RiskAssessment :=
  let '(risk_factors, risk_level) := ([], "low") in
  let '(risk_factors, risk_level) :=
    match PyDict.get biomarker_data "total_cholesterol" with
    | Some tc =>
        if (240 <=? tc)%float then
          (risk_factors ++ ["Total cholesterol " +:+ float_str tc
                            +:+ " mg/dL is high"], "moderate")
        else (risk_factors, risk_level)
    | None => (risk_factors, risk_level)
    end in
  let '(risk_factors, risk_level) :=
    match PyDict.get biomarker_data "ldl" with
    | Some ldl =>
        if (160 <=? ldl)%float then
          (risk_factors ++ ["LDL cholesterol " +:+ float_str ldl
                            +:+ " mg/dL is high"], "moderate")
        else (risk_factors, risk_level)
    | None => (risk_factors, risk_level)
    end in
  let '(risk_factors, risk_level) :=
    match PyDict.get biomarker_data "hdl" with
    | Some hdl =>
        if (hdl <? 40)%float then
          (risk_factors ++ ["HDL cholesterol " +:+ float_str hdl
                            +:+ " mg/dL is low"], "moderate")
        else (risk_factors, risk_level)
    | None => (risk_factors, risk_level)
    end in
  make_risk "Cardiovascular Disease" risk_level risk_factors
    (general_insights contextual_knowledge).

Definition _assess_thyroid_risk
    (biomarker_data : dict float)
    (contextual_knowledge : dict (list Retrieved)) : option RiskAssessment :=
  match PyDict.get biomarker_data "tsh" with
  | Some tsh =>
      let '(risk_factors, risk_level) :=
        if (10 <? tsh)%float then
          (["TSH " +:+ float_str tsh
            +:+ " mIU/L indicates overt hypothyroidism"], "high")
        else if (4.5 <? tsh)%float then
          (["TSH " +:+ float_str tsh
            +:+ " mIU/L indicates subclinical hypothyroidism"], "moderate")
        else if (tsh <? 0.4)%float then
          (["TSH " +:+ float_str tsh
            +:+ " mIU/L indicates possible hyperthyroidism"], "moderate")
        else ([], "low") in
      make_risk "Thyroid Dysfunction" risk_level risk_factors
        (default [] (PyDict.get contextual_knowledge "tsh"))
  | None => None
  end.

Definition _assess_inflammation_risk
    (biomarker_data : dict float)
    (contextual_knowledge : dict (list Retrieved)) : option RiskAssessment :=
  let '(risk_factors, risk_level) := ([], "low") in
  let '(risk_factors, risk_level) :=
    match PyDict.get biomarker_data "crp" with
    | Some crp =>
        if (3.0 <? crp)%float then
          (risk_factors ++ ["CRP " +:+ float_str crp
                            +:+ " mg/L indicates elevated inflammation"],
           "moderate")
        else (risk_factors, risk_level)
    | None => (risk_factors, risk_level)
    end in
  let '(risk_factors, risk_level) :=
    match PyDict.get biomarker_data "esr" with
    | Some esr =>
        if (20 <? esr)%float then
          (risk_factors ++ ["ESR " +:+ float_str esr
                            +:+ " mm/hr indicates elevated inflammation"],
           "moderate")
        else (risk_factors, risk_level)
    | None => (risk_factors, risk_level)
    end in
  make_risk "Inflammation" risk_level risk_factors
    (general_insights contextual_knowledge).

Definition _calculate_overall_risk_level (risks : list RiskAssessment)
    : string :=
  match risks with
  | [] => "low"
  | _ =>
      let risk_levels := risk_level <$> risks in
      if str_in "high" risk_levels then "high"
      else if str_in "moderate" risk_levels then "moderate"
      else "low"
  end.

(** [risks.append(r)] when the assessor returned a dict. *)
Definition append_risk (risks : list RiskAssessment)
    (r : option RiskAssessment) : list RiskAssessment :=
  match r with
  | Some risk => risks ++ [risk]
  | None => risks
  end.

Definition _generate_predictive_insights
    (biomarker_data : dict float)
    (contextual_knowledge : dict (list Retrieved)) : Pillar3 :=
  let risks := [] in
  let risks :=
    if PyDict.mem "glucose" biomarker_data
       || PyDict.mem "hba1c" biomarker_data
    then append_risk risks
           (_assess_diabetes_risk biomarker_data contextual_knowledge)
    else risks in
  let risks :=
    if any_in lipid_names biomarker_data
    then append_risk risks
           (_assess_cardiovascular_risk biomarker_data contextual_knowledge)
    else risks in
  let risks :=
    if PyDict.mem "tsh" biomarker_data
    then append_risk risks
           (_assess_thyroid_risk biomarker_data contextual_knowledge)
    else risks in
  let risks :=
    if any_in ["crp"; "esr"] biomarker_data
    then append_risk risks
           (_assess_inflammation_risk biomarker_data contextual_knowledge)
    else risks in
  {| title3 := "Predictive Insights on Potential Health Risks";
     risk_assessments := risks;
     overall_risk_level := _calculate_overall_risk_level risks |}.

Definition _identify_critical_findings (biomarker_data : dict float)
    : list string :=
  flat_map
    (fun '(biomarker, value) =>
       match PyDict.get critical_thresholds biomarker with
       | Some threshold =>
           if (threshold <=? value)%float then
             ["CRITICAL: " +:+ biomarker +:+ " level of "
              +:+ float_str value
              +:+ " requires immediate medical attention"]
           else []
       | None => []
       end)
    biomarker_data.

Definition _generate_lifestyle_recommendations
    (biomarker_data : dict float) (user_lifestyle : string)
    (contextual_knowledge : dict (list Retrieved)) : list string :=
  [ "Maintain a balanced diet rich in fruits, vegetables, and whole grains";
    "Engage in regular physical activity (at least 150 minutes per week)";
    "Maintain a healthy weight";
    "Avoid smoking and limit alcohol consumption";
    "Get adequate sleep (7-9 hours per night)" ]
  ++ (if PyDict.mem "glucose" biomarker_data
         || PyDict.mem "hba1c" biomarker_data
      then [ "Limit refined carbohydrates and sugary foods";
             "Monitor carbohydrate intake and consider portion control" ]
      else [])
  ++ (if any_in lipid_names biomarker_data
      then [ "Reduce saturated and trans fats in your diet";
             "Increase intake of omega-3 fatty acids";
             "Consider soluble fiber supplements" ]
      else [])
  ++ (if PyDict.mem "tsh" biomarker_data
      then [ "Ensure adequate iodine intake through diet";
             "Consider selenium-rich foods (Brazil nuts, fish)" ]
      else [])
  ++ (if PyDict.mem "vitamin_d" biomarker_data
      then [ "Get regular sun exposure (15-30 minutes daily)";
             "Consider vitamin D supplementation if deficient" ]
      else []).

Definition _generate_monitoring_recommendations
    (biomarker_data : dict float)
    (contextual_knowledge : dict (list Retrieved)) : list string :=
  [ "Schedule regular follow-up lab tests as recommended by your healthcare provider";
    "Keep a record of your lab results to track trends over time" ]
  ++ (if PyDict.mem "glucose" biomarker_data
         || PyDict.mem "hba1c" biomarker_data
      then [ "Monitor blood glucose levels regularly if recommended by your doctor";
             "Consider HbA1c testing every 3-6 months" ]
      else [])
  ++ (if any_in lipid_names biomarker_data
      then [ "Monitor lipid profile every 6-12 months" ]
      else [])
  ++ (if PyDict.mem "tsh" biomarker_data
      then [ "Monitor thyroid function tests every 6-12 months" ]
      else []).

Definition _generate_recommendations
    (biomarker_data : dict float) (user_symptoms user_lifestyle : string)
    (contextual_knowledge : dict (list Retrieved)) : Pillar4 :=
  let critical_findings := _identify_critical_findings biomarker_data in
  let '(actions, required) :=
    match critical_findings with
    | [] => ([], false)
    | _ => ([] ++ critical_findings, true)
    end in
  {| title4 := "Clear, Actionable Recommendations";
     immediate_actions := actions;
     lifestyle_recommendations :=
       [] ++ _generate_lifestyle_recommendations
               biomarker_data user_lifestyle contextual_knowledge;
     monitoring_recommendations :=
       [] ++ _generate_monitoring_recommendations
               biomarker_data contextual_knowledge;
     medical_consultation_required := required |}.

(** [now] is the text of [datetime.now().isoformat()] at the call. In the
    source [user_symptoms] and [user_lifestyle] default to the empty
    string. *)
Definition analyze_health_report
    (now : string) (biomarker_data : dict float)
    (user_symptoms user_lifestyle : string) : result AnalysisReport :=
  contextual_knowledge ← _retrieve_contextual_knowledge biomarker_data;
  p1 ← _analyze_biomarkers biomarker_data contextual_knowledge;
  p2 ← _correlate_symptoms_biomarkers
         biomarker_data user_symptoms contextual_knowledge;
  let p3 := _generate_predictive_insights
              biomarker_data contextual_knowledge in
  let p4 := _generate_recommendations
              biomarker_data user_symptoms user_lifestyle
              contextual_knowledge in
  Ok {| disclaimer := medical_disclaimer;
        timestamp := now;
        pillar_1_biomarker_interpretation := p1;
        pillar_2_symptom_correlation := p2;
        pillar_3_predictive_insights := p3;
        pillar_4_actionable_recommendations := p4;
        contextual_knowledge_used := contextual_knowledge |}.

End HealthAnalyzer.

(** ** The shapes of text the specification speaks of *)

Module Shape.

Definition blank (s : string) : Prop :=
  PyStr.all_chars PyStr.is_space s = true.

(** A token: a non-empty run of characters that are not whitespace. *)
Definition word (s : string) : Prop :=
  s <> EmptyString /\ PyStr.all_chars (fun c => negb (PyStr.is_space c)) s = true.

(** [tok] is the first token of [s]. *)
Definition first_word (s tok : string) : Prop :=
  exists ws rest,
    s = ws +:+ tok +:+ rest /\ blank ws /\ word tok
    /\ (rest = EmptyString \/ PyStr.first_char PyStr.is_space rest = true).

(** [tok] is the last token of [s]. *)
Definition last_word (s tok : string) : Prop :=
  exists rest ws,
    s = rest +:+ tok +:+ ws /\ blank ws /\ word tok
    /\ (rest = EmptyString \/ PyStr.last_char PyStr.is_space rest = true).

(** [seg] is the text of [d] between its first [c] and the next [c] (or
    the end of [d]). *)
Definition after_first (c : ascii) (d seg : string) : Prop :=
  exists pre tail,
    d = pre +:+ String c (seg +:+ tail)
    /\ PyStr.contains_char c pre = false
    /\ PyStr.contains_char c seg = false
    /\ (tail = EmptyString
        \/ PyStr.first_char (fun x => Ascii.eqb x c) tail = true).

(** Neither end of [s] is a character of the class [p]. *)
Definition edge_free (p : ascii -> bool) (s : string) : Prop :=
  PyStr.first_char p s = false /\ PyStr.last_char p s = false.






End Shape.

(** The descriptors of a reference range, as [_classify_value] is specified
    to read them. *)
Section Descriptors.
Context `{PyBuiltins}.

(** No number stands first in [s]: [s] is blank, or its first token is not
    a float literal. *)
Definition no_number_first (s : string) : Prop :=
  Shape.blank s
  \/ exists tok, Shape.first_word s tok /\ py_float tok = None.

Definition no_number_last (s : string) : Prop :=
  Shape.blank s
  \/ exists tok, Shape.last_word s tok /\ py_float tok = None.

(** [d] is [a-b] with a single hyphen, and has no [<] and no [>]: the
    ranges the code reads, which tests [len(parts) == 2] after cutting at
    every hyphen. *)
Definition range_shape (d a b : string) : Prop :=
  PyStr.contains_char "<" d = false /\ PyStr.contains_char ">" d = false
  /\ d = a +:+ String "-" b
  /\ PyStr.contains_char "-" a = false /\ PyStr.contains_char "-" b = false.

(** The descriptors on which the parsing of the code fails: the token it
    reads (the first one after the sign, the last one before the hyphen,
    the first one after it) is missing or no number, there is no operator,
    or there is more than one hyphen. *)
Inductive parse_failure (d : string) : Prop :=
| fail_upper (seg : string) :
    Shape.after_first "<" d seg -> no_number_first seg -> parse_failure d
| fail_lower (seg : string) :
    PyStr.contains_char "<" d = false ->
    Shape.after_first ">" d seg -> no_number_first seg -> parse_failure d
| fail_no_operator :
    PyStr.contains_char "<" d = false -> PyStr.contains_char ">" d = false ->
    PyStr.contains_char "-" d = false -> parse_failure d
| fail_hyphens (a b : string) :
    PyStr.contains_char "<" d = false -> PyStr.contains_char ">" d = false ->
    d = a +:+ String "-" b ->
    PyStr.contains_char "-" a || PyStr.contains_char "-" b = true ->
    parse_failure d
| fail_range (a b : string) :
    range_shape d a b -> no_number_last a \/ no_number_first b ->
    parse_failure d.

End Descriptors.

(** ** What the specification says of the analyzer, in its own words *)

Section SpecWords.
Context `{PyBuiltins} `{VectorBackend}.

(** One of the three lipid conditions holds of a biomarker that is
    present. *)
Definition cardiovascular_trigger (biomarker_data : dict float) : Prop :=
  (exists tc, PyDict.get biomarker_data "total_cholesterol" = Some tc
              /\ (240 <=? tc)%float = true)
  \/ (exists ldl, PyDict.get biomarker_data "ldl" = Some ldl
                  /\ (160 <=? ldl)%float = true)
  \/ (exists hdl, PyDict.get biomarker_data "hdl" = Some hdl
                  /\ (hdl <? 40)%float = true).

(** [name] is one of the four biomarkers with a critical threshold, and
    [v] reaches it. *)
Definition is_critical (name : string) (v : float) : Prop :=
  (name = "glucose" /\ (300 <=? v)%float = true)
  \/ (name = "tsh" /\ (20 <=? v)%float = true)
  \/ (name = "creatinine" /\ (3.0 <=? v)%float = true)
  \/ (name = "crp" /\ (10.0 <=? v)%float = true).

Definition critical_breach (biomarker_data : dict float) : Prop :=
  exists name v, In (name, v) biomarker_data /\ is_critical name v.

Definition critical_message (name : string) (v : float) : string :=
  "CRITICAL: " +:+ name +:+ " level of " +:+ float_str v
  +:+ " requires immediate medical attention".

(** The categories detected the way the specification describes it: the
    text is put in lower case and cut into words, and a category counts
    when one of its keywords is one of those words. *)
Definition spec_detected_categories (user_symptoms : string) : list string :=
  let words := PyStr.split_ws (PyStr.lower user_symptoms) in
  (List.filter
     (fun entry : string * list string =>
        existsb (fun keyword => str_in keyword words) entry.2)
     common_symptoms).*1.

(** The severity order low < moderate < high, and the larger of two
    levels. *)
Definition severity (level : string) : nat :=
  if String.eqb level "high" then 2
  else if String.eqb level "moderate" then 1 else 0.

Definition max_severity (a b : string) : string :=
  if Nat.leb (severity a) (severity b) then b else a.

Definition glucose_band (glucose : float) : string :=
  if (126 <=? glucose)%float then "high"
  else if (100 <=? glucose)%float then "moderate" else "low".

Definition hba1c_band (hba1c : float) : string :=
  if (6.5 <=? hba1c)%float then "high"
  else if (5.7 <=? hba1c)%float then "moderate" else "low".

(** A knowledge base whose index, once built, can be searched: it has at
    least one entry, and [search] answers every [0 < k] with labels that
    are positions or the filler [-1]. *)
Definition index_ready (kb : MedicalKnowledgeBase) : Prop :=
  match vector_index kb, embedding_model kb with
  | Some index, Some model =>
      knowledge_texts kb <> []
      /\ forall query k, (0 < k)%Z ->
           exists hits,
             search index (normalize_L2 (encode model query)) k = Ok hits
             /\ Forall (fun h : float * Z => (-1 <= h.2)%Z) hits
  | _, _ => True
  end.

End SpecWords.

(** ** A small knowledge base *)

(** A corpus of two reference ranges over the flat index, built the way
    [load_reference_data] and [_create_knowledge_embeddings] build it: the
    ranges are parsed from the text of the source, one knowledge item is made
    per range, and the index holds the normalized embedding of each item's
    text. The encoder is a toy one with two dimensions (texts about glucose,
    other texts). *)
Module Example.

#[local] Existing Instance flat_backend.

Definition source : string :=
  String PyStr.dquote "glucose" +:+ String PyStr.dquote ": "
  +:+ String PyStr.dquote "70-100 mg/dL" +:+ String PyStr.dquote ","
  +:+ String PyStr.newline
     (String PyStr.dquote "tsh" +:+ String PyStr.dquote ": "
      +:+ String PyStr.dquote "0.4-4.0 mIU/L" +:+ String PyStr.dquote EmptyString).

Definition model (text : string) : list float :=
  if PyStr.substring_in "glucose" (PyStr.lower text)
  then [1%float; 0%float] else [0%float; 1%float].

Definition texts : list KnowledgeItem :=
  [ {| text := "Reference range for glucose: 70-100 mg/dL";
       type := "reference_range";
       tags := [("biomarker", "glucose"); ("source", "reference_ranges")] |};
    {| text := "Reference range for tsh: 0.4-4.0 mIU/L";
       type := "reference_range";
       tags := [("biomarker", "tsh"); ("source", "reference_ranges")] |} ].

Definition loaded : MedicalKnowledgeBase :=
  _parse_reference_ranges __init__ source.

Definition kb : MedicalKnowledgeBase :=
  {| reference_ranges := reference_ranges loaded;
     embedding_model := Some model;
     vector_index := Some (FlatIP.normalize <$> (model <$> (text <$> texts)));
     knowledge_texts := texts |}.

End Example.

(** ** More of knowledge_base.py: the abnormality mapping *)

Module PyStrMore.

(** [s.endswith(suffix)] *)
Fixpoint ends_with (suffix s : string) : bool :=
  String.eqb suffix s
  || match s with
     | EmptyString => false
     | String _ s' => ends_with suffix s'
     end.

(** [s[n:]] *)
Fixpoint drop (n : nat) (s : string) : string :=
  match n, s with
  | S n', String _ s' => drop n' s'
  | _, _ => s
  end.

(** [s[:-1]] *)
Fixpoint drop_last (s : string) : string :=
  match s with
  | EmptyString => EmptyString
  | String c EmptyString => EmptyString
  | String c s' => String c (drop_last s')
  end.

(** [s.split(sep)] for a separator of any positive length: the text is read
    from the left, and each occurrence of the separator found cuts and is
    passed over. [skip] counts the characters of a separator still to pass. *)
Fixpoint split_str_go (sep : string) (skip : nat) (s : string) : list string :=
  match s with
  | EmptyString => [EmptyString]
  | String c s' =>
      match skip with
      | S k => split_str_go sep k s'
      | O =>
          if PyStr.starts_with sep s then
            EmptyString :: split_str_go sep (String.length sep - 1) s'
          else match split_str_go sep 0 s' with
               | [] => [String c EmptyString]
               | h :: t => String c h :: t
               end
      end
  end.

Definition split_str (sep s : string) : list string := split_str_go sep 0 s.

End PyStrMore.

(** One entry of a list of [abnormalities_mapping]: the dict with the keys
    ['condition'] and ['prevalence']. *)
Record ConditionInfo : Type := {
  info_condition : string;
  info_prevalence : string;
}.

(** The opening of a tuple line, a parenthesis and a double quote, and the
    separator of its fields: a double quote, a comma, a space and a double
    quote. *)
Definition tuple_open : string := String "(" (String PyStr.dquote EmptyString).
Definition tuple_sep : string :=
  String PyStr.dquote (String "," (String " " (String PyStr.dquote EmptyString))).

(** The methods below read and write the attribute [abnormalities_mapping]
    only; it is passed and returned in place of [self]. *)

(** The body of the loop of [_parse_abnormalities_mapping], for one line.
    Nothing in the [try] can raise: the fields are read after the test on the
    number of parts. *)
Definition _parse_abnormalities_mapping_line
    (abnormalities_mapping : dict (list ConditionInfo)) (line : string)
    : dict (list ConditionInfo) :=
  let line := PyStr.strip_ws line in
  if PyStr.starts_with tuple_open line && PyStrMore.ends_with ")" line then
    if PyStr.starts_with tuple_open line && PyStr.substring_in tuple_sep line
    then
      let parts :=
        PyStrMore.split_str tuple_sep
          (PyStrMore.drop_last (PyStrMore.drop 2 line)) in
      match parts with
      | abnormality :: cond :: rest =>
          let prevalence :=
            match rest with
            | p :: _ => p
            | [] => EmptyString
            end in
          let entries :=
            default [] (PyDict.get abnormalities_mapping abnormality) in
          PyDict.set abnormalities_mapping abnormality
            (entries ++ [ {| info_condition := cond;
                             info_prevalence := prevalence |} ])
      | _ => abnormalities_mapping
      end
    else abnormalities_mapping
  else abnormalities_mapping.

Definition _parse_abnormalities_mapping
    (abnormalities_mapping : dict (list ConditionInfo)) (content : string)
    : dict (list ConditionInfo) :=
  fold_left _parse_abnormalities_mapping_line
    (PyStr.split_on PyStr.newline content) abnormalities_mapping.

Definition get_abnormalities_for_biomarker
    (abnormalities_mapping : dict (list ConditionInfo)) (biomarker : string)
    : list ConditionInfo :=
  flat_map
    (fun '(abnormality, conditions) =>
       if PyStr.substring_in (PyStr.lower biomarker) (PyStr.lower abnormality)
       then conditions else [])
    abnormalities_mapping.

(** ** More of knowledge_base.py: [analyze_biomarker_values] *)

Record BiomarkerAnalysis : Type := {
  analysis_value : float;
  analysis_reference_range : string;
  analysis_status : string;
  analysis_contextual_knowledge : list Retrieved;
}.

Section AnalyzeValues.
Context `{PyBuiltins} `{VectorBackend}.

Fixpoint analyze_biomarker_values_loop (self : MedicalKnowledgeBase)
    (items : list (string * float)) (analysis : dict BiomarkerAnalysis)
    : result (dict BiomarkerAnalysis) :=
  match items with
  | [] => Ok analysis
  | (biomarker, value) :: items' =>
      match reference_ranges self !! biomarker with
      | Some range_info =>
          knowledge ← retrieve_contextual_knowledge self
                        (biomarker +:+ " " +:+ float_str value) 3;
          analyze_biomarker_values_loop self items'
            (PyDict.set analysis biomarker
               {| analysis_value := value;
                  analysis_reference_range := range_info;
                  analysis_status := _classify_value value range_info;
                  analysis_contextual_knowledge := knowledge |})
      | None => analyze_biomarker_values_loop self items' analysis
      end
  end.

Definition analyze_biomarker_values (self : MedicalKnowledgeBase)
    (biomarker_values : dict float) : result (dict BiomarkerAnalysis) :=
  analyze_biomarker_values_loop self biomarker_values [].

End AnalyzeValues.

(** ** lab_report_processor.py: [validate_biomarker_values] *)

(** An entry of the result: ['range'] is absent for a biomarker without a
    validation range, ['note'] is absent for a valid value. *)
Record Validation : Type := {
  validated_value : float;
  validation_status : string;
  validation_range : option (float * float);
  validation_note : option string;
}.

Definition validation_ranges : dict (float * float) :=
  [ ("hemoglobin", (6.0, 20.0)%float);
    ("glucose", (50.0, 500.0)%float);
    ("hba1c", (3.0, 15.0)%float);
    ("total_cholesterol", (100.0, 500.0)%float);
    ("ldl", (50.0, 300.0)%float);
    ("hdl", (20.0, 100.0)%float);
    ("triglycerides", (50.0, 1000.0)%float);
    ("tsh", (0.1, 50.0)%float);
    ("t3", (50.0, 300.0)%float);
    ("t4", (0.5, 20.0)%float);
    ("creatinine", (0.3, 10.0)%float);
    ("vitamin_d", (5.0, 150.0)%float);
    ("crp", (0.1, 50.0)%float);
    ("esr", (1.0, 100.0)%float);
    ("wbc", (1.0, 50.0)%float);
    ("rbc", (2.0, 8.0)%float);
    ("platelets", (50.0, 1000.0)%float);
    ("mcv", (60.0, 120.0)%float);
    ("iron", (20.0, 300.0)%float);
    ("ferritin", (5.0, 1000.0)%float) ].

Section LabReportProcessor.
Context `{PyBuiltins}.

(** The entry [validate_biomarker_values] writes for one biomarker. *)
Definition validation_entry (biomarker : string) (value : float) : Validation :=
  match PyDict.get validation_ranges biomarker with
  | Some (min_val, max_val) =>
      if (min_val <=? value)%float && (value <=? max_val)%float then
        {| validated_value := value; validation_status := "valid";
           validation_range := Some (min_val, max_val);
           validation_note := None |}
      else
        {| validated_value := value; validation_status := "out_of_range";
           validation_range := Some (min_val, max_val);
           validation_note :=
             Some ("Value " +:+ float_str value
                   +:+ " is outside typical range " +:+ float_str min_val
                   +:+ "-" +:+ float_str max_val) |}
  | None =>
      {| validated_value := value; validation_status := "unknown_range";
         validation_range := None;
         validation_note := Some "No validation range defined" |}
  end.

Definition validate_biomarker_values (biomarkers : dict float)
    : dict Validation :=
  fold_left
    (fun validated '(biomarker, value) =>
       PyDict.set validated biomarker (validation_entry biomarker value))
    biomarkers [].

End LabReportProcessor.

(** ** What the further properties speak of *)

Section MoreWords.
Context `{PyBuiltins} `{VectorBackend}.

(** A tuple line of the abnormality source with three fields, blanks allowed
    around it. *)
Definition tuple_line (line abnormality cond prevalence : string) : Prop :=
  exists lead trail,
    line = lead +:+ tuple_open +:+ abnormality +:+ tuple_sep +:+ cond
           +:+ tuple_sep +:+ prevalence +:+ String PyStr.dquote ")" +:+ trail
    /\ Shape.blank lead /\ Shape.blank trail.

(** A tuple line with two fields. *)
Definition pair_line (line abnormality cond : string) : Prop :=
  exists lead trail,
    line = lead +:+ tuple_open +:+ abnormality +:+ tuple_sep +:+ cond
           +:+ String PyStr.dquote ")" +:+ trail
    /\ Shape.blank lead /\ Shape.blank trail.

Definition no_quote (s : string) : Prop :=
  PyStr.contains_char PyStr.dquote s = false.

(** A line that is no tuple line for the parser: stripped of its blanks it
    does not open with a parenthesis and a double quote, or does not end
    with a parenthesis, or holds no field separator. *)
Definition not_a_tuple (line : string) : Prop :=
  PyStr.starts_with tuple_open (PyStr.strip_ws line) = false
  \/ PyStrMore.ends_with ")" (PyStr.strip_ws line) = false
  \/ PyStr.substring_in tuple_sep (PyStr.strip_ws line) = false.

(** [old] is kept by [new]: every key of [old] is a key of [new], with the
    entries of [old] first and in their order. *)
Definition extends (old new : dict (list ConditionInfo)) : Prop :=
  forall abnormality entries,
    PyDict.get old abnormality = Some entries ->
    exists more, PyDict.get new abnormality = Some (entries ++ more).

(** The entries of the corpus that [_generate_biomarker_interpretation]
    can read: an item of type [abnormality_mapping] has a [condition]. *)
Definition item_readable (it : KnowledgeItem) : Prop :=
  type it = "abnormality_mapping" ->
  exists cond, PyDict.get (tags it) "condition" = Some cond.

(** A table of contextual knowledge whose items can all be read. *)
Definition readable_knowledge (ck : dict (list Retrieved)) : Prop :=
  forall name l,
    PyDict.get ck name = Some l ->
    Forall (fun r => item_readable (item r)) l.

(** The same biomarkers are present in two inputs. *)
Definition same_keys (a b : dict float) : Prop :=
  forall name, PyDict.mem name a = PyDict.mem name b.

(** The query made for one biomarker. *)
Definition query_of (name : string) (v : float) : string :=
  name +:+ " " +:+ float_str v +:+ " biomarker analysis".

Definition base_interpretation (name : string) (v : float) (st : string)
    : string :=
  "Your " +:+ name +:+ " level is " +:+ float_str v
  +:+ ", which is classified as " +:+ st +:+ ".".

End MoreWords.

(** One of the two inflammation conditions holds of a marker that is
    present. *)
Definition inflammation_trigger (biomarker_data : dict float) : Prop :=
  (exists crp, PyDict.get biomarker_data "crp" = Some crp
               /\ (3.0 <? crp)%float = true)
  \/ (exists esr, PyDict.get biomarker_data "esr" = Some esr
                  /\ (20 <? esr)%float = true).

(** ** The loops of the analyzer, by name

    The loops that the methods of [HealthAnalyzer] run over their input are
    local to the definitions above; they are given here once more, as
    functions of their own, for the proofs that go through them. Each method
    is shown below to be its loop ([..._loop_eq]). *)

Section AnalyzerLoops.
Context `{PyBuiltins} `{VectorBackend}.
Variable kb : MedicalKnowledgeBase.

Fixpoint contextual_loop (items : list (string * float))
    (contextual_knowledge : dict (list Retrieved))
    : result (dict (list Retrieved)) :=
  match items with
  | [] => Ok contextual_knowledge
  | (biomarker, value) :: items' =>
      let query :=
        biomarker +:+ " " +:+ float_str value +:+ " biomarker analysis" in
      knowledge ← retrieve_contextual_knowledge kb query 3;
      contextual_loop items'
        (PyDict.set contextual_knowledge biomarker knowledge)
  end.

Fixpoint interpretation_loop (insights : list Retrieved)
    (interpretation : string) : result string :=
  match insights with
  | [] => Ok interpretation
  | insight :: insights' =>
      if String.eqb (type (item insight)) "dataset_insight" then
        interpretation_loop insights'
          (interpretation +:+ " " +:+ text (item insight))
      else if String.eqb (type (item insight)) "abnormality_mapping" then
        cond ← of_option KeyError
                 (PyDict.get (tags (item insight)) "condition");
        interpretation_loop insights'
          (interpretation +:+ " This pattern is associated with "
           +:+ cond +:+ ".")
      else interpretation_loop insights' interpretation
  end.

Section WithKnowledge.
Variable contextual_knowledge : dict (list Retrieved).

Fixpoint biomarkers_loop
    (items : list (string * float)) (acc : dict BiomarkerEntry)
    : result (dict BiomarkerEntry) :=
  match items with
  | [] => Ok acc
  | (biomarker, value) :: items' =>
      let reference_range := get_biomarker_reference_range kb biomarker in
      let status :=
        _classify_biomarker_status biomarker value reference_range in
      let biomarker_knowledge :=
        default [] (PyDict.get contextual_knowledge biomarker) in
      interp ← _generate_biomarker_interpretation
                 biomarker value status biomarker_knowledge;
      biomarkers_loop items'
        (PyDict.set acc biomarker
           {| value := value; reference_range := reference_range;
              status := status; interpretation := interp;
              contextual_insights := biomarker_knowledge |})
  end.

Variable user_symptoms : string.

Fixpoint correlations_loop (items : list (string * float))
    : result (list Correlation) :=
  match items with
  | [] => Ok []
  | (biomarker, value) :: items' =>
      let biomarker_knowledge :=
        default [] (PyDict.get contextual_knowledge biomarker) in
      correlation ← _find_symptom_biomarker_correlation
                      biomarker value user_symptoms biomarker_knowledge;
      rest ← correlations_loop items';
      Ok (match correlation with
          | Some c => c :: rest
          | None => rest
          end)
  end.

End WithKnowledge.

End AnalyzerLoops.

(** ** The classifier, as the specification words it

    Section 4.4 of the specification reads a descriptor more loosely than
    [_classify_value] does: the threshold is the first numeric token after
    the sign, wherever it stands among the tokens; a range is cut at its
    first hyphen, and its bounds are the last numeric token before the
    hyphen and the first numeric token after it. A token is numeric when
    [float] reads it. The definitions below follow those words, for the
    comparison with the code. *)

Section SpecClassifier.
Context `{PyBuiltins}.





End SpecClassifier.

(** * Properties *)

(** ** Strings *)

Section StringFacts.

Import PyStr.

Lemma append_nil_l (s : string) : EmptyString +:+ s = s.
Proof. reflexivity. Qed.

Lemma append_cons (c : ascii) (s t : string) :
  String c s +:+ t = String c (s +:+ t).
Proof. reflexivity. Qed.

Lemma append_nil_r (s : string) : s +:+ EmptyString = s.
Proof.
  induction s as [|c s IH]; [done |]. by rewrite append_cons, IH.
Qed.

Lemma append_assoc (a b c : string) : (a +:+ b) +:+ c = a +:+ b +:+ c.
Proof.
  induction a as [|x a IH]; [done |]. by rewrite !append_cons, IH.
Qed.


Lemma all_chars_app (p : ascii -> bool) (a b : string) :
  all_chars p (a +:+ b) = all_chars p a && all_chars p b.
Proof.
  induction a as [|x a IH]; [done |]. rewrite append_cons. simpl.
  rewrite IH. by destruct (p x).
Qed.









(** *** [split()] *)





Lemma last_char_cons (p : ascii -> bool) (c c' : ascii) (s : string) :
  last_char p (String c (String c' s)) = last_char p (String c' s).
Proof. reflexivity. Qed.




(** Every text is blank or has a first and a last token. *)
Lemma blank_or_first_word (s : string) :
  Shape.blank s \/ exists tok, Shape.first_word s tok.
Proof.
  induction s as [|c s IH]; [by left |].
  destruct (is_space c) eqn:Hc.
  - destruct IH as [Hs|(tok & ws & rest & -> & Hws & Htok & Hrest)].
    + left. unfold Shape.blank. simpl. by rewrite Hc.
    + right. exists tok, (String c ws), rest. split; [done |].
      split; [|done]. unfold Shape.blank. simpl. by rewrite Hc.
  - right. clear IH. revert c Hc.
    induction s as [|c' s IH]; intros c Hc.
    + exists (String c EmptyString), EmptyString, EmptyString.
      repeat split; [done | | by left]. simpl. by rewrite Hc.
    + destruct (is_space c') eqn:Hc'.
      * exists (String c EmptyString), EmptyString, (String c' s).
        repeat split; [done | | by right]. simpl. by rewrite Hc.
      * destruct (IH c' Hc') as (tok & ws & rest & E & Hws & [_ Htok] & Hrest).
        destruct ws as [|w ws].
        -- rewrite append_nil_l in E.
           exists (String c tok), EmptyString, rest.
           rewrite append_nil_l, append_cons, <- E.
           repeat split; [done | | done]. simpl. by rewrite Hc.
        -- exfalso. rewrite append_cons in E. injection E as <- _.
           unfold Shape.blank in Hws. simpl in Hws. by rewrite Hc' in Hws.
Qed.

End StringFacts.

(** ** Floats *)

Section FloatFacts.



End FloatFacts.

(** ** Indexing *)

Section IndexFacts.
Context {A : Type}.

Lemma py_index_0 (x : A) (l : list A) : py_index (x :: l) 0 = Ok x.
Proof. reflexivity. Qed.




End IndexFacts.

(** ** [_classify_value] *)

Section ClassifyFacts.
Context `{PyBuiltins}.

Import PyStr.










Lemma contains_char_split (c : ascii) (s : string) :
  contains_char c s = true ->
  exists a b, s = a +:+ String c b /\ contains_char c a = false.
Proof.
  induction s as [|x s IH]; simpl; [done |].
  destruct (Ascii.eqb_spec x c) as [->|Hx]; simpl.
  - intros _. by exists EmptyString, s.
  - intros (a & b & -> & Ha)%IH. exists (String x a), b.
    split; [done |]. simpl. rewrite Ha.
    by destruct (Ascii.eqb_spec x c).
Qed.





Lemma after_first_exists (c : ascii) (d : string) :
  contains_char c d = true -> exists seg, Shape.after_first c d seg.
Proof.
  intros (pre & b & -> & Hpre)%contains_char_split.
  destruct (contains_char c b) eqn:Hb.
  - apply contains_char_split in Hb as (seg & b2 & -> & Hseg).
    exists seg, pre, (String c b2). repeat split; try done.
    right. simpl. apply Ascii.eqb_refl.
  - exists b, pre, EmptyString. rewrite append_nil_r.
    repeat split; try done. by left.
Qed.

Lemma blank_or_last_word (s : string) :
  Shape.blank s \/ exists tok, Shape.last_word s tok.
Proof.
  induction s as [|c s IH]; [by left |].
  destruct IH as [Hs|(tok & rest & ws & -> & Hws & [Hne Htok] & Hrest)].
  - destruct (is_space c) eqn:Hc.
    + left. unfold Shape.blank. simpl. by rewrite Hc.
    + right. exists (String c EmptyString), EmptyString, s.
      repeat split; [done | done | | by left]. simpl. by rewrite Hc.
  - right. destruct Hrest as [->|Hrest].
    + destruct (is_space c) eqn:Hc.
      * exists tok, (String c EmptyString), ws.
        repeat split; try done. by right.
      * exists (String c tok), EmptyString, ws.
        repeat split; try done; [|by left]. simpl. by rewrite Hc.
    + exists tok, (String c rest), ws. repeat split; try done.
      right. destruct rest as [|c' rest]; [done |]. by rewrite last_char_cons.
Qed.

(** Every descriptor has one of the three shapes with its numbers in
    place, or is one on which parsing fails. *)
Lemma classify_cases (d : string) :
  parse_failure d
  \/ (exists seg tok X,
        Shape.after_first "<" d seg /\ Shape.first_word seg tok
        /\ py_float tok = Some X)
  \/ (exists seg tok X,
        contains_char "<" d = false /\ Shape.after_first ">" d seg
        /\ Shape.first_word seg tok /\ py_float tok = Some X)
  \/ (exists a b tl th L Hi,
        range_shape d a b /\ Shape.last_word a tl /\ Shape.first_word b th
        /\ py_float tl = Some L /\ py_float th = Some Hi).
Proof.
  destruct (contains_char "<" d) eqn:Hlt.
  { destruct (after_first_exists _ _ Hlt) as (seg & Hseg).
    destruct (blank_or_first_word seg) as [Hb|(tok & Htok)].
    - left. eapply fail_upper; [done | by left].
    - destruct (py_float tok) as [X|] eqn:HX.
      + right; left. by exists seg, tok, X.
      + left. eapply fail_upper; [done | right; eauto]. }
  destruct (contains_char ">" d) eqn:Hgt.
  { destruct (after_first_exists _ _ Hgt) as (seg & Hseg).
    destruct (blank_or_first_word seg) as [Hb|(tok & Htok)].
    - left. eapply fail_lower; [done | done | by left].
    - destruct (py_float tok) as [X|] eqn:HX.
      + right; right; left. by exists seg, tok, X.
      + left. eapply fail_lower; [done | done | right; eauto]. }
  destruct (contains_char "-" d) eqn:Hhy; [|left; by apply fail_no_operator].
  destruct (contains_char_split _ _ Hhy) as (a & b & E & Ha).
  destruct (contains_char "-" b) eqn:Hb.
  { left. eapply fail_hyphens; try done. by rewrite Hb, orb_true_r. }
  assert (Hshape : range_shape d a b) by done.
  destruct (blank_or_last_word a) as [Hba|(tl & Htl)].
  { left. eapply fail_range; [done | left; by left]. }
  destruct (py_float tl) as [L|] eqn:HL;
    [|left; eapply fail_range; [done | left; right; eauto]].
  destruct (blank_or_first_word b) as [Hbb|(th & Hth)].
  { left. eapply fail_range; [done | right; by left]. }
  destruct (py_float th) as [Hi|] eqn:HHi;
    [|left; eapply fail_range; [done | right; right; eauto]].
  right; right; right. by exists a, b, tl, th, L, Hi.
Qed.

End ClassifyFacts.


(** ** [strip] *)

Section StripFacts.

Import PyStr.

Lemma first_char_app (p : ascii -> bool) (a b : string) :
  first_char p (a +:+ b)
  = if is_empty a then first_char p b else first_char p a.
Proof. by destruct a. Qed.

Lemma last_char_app (p : ascii -> bool) (a b : string) :
  last_char p (a +:+ b)
  = if is_empty b then last_char p a else last_char p b.
Proof.
  induction a as [|c a IH].
  - rewrite append_nil_l. by destruct b.
  - rewrite append_cons. destruct a as [|c' a].
    + rewrite append_nil_l. by destruct b.
    + rewrite append_cons in *. by rewrite !last_char_cons.
Qed.

Lemma is_empty_app (a b : string) :
  is_empty (a +:+ b) = is_empty a && is_empty b.
Proof. by destruct a. Qed.

Lemma lstrip_app (p : ascii -> bool) (lead body : string) :
  all_chars p lead = true -> first_char p body = false ->
  lstrip p (lead +:+ body) = body.
Proof.
  intros Hlead Hbody. induction lead as [|c lead IH].
  - rewrite append_nil_l. destruct body as [|c body]; [done |].
    simpl in *. by rewrite Hbody.
  - rewrite append_cons. simpl in *.
    apply andb_true_iff in Hlead as [-> Hlead]. by apply IH.
Qed.

Lemma rstrip_all (p : ascii -> bool) (s : string) :
  all_chars p s = true -> rstrip p s = EmptyString.
Proof.
  induction s as [|c s IH]; [done |]. simpl.
  intros [-> Hs]%andb_true_iff. by rewrite IH.
Qed.

Lemma rstrip_app (p : ascii -> bool) (body trail : string) :
  all_chars p trail = true -> last_char p body = false ->
  rstrip p (body +:+ trail) = body.
Proof.
  intros Htrail. induction body as [|c body IH]; intros Hbody.
  - rewrite append_nil_l. by apply rstrip_all.
  - rewrite append_cons. destruct body as [|c' body].
    + rewrite append_nil_l. simpl in *. by rewrite rstrip_all, Hbody.
    + rewrite last_char_cons in Hbody. simpl. simpl in IH.
      by rewrite (IH Hbody).
Qed.

(** Stripping takes the blanks of a class off both ends, and no more. *)
Lemma strip_app (p : ascii -> bool) (lead body trail : string) :
  all_chars p lead = true -> all_chars p trail = true ->
  Shape.edge_free p body ->
  strip p (lead +:+ body +:+ trail) = body.
Proof.
  intros Hlead Htrail [Hfirst Hlast]. unfold strip.
  destruct body as [|c body].
  - rewrite append_nil_l. rewrite <- (append_nil_r (lead +:+ trail)).
    rewrite lstrip_app; [done | | done].
    by rewrite all_chars_app, Hlead, Htrail.
  - rewrite lstrip_app; [by apply rstrip_app | done |].
    by rewrite first_char_app.
Qed.

Lemma strip_all (p : ascii -> bool) (s : string) :
  all_chars p s = true -> strip p s = EmptyString.
Proof.
  intros Hs. unfold strip.
  rewrite <- (append_nil_r s), lstrip_app; done.
Qed.

End StripFacts.

(** ** [_parse_reference_ranges] *)

Section ReferenceRangeFacts.

Import PyStr.









End ReferenceRangeFacts.


(** ** Symptoms *)

(** C10. A symptom text made of whitespace only (the empty text included)
    is handled as no symptoms at all, whatever the biomarkers: the note says
    so, no correlation is listed, and [symptoms_provided] is false. *)
Theorem whitespace_symptoms_as_none `{PyBuiltins}
    (biomarker_data : dict float) (user_symptoms : string)
    (contextual_knowledge : dict (list Retrieved)) :
  Shape.blank user_symptoms ->
  _correlate_symptoms_biomarkers biomarker_data user_symptoms
    contextual_knowledge
  = Ok {| title2 := "Correlation Between Symptoms and Biomarker Trends";
          correlations := [];
          symptom_analysis :=
            {| symptoms_provided := false; raw_symptoms := None;
               detected_categories := None |};
          note := Some "No symptoms provided for correlation analysis" |}
  /\ _correlate_symptoms_biomarkers biomarker_data user_symptoms
       contextual_knowledge
     = _correlate_symptoms_biomarkers biomarker_data EmptyString
         contextual_knowledge.
Proof.
  intros Hblank.
  unfold _correlate_symptoms_biomarkers, _analyze_symptoms, PyStr.strip_ws.
  by rewrite (strip_all _ _ Hblank).
Qed.

(** ** Retrieval *)

(** C7. Before the index is built (no index, or no embedding model),
    retrieval returns the empty list for every query and every [top_k], and
    raises nothing. *)
Theorem retrieve_before_index_built `{VectorBackend}
    (self : MedicalKnowledgeBase) (query : string) (top_k : Z) :
  vector_index self = None \/ embedding_model self = None ->
  retrieve_contextual_knowledge self query top_k = Ok [].
Proof.
  unfold retrieve_contextual_knowledge.
  intros [-> | ->]; [done |]. by destruct (vector_index self).
Qed.

Section RetrievalFacts.
Context `{VectorBackend}.

Lemma py_index_filler {A} (l : list A) (i : Z) :
  l <> [] -> (-1 <= i < Z.of_nat (length l))%Z ->
  exists x, py_index l i = Ok x.
Proof.
  intros Hne Hi. unfold py_index.
  assert (0 < length l) by (destruct l; [done | simpl; lia]).
  destruct (Z.leb_spec 0 i).
  - destruct (lookup_lt_is_Some_2 l (Z.to_nat i)) as (x & ->); [lia |].
    by exists x.
  - assert (i = (-1)%Z) as -> by lia.
    destruct (Z.leb_spec 0 (Z.of_nat (length l) + -1)); [|lia].
    destruct (lookup_lt_is_Some_2 l (Z.to_nat (Z.of_nat (length l) + -1)))
      as (x & ->); [lia |].
    by exists x.
Qed.

(** With labels that are positions or the filler, the loop raises nothing. *)
Lemma retrieve_loop_ok (texts : list KnowledgeItem) (hits : list (float * Z)) :
  texts <> [] ->
  Forall (fun h : float * Z => (-1 <= h.2)%Z) hits ->
  exists results, retrieve_loop texts hits = Ok results.
Proof.
  intros Hne Hall. induction Hall as [|[score idx] hits Hidx _ IH].
  - by exists [].
  - destruct IH as (rest & IH). simpl in *. rewrite IH.
    destruct (Z.ltb_spec idx (Z.of_nat (length texts))); [|by exists rest].
    destruct (py_index_filler texts idx Hne) as (x & ->); [lia |].
    simpl. eauto.
Qed.

(** With labels below the size of the corpus, no hit is dropped: the
    filler label passes the test [idx < len(knowledge_texts)] as every
    position does. *)
Lemma retrieve_loop_keeps_all (texts : list KnowledgeItem)
    (hits : list (float * Z)) :
  texts <> [] ->
  Forall (fun h : float * Z => (-1 <= h.2 < Z.of_nat (length texts))%Z) hits ->
  exists results,
    retrieve_loop texts hits = Ok results
    /\ relevance_score <$> results = hits.*1.
Proof.
  intros Hne Hall. induction Hall as [|[score idx] hits Hidx _ IH].
  - by exists [].
  - destruct IH as (rest & IH & Hscores). simpl in *. rewrite IH.
    destruct (Z.ltb_spec idx (Z.of_nat (length texts))); [|lia].
    destruct (py_index_filler texts idx Hne) as (x & ->); [lia |].
    simpl. eexists. split; [done |]. by rewrite !fmap_cons, Hscores.
Qed.

Lemma retrieve_ready (kb : MedicalKnowledgeBase) (query : string) (k : Z) :
  index_ready kb -> (0 < k)%Z ->
  exists results, retrieve_contextual_knowledge kb query k = Ok results.
Proof.
  unfold index_ready, retrieve_contextual_knowledge.
  destruct (vector_index kb) as [index|]; [|by eauto].
  destruct (embedding_model kb) as [model|]; [|by eauto].
  intros [Hne Hsearch] Hk.
  destruct (Hsearch query k Hk) as (hits & -> & Hhits). simpl.
  by apply retrieve_loop_ok.
Qed.

End RetrievalFacts.

(** ** The report *)

(** C8. With no biomarker, no symptom text and no lifestyle text, and a
    knowledge base that can be searched, [analyze_health_report] returns a
    report whose first pillar has no biomarker entry, whose third pillar has
    no risk assessment and the overall level low, and whose fourth pillar has
    the five general lifestyle items and the two general monitoring items
    and nothing else: no immediate action, and no consultation required. *)
Theorem empty_biomarkers_report `{PyBuiltins} `{VectorBackend}
    (kb : MedicalKnowledgeBase) (now : string) :
  index_ready kb ->
  exists report,
    analyze_health_report kb now [] EmptyString EmptyString = Ok report
    /\ biomarkers (pillar_1_biomarker_interpretation report) = []
    /\ risk_assessments (pillar_3_predictive_insights report) = []
    /\ overall_risk_level (pillar_3_predictive_insights report) = "low"
    /\ lifestyle_recommendations (pillar_4_actionable_recommendations report)
       = [ "Maintain a balanced diet rich in fruits, vegetables, and whole grains";
           "Engage in regular physical activity (at least 150 minutes per week)";
           "Maintain a healthy weight";
           "Avoid smoking and limit alcohol consumption";
           "Get adequate sleep (7-9 hours per night)" ]
    /\ monitoring_recommendations (pillar_4_actionable_recommendations report)
       = [ "Schedule regular follow-up lab tests as recommended by your healthcare provider";
           "Keep a record of your lab results to track trends over time" ]
    /\ immediate_actions (pillar_4_actionable_recommendations report) = []
    /\ medical_consultation_required
         (pillar_4_actionable_recommendations report) = false.
Proof.
  intros Hready.
  destruct (retrieve_ready kb "health risk assessment biomarker patterns" 5
              Hready) as (general & Hgeneral); [lia |].
  unfold analyze_health_report, _retrieve_contextual_knowledge.
  simpl. rewrite Hgeneral. simpl.
  eexists. split; [reflexivity |]. by repeat split.
Qed.

(** ** Risk assessors *)

(** C5. The cardiovascular assessor contributes nothing when none of
    [total_cholesterol >= 240], [ldl >= 160], [hdl < 40] holds of a biomarker
    that is present, and otherwise an entry whose [risk_level] is moderate;
    it never reports the level high. *)
Theorem cardiovascular_risk_never_high `{PyBuiltins}
    (biomarker_data : dict float)
    (contextual_knowledge : dict (list Retrieved)) :
  (~ cardiovascular_trigger biomarker_data <->
   _assess_cardiovascular_risk biomarker_data contextual_knowledge = None)
  /\ (cardiovascular_trigger biomarker_data <->
      exists r,
        _assess_cardiovascular_risk biomarker_data contextual_knowledge
        = Some r)
  /\ (forall r,
        _assess_cardiovascular_risk biomarker_data contextual_knowledge
        = Some r ->
        risk_level r = "moderate" /\ risk_level r <> "high").
Proof.
  unfold cardiovascular_trigger, _assess_cardiovascular_risk.
  destruct (PyDict.get biomarker_data "total_cholesterol") as [tc|];
    [destruct (240 <=? tc)%float eqn:Htc |];
    (destruct (PyDict.get biomarker_data "ldl") as [ldl|];
       [destruct (160 <=? ldl)%float eqn:Hldl |]);
    (destruct (PyDict.get biomarker_data "hdl") as [hdl|];
       [destruct (hdl <? 40)%float eqn:Hhdl |]);
    simpl;
    (split; [|split];
     [ split; [intros Hno; try done; exfalso; apply Hno; eauto 7
              | intros Hnone; try done;
                intros [(? & [= <-] & ?)|[(? & [= <-] & ?)|(? & [= <-] & ?)]];
                congruence ]
     | split; [intros Hyes; eauto;
               destruct Hyes as [(? & [= <-] & ?)|[(? & [= <-] & ?)
                                                  |(? & [= <-] & ?)]];
               congruence
              | intros (r & Hr); try done; eauto 7 ]
     | intros r [= <-]; by split ]).
Qed.

(** ** Critical findings *)

Section CriticalFacts.
Context `{PyBuiltins}.

Lemma starts_with_app (n b : string) : PyStr.starts_with n (n +:+ b) = true.
Proof.
  induction n as [|c n IH]; [by destruct b |].
  rewrite append_cons. simpl. by rewrite Ascii.eqb_refl, IH.
Qed.

Lemma substring_in_app (n a b : string) :
  PyStr.substring_in n (a +:+ n +:+ b) = true.
Proof.
  induction a as [|c a IH].
  - rewrite append_nil_l.
    destruct (n +:+ b) eqn:E; simpl; rewrite <- E, starts_with_app; done.
  - rewrite append_cons. simpl. by rewrite IH, orb_true_r.
Qed.

Lemma critical_message_names (name : string) (v : float) :
  PyStr.substring_in name (critical_message name v) = true.
Proof. apply (substring_in_app name "CRITICAL: "). Qed.

Lemma critical_findings_cons (name : string) (v : float) (bd : dict float) :
  _identify_critical_findings ((name, v) :: bd)
  = match PyDict.get critical_thresholds name with
    | Some threshold =>
        if (threshold <=? v)%float then [critical_message name v] else []
    | None => []
    end ++ _identify_critical_findings bd.
Proof. reflexivity. Qed.

Lemma get_cons {V} (k' k : string) (v : V) (d : dict V) :
  PyDict.get ((k', v) :: d) k
  = if String.eqb k' k then Some v else PyDict.get d k.
Proof. reflexivity. Qed.

(** The threshold table, read by key. *)
Lemma critical_threshold_spec (name : string) (v : float) :
  (exists threshold,
      PyDict.get critical_thresholds name = Some threshold
      /\ (threshold <=? v)%float = true)
  <-> is_critical name v.
Proof.
  unfold is_critical, critical_thresholds. rewrite !get_cons.
  destruct (String.eqb_spec "glucose" name) as [<-|Hg];
    [|destruct (String.eqb_spec "tsh" name) as [<-|Hs];
      [|destruct (String.eqb_spec "creatinine" name) as [<-|Hc];
        [|destruct (String.eqb_spec "crp" name) as [<-|Hp]]]].
  - split; [intros (t & [= <-] & Hv); by left |].
    intros [[_ Hv]|[[? _]|[[? _]|[? _]]]]; try done. eauto.
  - split; [intros (t & [= <-] & Hv); right; by left |].
    intros [[? _]|[[_ Hv]|[[? _]|[? _]]]]; try done. eauto.
  - split; [intros (t & [= <-] & Hv); right; right; by left |].
    intros [[? _]|[[? _]|[[_ Hv]|[? _]]]]; try done. eauto.
  - split; [intros (t & [= <-] & Hv); right; right; by right |].
    intros [[? _]|[[? _]|[[? _]|[_ Hv]]]]; try done. eauto.
  - split; [by intros (t & [=] & _) |].
    intros [[? _]|[[? _]|[[? _]|[? _]]]]; congruence.
Qed.

Lemma is_critical_dec (name : string) (v : float) :
  is_critical name v \/ ~ is_critical name v.
Proof.
  pose proof (critical_threshold_spec name v) as Hspec.
  destruct (PyDict.get critical_thresholds name) as [threshold|].
  - destruct (threshold <=? v)%float eqn:Hv.
    + left. apply Hspec. eauto.
    + right. intros (t & [= <-] & Ht)%Hspec. congruence.
  - right. by intros (t & [=] & _)%Hspec.
Qed.

Lemma critical_body (name : string) (v : float) :
  (is_critical name v
   /\ match PyDict.get critical_thresholds name with
      | Some threshold =>
          if (threshold <=? v)%float then [critical_message name v] else []
      | None => []
      end = [critical_message name v])
  \/ (~ is_critical name v
      /\ match PyDict.get critical_thresholds name with
         | Some threshold =>
             if (threshold <=? v)%float then [critical_message name v] else []
         | None => []
         end = []).
Proof.
  pose proof (critical_threshold_spec name v) as Hspec.
  destruct (PyDict.get critical_thresholds name) as [threshold|].
  - destruct (threshold <=? v)%float eqn:Hv.
    + left. split; [apply Hspec; eauto | done].
    + right. split; [|done].
      intros (t & [= <-] & Ht)%Hspec. congruence.
  - right. split; [|done]. by intros (t & [=] & _)%Hspec.
Qed.

Lemma critical_findings_in (name : string) (v : float) (bd : dict float) :
  In (name, v) bd -> is_critical name v ->
  In (critical_message name v) (_identify_critical_findings bd).
Proof.
  induction bd as [|[name' v'] bd IH]; [done |].
  rewrite critical_findings_cons. intros [[= -> ->]|Hin] Hcrit.
  - destruct (critical_body name v) as [[_ ->]|[Hno _]]; [by left | done].
  - apply in_or_app. right. by apply IH.
Qed.

Lemma critical_findings_nil (bd : dict float) :
  _identify_critical_findings bd = [] <-> ~ critical_breach bd.
Proof.
  unfold critical_breach. induction bd as [|[name v] bd IH].
  - split; [|done]. by intros _ (? & ? & [] & _).
  - rewrite critical_findings_cons.
    destruct (critical_body name v) as [[Hcrit ->]|[Hno ->]].
    + split; [done |]. intros Hnone. exfalso. apply Hnone.
      exists name, v. split; [by left | done].
    + rewrite app_nil_l, IH. split.
      * intros Hnone (name' & v' & [[= <- <-]|Hin] & Hcrit); [done |].
        apply Hnone. eauto.
      * intros Hnone (name' & v' & Hin & Hcrit). apply Hnone.
        exists name', v'. split; [by right | done].
Qed.

Lemma critical_breach_dec (bd : dict float) :
  critical_breach bd \/ ~ critical_breach bd.
Proof.
  unfold critical_breach. induction bd as [|[name v] bd IH].
  - right. by intros (? & ? & [] & _).
  - destruct (is_critical_dec name v) as [Hcrit|Hno].
    + left. exists name, v. split; [by left | done].
    + destruct IH as [(name' & v' & Hin & Hcrit)|Hnone].
      * left. exists name', v'. split; [by right | done].
      * right. intros (name' & v' & [[= <- <-]|Hin] & Hcrit); [done |].
        apply Hnone. eauto.
Qed.

End CriticalFacts.

(** C4. The flag [medical_consultation_required] of the recommendations is
    true exactly when some biomarker named glucose, tsh, creatinine or crp is
    present with a value at or above its critical threshold (300, 20, 3.0,
    10.0); every such biomarker then has its own entry in
    [immediate_actions], which names it; and without such a biomarker the
    flag is false and [immediate_actions] is empty. *)
Theorem critical_findings_spec `{PyBuiltins}
    (biomarker_data : dict float) (user_symptoms user_lifestyle : string)
    (contextual_knowledge : dict (list Retrieved)) :
  let p4 := _generate_recommendations biomarker_data user_symptoms
              user_lifestyle contextual_knowledge in
  (medical_consultation_required p4 = true <-> critical_breach biomarker_data)
  /\ (forall name v,
        In (name, v) biomarker_data -> is_critical name v ->
        In (critical_message name v) (immediate_actions p4)
        /\ PyStr.substring_in name (critical_message name v) = true)
  /\ (~ critical_breach biomarker_data ->
      medical_consultation_required p4 = false /\ immediate_actions p4 = []).
Proof.
  unfold _generate_recommendations. simpl.
  pose proof (critical_findings_nil biomarker_data) as Hnil.
  pose proof (critical_findings_in) as Hin.
  destruct (_identify_critical_findings biomarker_data) as [|m ms] eqn:E;
    simpl.
  - split; [|split].
    + split; [done |]. intros Hbreach. by apply Hnil in Hbreach.
    + intros name v Hmem Hcrit. specialize (Hin name v _ Hmem Hcrit).
      by rewrite E in Hin.
    + done.
  - assert (Hbreach : critical_breach biomarker_data).
    { destruct (critical_breach_dec biomarker_data) as [Hb|Hb]; [done |].
      by apply Hnil in Hb. }
    split; [|split].
    + done.
    + intros name v Hmem Hcrit. split; [|apply critical_message_names].
      specialize (Hin name v _ Hmem Hcrit). by rewrite E in Hin.
    + done.
Qed.

(** ** Words and substrings *)

Section SymptomFacts.

Import PyStr.

(** Every token of a text stands in the text, and a text that starts with
    a character other than whitespace starts with its first token. *)
Lemma split_ws_tokens (s : string) :
  (forall tok, In tok (split_ws s) -> exists a b, s = a +:+ tok +:+ b)
  /\ (first_char (fun c => negb (is_space c)) s = true ->
      exists h t b, split_ws s = h :: t /\ s = h +:+ b).
Proof.
  induction s as [|c s [IHin IHhead]]; [by split |].
  destruct (is_space c) eqn:Hc.
  { split; [|by simpl; rewrite Hc].
    simpl. rewrite Hc. intros tok (a & b & ->)%IHin.
    by exists (String c a), b. }
  destruct s as [|c' s].
  { split.
    - simpl. rewrite Hc. intros tok [<-|[]].
      by exists EmptyString, EmptyString.
    - intros _. simpl. rewrite Hc.
      by exists (String c EmptyString), [], EmptyString. }
  change (split_ws (String c (String c' s)))
    with (if is_space c then split_ws (String c' s)
          else if is_space c' then
                 String c EmptyString :: split_ws (String c' s)
               else match split_ws (String c' s) with
                    | [] => [String c EmptyString]
                    | h :: t => String c h :: t
                    end).
  rewrite Hc. destruct (is_space c') eqn:Hc'.
  { split.
    - intros tok [<-|(a & b & ->)%IHin].
      + by exists EmptyString, (String c' s).
      + by exists (String c a), b.
    - intros _. by exists (String c EmptyString), (split_ws (String c' s)),
                  (String c' s). }
  destruct IHhead as (h & t & b & E & Hs); [by simpl; rewrite Hc' |].
  rewrite E in IHin |- *. split.
  - intros tok [<-|Hin].
    + exists EmptyString, b. by rewrite append_nil_l, append_cons, <- Hs.
    + destruct (IHin tok (or_intror Hin)) as (a & b' & ->).
      by exists (String c a), b'.
  - intros _. exists (String c h), t, b. by rewrite append_cons, <- Hs.
Qed.

Lemma token_is_substring (tok s : string) :
  In tok (split_ws s) -> substring_in tok s = true.
Proof.
  intros (a & b & ->)%(proj1 (split_ws_tokens s)). apply substring_in_app.
Qed.

Lemma str_in_In (x : string) (l : list string) :
  str_in x l = true -> In x l.
Proof.
  unfold str_in. intros (y & Hy & ->%String.eqb_eq)%existsb_exists. done.
Qed.

Lemma keyword_filter_mono (text category : string)
    (table : dict (list string)) :
  In category
    (List.filter
       (fun entry : string * list string =>
          existsb (fun keyword => str_in keyword (split_ws text)) entry.2)
       table).*1 ->
  In category
    (List.filter
       (fun entry : string * list string =>
          existsb (fun symptom => substring_in symptom text) entry.2)
       table).*1.
Proof.
  induction table as [|[cat keywords] table IH]; [done |].
  cbn [List.filter snd].
  destruct (existsb (fun keyword => str_in keyword (split_ws text)) keywords)
    eqn:Hspec.
  - apply existsb_exists in Hspec as (kw & Hkw & Htok).
    apply str_in_In, token_is_substring in Htok.
    assert (existsb (fun symptom => substring_in symptom text) keywords = true)
      as ->.
    { apply existsb_exists. eauto. }
    rewrite !fmap_cons. intros [<-|Hin]; [by left | right; by apply IH].
  - intros Hin%IH.
    destruct (existsb (fun symptom => substring_in symptom text) keywords);
      [rewrite fmap_cons; by right | done].
Qed.

(** One half of the specified behaviour holds: a category with a keyword
    among the words of a text that is not blank is detected. *)
Lemma token_keyword_is_detected (user_symptoms category : string) :
  is_empty (strip_ws user_symptoms) = false ->
  In category (spec_detected_categories user_symptoms) ->
  exists detected,
    detected_categories (_analyze_symptoms user_symptoms) = Some detected
    /\ In category detected.
Proof.
  intros Hne Hin. unfold _analyze_symptoms. rewrite Hne.
  eexists. split; [done |]. by apply keyword_filter_mono.
Qed.

End SymptomFacts.

(** ** Where the code departs from the specification *)

Section DiabetesFacts.
Context `{PyBuiltins}.

(** What [_assess_diabetes_risk] reports when both biomarkers are present:
    the band of HbA1c when it is not low, and only otherwise the band of
    glucose. *)
Lemma diabetes_risk_level (biomarker_data : dict float)
    (contextual_knowledge : dict (list Retrieved))
    (glucose hba1c : float) (r : RiskAssessment) :
  PyDict.get biomarker_data "glucose" = Some glucose ->
  PyDict.get biomarker_data "hba1c" = Some hba1c ->
  _assess_diabetes_risk biomarker_data contextual_knowledge = Some r ->
  risk_level r
  = if String.eqb (hba1c_band hba1c) "low" then glucose_band glucose
    else hba1c_band hba1c.
Proof.
  unfold _assess_diabetes_risk, glucose_band, hba1c_band.
  intros -> ->.
  destruct (126 <=? glucose)%float, (100 <=? glucose)%float,
    (6.5 <=? hba1c)%float, (5.7 <=? hba1c)%float; simpl;
    by intros [= <-].
Qed.

(** The reported level is the larger of the two bands in every case but
    one: glucose in its high band with HbA1c in its moderate band. *)
Lemma diabetes_risk_level_max (biomarker_data : dict float)
    (contextual_knowledge : dict (list Retrieved))
    (glucose hba1c : float) (r : RiskAssessment) :
  PyDict.get biomarker_data "glucose" = Some glucose ->
  PyDict.get biomarker_data "hba1c" = Some hba1c ->
  _assess_diabetes_risk biomarker_data contextual_knowledge = Some r ->
  (glucose_band glucose = "high" /\ hba1c_band hba1c = "moderate"
   /\ risk_level r = "moderate")
  \/ risk_level r = max_severity (glucose_band glucose) (hba1c_band hba1c).
Proof.
  intros Hg Hh Hr. rewrite (diabetes_risk_level _ _ _ _ _ Hg Hh Hr).
  unfold glucose_band, hba1c_band.
  destruct (126 <=? glucose)%float, (100 <=? glucose)%float,
    (6.5 <=? hba1c)%float, (5.7 <=? hba1c)%float; simpl; auto.
Qed.

End DiabetesFacts.

(** C3. With glucose 130 (high band) and HbA1c 6.0 (moderate band) the
    largest severity is high, and [_assess_diabetes_risk] reports moderate:
    the level set for glucose is overwritten by the one set for HbA1c. *)
Theorem diabetes_risk_downgraded `{PyBuiltins}
    (contextual_knowledge : dict (list Retrieved)) :
  glucose_band 130 = "high"
  /\ hba1c_band 6.0 = "moderate"
  /\ max_severity (glucose_band 130) (hba1c_band 6.0) = "high"
  /\ risk_level <$>
       _assess_diabetes_risk [("glucose", 130%float); ("hba1c", 6.0%float)]
         contextual_knowledge
     = Some "moderate".
Proof. by repeat split. Qed.

(** C6. In the text [I keep painting again] no word is a keyword of any
    category, yet [_analyze_symptoms] reports two categories: the keyword
    [gain] is found inside [again] and the keyword [pain] inside
    [painting], since the test made is the substring test on the whole
    text. *)
Theorem symptom_keywords_match_inside_words :
  PyStr.split_ws (PyStr.lower "I keep painting again")
  = ["i"; "keep"; "painting"; "again"]
  /\ spec_detected_categories "I keep painting again" = []
  /\ detected_categories (_analyze_symptoms "I keep painting again")
     = Some ["weight_changes"; "cardiovascular"].
Proof. by repeat split. Qed.

(** C2. On the corpus of two items, retrieval with [top_k = 3] returns three
    results, one more than the corpus holds: the place the index fills with
    the label [-1] passes the test [idx < len(knowledge_texts)], and
    [knowledge_texts[-1]] is the last item, returned a second time with the
    filler score. *)
Theorem retrieve_returns_filler_hit :
  exists first second,
    retrieve_contextual_knowledge Example.kb
      "glucose 110.0 biomarker analysis" 3
    = Ok [ {| item := first; relevance_score := 1%float |};
           {| item := second; relevance_score := 0%float |};
           {| item := second; relevance_score := FlatIP.neg_flt_max |} ]
    /\ Example.texts = [first; second]
    /\ Nat.min 3 (length (knowledge_texts Example.kb)) = 2.
Proof. do 2 eexists. by repeat split. Qed.

(** ** The flat index answers every search *)

Section FlatIndexFacts.

Lemma insert_hit_Forall (P : float * Z -> Prop) (h : float * Z)
    (l : list (float * Z)) :
  P h -> Forall P l -> Forall P (FlatIP.insert_hit h l).
Proof.
  intros Hh Hl. induction Hl as [|h' l Hh' Hl IH]; simpl.
  - by constructor.
  - destruct (h'.1 <=? h.1)%float; repeat constructor; done.
Qed.

Lemma insert_hit_length (h : float * Z) (l : list (float * Z)) :
  length (FlatIP.insert_hit h l) = S (length l).
Proof.
  induction l as [|h' l IH]; simpl; [done |].
  destruct (h'.1 <=? h.1)%float; simpl; by rewrite ?IH.
Qed.

Lemma ranked_labels (index : list (list float)) (q : list float) :
  Forall (fun h : float * Z => (0 <= h.2 < Z.of_nat (length index))%Z)
    (FlatIP.ranked index q).
Proof.
  unfold FlatIP.ranked.
  assert (Hall : Forall (fun h : float * Z =>
                           (0 <= h.2 < Z.of_nat (length index))%Z)
                   (imap (fun i x => (FlatIP.inner_product q x, Z.of_nat i))
                      index)).
  { apply Forall_forall. intros h (i & Hi)%list_elem_of_lookup_1.
    rewrite list_lookup_imap in Hi.
    destruct (index !! i) as [x|] eqn:Hx; [|done].
    apply lookup_lt_Some in Hx. injection Hi as <-. simpl. lia. }
  induction Hall as [|h l Hh Hl IH]; simpl; [done |].
  by apply insert_hit_Forall.
Qed.

Lemma ranked_length (index : list (list float)) (q : list float) :
  length (FlatIP.ranked index q) = length index.
Proof.
  unfold FlatIP.ranked.
  rewrite <- (length_imap
                (fun i x => (FlatIP.inner_product q x, Z.of_nat i)) index).
  induction (imap _ index) as [|h l IH]; simpl; [done |].
  by rewrite insert_hit_length, IH.
Qed.

(** The contract of [search]: for [0 < k], exactly [k] hits, each with a
    position of the index or the filler [-1] as its label. *)
Lemma flat_search_contract (index : list (list float)) (q : list float)
    (k : Z) :
  (0 < k)%Z ->
  exists hits,
    FlatIP.search index q k = Ok hits
    /\ length hits = Z.to_nat k
    /\ Forall (fun h : float * Z =>
                 (-1 <= h.2 < Z.of_nat (length index))%Z) hits.
Proof.
  intros Hk. unfold FlatIP.search.
  destruct (Z.leb_spec k 0); [lia |].
  eexists. split; [done |]. split.
  - rewrite length_app, length_replicate, length_take. lia.
  - apply Forall_app. split.
    + apply Forall_take.
      eapply Forall_impl; [apply ranked_labels |]. simpl. lia.
    + apply Forall_replicate. simpl. lia.
Qed.

(** Over the flat index, a search with [0 < k] in a corpus that is not
    empty returns exactly [k] results, however few items the corpus has, in
    the order of the hits of the index. *)
Lemma flat_retrieve_length (kb : @MedicalKnowledgeBase flat_backend)
    (index : list (list float)) (model : string -> list float)
    (query : string) (k : Z) :
  vector_index kb = Some index -> embedding_model kb = Some model ->
  knowledge_texts kb <> [] ->
  length index = length (knowledge_texts kb) ->
  (0 < k)%Z ->
  exists results,
    @retrieve_contextual_knowledge flat_backend kb query k = Ok results
    /\ length results = Z.to_nat k.
Proof.
  intros Hindex Hmodel Hne Hlen Hk. unfold retrieve_contextual_knowledge.
  rewrite Hindex, Hmodel.
  destruct (flat_search_contract index (FlatIP.normalize (model query)) k Hk)
    as (hits & Hsearch & Hhits & Hlabels).
  change (@search flat_backend index
            (@normalize_L2 flat_backend (@encode flat_backend model query)) k)
    with (FlatIP.search index (FlatIP.normalize (model query)) k).
  rewrite Hsearch. simpl. rewrite Hlen in Hlabels.
  destruct (retrieve_loop_keeps_all _ _ Hne Hlabels) as (results & -> & Hscores).
  exists results. split; [done |].
  by rewrite <- Hhits, <- (length_fmap relevance_score), Hscores, length_fmap.
Qed.

Lemma example_kb_ready : @index_ready flat_backend Example.kb.
Proof.
  split; [done |]. intros query k Hk.
  destruct (flat_search_contract
              (FlatIP.normalize <$> (Example.model <$> (text <$> Example.texts)))
              (FlatIP.normalize (Example.model query)) k Hk)
    as (hits & Hsearch & _ & Hlabels).
  exists hits. split; [done |].
  eapply Forall_impl; [done |]. simpl. lia.
Qed.

End FlatIndexFacts.

(** ** The theorems on concrete inputs *)





Lemma whitespace_symptoms_as_none_witness :
  @_correlate_symptoms_biomarkers python_builtins
    [("tsh", 6.2%float)] (String " " (String PyStr.newline " ")) []
  = @_correlate_symptoms_biomarkers python_builtins
      [("tsh", 6.2%float)] EmptyString [].
Proof.
  apply (@whitespace_symptoms_as_none python_builtins). reflexivity.
Defined.

Lemma retrieve_before_index_built_witness :
  @retrieve_contextual_knowledge flat_backend Example.loaded "tsh" 5 = Ok [].
Proof.
  apply (@retrieve_before_index_built flat_backend). left. reflexivity.
Defined.

Lemma empty_biomarkers_report_witness :
  exists report,
    @analyze_health_report python_builtins flat_backend Example.kb
      "2026-01-01T00:00:00" [] EmptyString EmptyString = Ok report
    /\ overall_risk_level (pillar_3_predictive_insights report) = "low"
    /\ medical_consultation_required
         (pillar_4_actionable_recommendations report) = false.
Proof.
  destruct (@empty_biomarkers_report python_builtins flat_backend Example.kb
              "2026-01-01T00:00:00" example_kb_ready)
    as (report & Hreport & _ & _ & Hlow & _ & _ & _ & Hflag).
  by exists report.
Defined.

Lemma cardiovascular_risk_never_high_witness :
  risk_level <$>
    @_assess_cardiovascular_risk python_builtins
      [("total_cholesterol", 320%float); ("ldl", 250%float); ("hdl", 20%float)]
      []
  = Some "moderate".
Proof.
  destruct (@cardiovascular_risk_never_high python_builtins
              [("total_cholesterol", 320%float); ("ldl", 250%float);
               ("hdl", 20%float)] []) as (_ & [Hsome _] & Hlevel).
  destruct Hsome as (r & Hr).
  - left. by exists 320%float.
  - rewrite Hr. simpl. by destruct (Hlevel r Hr) as [-> _].
Defined.

Lemma critical_findings_spec_witness :
  let p4 := @_generate_recommendations python_builtins
              [("glucose", 305%float)] EmptyString EmptyString [] in
  medical_consultation_required p4 = true
  /\ In "CRITICAL: glucose level of 305.0 requires immediate medical attention"
       (immediate_actions p4).
Proof.
  destruct (@critical_findings_spec python_builtins
              [("glucose", 305%float)] EmptyString EmptyString [])
    as (Hflag & Hentry & _).
  split.
  - apply Hflag. exists "glucose", 305%float. split; [by left | by left].
  - apply (Hentry "glucose" 305%float); [by left | by left].
Defined.


(** The scenario of the specification, on the small knowledge base: the
    diabetes and thyroid assessors report moderate, the cardiovascular one
    nothing, the overall level is moderate and no consultation is required. *)
Example scenario_of_the_specification :
  (fun report : AnalysisReport =>
     ((fun r => (condition r, risk_level r)) <$>
        risk_assessments (pillar_3_predictive_insights report),
      overall_risk_level (pillar_3_predictive_insights report),
      medical_consultation_required
        (pillar_4_actionable_recommendations report)))
  <$> match
        @analyze_health_report python_builtins flat_backend Example.kb
          "2026-01-01T00:00:00"
          [ ("glucose", 110%float); ("hba1c", 5.8%float);
            ("total_cholesterol", 220%float); ("ldl", 140%float);
            ("hdl", 45%float); ("tsh", 6.2%float); ("crp", 2.5%float);
            ("vitamin_d", 18.0%float) ]
          "tired, joint pain, cold, hair thinning" EmptyString
      with
      | Ok report => Some report
      | Raise _ => None
      end
  = Some ([ ("Diabetes/Pre-diabetes", "moderate");
            ("Thyroid Dysfunction", "moderate") ],
          "moderate", false).
Proof. vm_compute. reflexivity. Qed.

Example float_literals :
  PyFloat.float_of_string " 1_000.5e-3 " = Some 1.0005%float
  /\ PyFloat.float_of_string "5.7" = Some 5.7%float
  /\ PyFloat.float_of_string "200mg" = None
  /\ PyFloat.repr 305 = "305.0"
  /\ PyFloat.repr 5.8 = "5.8"
  /\ PyFloat.repr 1e22 = "1e+22".
Proof. vm_compute. by repeat split. Qed.

Example split_and_strip :
  PyStr.split_on "<" "a <5 <x" = ["a "; "5 "; "x"]
  /\ PyStr.split_ws "  70 - 100  mg/dL " = ["70"; "-"; "100"; "mg/dL"]
  /\ PyStr.split_once ":" "a: b: c" = ["a"; " b: c"]
  /\ PyStr.strip_chars (String PyStr.dquote ",")
       (PyStr.strip_ws
          (" " +:+ String PyStr.dquote ("<200" +:+ String PyStr.dquote ", ")))
     = "<200".
Proof. by repeat split. Qed.

(** * Further properties *)

(** ** Dictionaries *)

Section DictFacts.
Context {V : Type}.

Lemma get_set_eq (d : dict V) (k : string) (v : V) :
  PyDict.get (PyDict.set d k v) k = Some v.
Proof.
  induction d as [|[k' v'] d IH]; simpl.
  - by rewrite String.eqb_refl.
  - destruct (String.eqb_spec k' k) as [->|Hne]; simpl.
    + by rewrite String.eqb_refl.
    + by destruct (String.eqb_spec k' k).
Qed.

Lemma get_set_ne (d : dict V) (k k' : string) (v : V) :
  k <> k' -> PyDict.get (PyDict.set d k v) k' = PyDict.get d k'.
Proof.
  intros Hne. induction d as [|[k0 v0] d IH]; simpl.
  - by destruct (String.eqb_spec k k').
  - destruct (String.eqb_spec k0 k) as [->|Hk0]; simpl.
    + by destruct (String.eqb_spec k k').
    + by rewrite IH.
Qed.

Lemma get_In (d : dict V) (k : string) (v : V) :
  PyDict.get d k = Some v -> In (k, v) d.
Proof.
  induction d as [|[k' v'] d IH]; simpl; [done |].
  destruct (String.eqb_spec k' k) as [->|Hne].
  - intros [= ->]. by left.
  - intros Hget. right. by apply IH.
Qed.

Lemma In_get (d : dict V) (k : string) (v : V) :
  In (k, v) d -> exists v', PyDict.get d k = Some v'.
Proof.
  induction d as [|[k' v'] d IH]; simpl; [done |].
  intros [[= -> ->]|Hin].
  - rewrite String.eqb_refl. eauto.
  - destruct (String.eqb k' k); eauto.
Qed.

(** Writing a key keeps the keys in place, a new key going last. *)
Lemma set_keys (d : dict V) (k : string) (v : V) :
  (PyDict.set d k v).*1 = if PyDict.mem k d then d.*1 else d.*1 ++ [k].
Proof.
  unfold PyDict.mem. induction d as [|[k' v'] d IH]; [done |].
  cbn [PyDict.set PyDict.get].
  destruct (String.eqb_spec k' k) as [->|Hne]; [done |].
  rewrite !fmap_cons, IH. by destruct (PyDict.get d k).
Qed.

Lemma mem_In_keys (d : dict V) (k : string) :
  PyDict.mem k d = true <-> In k d.*1.
Proof.
  unfold PyDict.mem. induction d as [|[k' v'] d IH]; [done |].
  cbn [PyDict.get]. rewrite fmap_cons. cbn [fst In].
  destruct (String.eqb_spec k' k) as [->|Hne].
  - split; [by left | done].
  - rewrite IH. split; [by right | by intros [?|?]].
Qed.

End DictFacts.

(** ** The other risk assessors *)

Section MoreRiskFacts.
Context `{PyBuiltins}.

Lemma diabetes_entry (bd : dict float) (ck : dict (list Retrieved))
    (r : RiskAssessment) :
  _assess_diabetes_risk bd ck = Some r ->
  condition r = "Diabetes/Pre-diabetes"
  /\ (risk_level r = "moderate" \/ risk_level r = "high").
Proof.
  unfold _assess_diabetes_risk.
  destruct (PyDict.get bd "glucose") as [g|];
    [destruct (126 <=? g)%float, (100 <=? g)%float |];
    (destruct (PyDict.get bd "hba1c") as [h|];
       [destruct (6.5 <=? h)%float, (5.7 <=? h)%float |]);
    simpl; intros [= <-]; simpl; auto.
Qed.

Lemma cardiovascular_entry (bd : dict float) (ck : dict (list Retrieved))
    (r : RiskAssessment) :
  _assess_cardiovascular_risk bd ck = Some r ->
  condition r = "Cardiovascular Disease"
  /\ (risk_level r = "moderate" \/ risk_level r = "high").
Proof.
  unfold _assess_cardiovascular_risk.
  destruct (PyDict.get bd "total_cholesterol") as [tc|];
    [destruct (240 <=? tc)%float |];
    (destruct (PyDict.get bd "ldl") as [ldl|];
       [destruct (160 <=? ldl)%float |]);
    (destruct (PyDict.get bd "hdl") as [hdl|];
       [destruct (hdl <? 40)%float |]);
    simpl; intros [= <-]; simpl; auto.
Qed.

Lemma thyroid_entry (bd : dict float) (ck : dict (list Retrieved))
    (r : RiskAssessment) :
  _assess_thyroid_risk bd ck = Some r ->
  condition r = "Thyroid Dysfunction"
  /\ (risk_level r = "moderate" \/ risk_level r = "high").
Proof.
  unfold _assess_thyroid_risk.
  destruct (PyDict.get bd "tsh") as [tsh|]; [|done].
  destruct (10 <? tsh)%float, (4.5 <? tsh)%float, (tsh <? 0.4)%float;
    simpl; intros [= <-]; simpl; auto.
Qed.

Lemma inflammation_entry (bd : dict float) (ck : dict (list Retrieved))
    (r : RiskAssessment) :
  _assess_inflammation_risk bd ck = Some r ->
  condition r = "Inflammation"
  /\ (risk_level r = "moderate" \/ risk_level r = "high").
Proof.
  unfold _assess_inflammation_risk.
  destruct (PyDict.get bd "crp") as [crp|];
    [destruct (3.0 <? crp)%float |];
    (destruct (PyDict.get bd "esr") as [esr|];
       [destruct (20 <? esr)%float |]);
    simpl; intros [= <-]; simpl; auto.
Qed.

End MoreRiskFacts.

(** X1. The thyroid assessor, for a TSH value that is present: it
    contributes nothing exactly when none of [tsh > 10], [tsh > 4.5],
    [tsh < 0.4] holds; an entry it contributes has exactly one risk factor,
    and its level is high exactly when [tsh > 10] and moderate otherwise. *)
Theorem thyroid_risk_bands `{PyBuiltins}
    (biomarker_data : dict float)
    (contextual_knowledge : dict (list Retrieved)) (tsh : float) :
  PyDict.get biomarker_data "tsh" = Some tsh ->
  (_assess_thyroid_risk biomarker_data contextual_knowledge = None
   <-> (10 <? tsh)%float = false /\ (4.5 <? tsh)%float = false
       /\ (tsh <? 0.4)%float = false)
  /\ (forall r,
        _assess_thyroid_risk biomarker_data contextual_knowledge = Some r ->
        length (risk_factors r) = 1
        /\ (risk_level r = "high" <-> (10 <? tsh)%float = true)
        /\ (risk_level r = "moderate" <-> (10 <? tsh)%float = false)).
Proof.
  intros Htsh. unfold _assess_thyroid_risk. rewrite Htsh.
  destruct (10 <? tsh)%float, (4.5 <? tsh)%float, (tsh <? 0.4)%float; simpl;
    (split; [split; [done | by intros (? & ? & ?)] |]);
    intros r [= <-]; simpl; repeat split; done.
Qed.

(** X2. The inflammation assessor contributes nothing exactly when neither
    [crp > 3.0] nor [esr > 20] holds of a marker that is present; an entry it
    contributes has the level moderate and one or two risk factors. *)
Theorem inflammation_risk_moderate `{PyBuiltins}
    (biomarker_data : dict float)
    (contextual_knowledge : dict (list Retrieved)) :
  (_assess_inflammation_risk biomarker_data contextual_knowledge = None
   <-> ~ inflammation_trigger biomarker_data)
  /\ (forall r,
        _assess_inflammation_risk biomarker_data contextual_knowledge = Some r ->
        risk_level r = "moderate"
        /\ 1 <= length (risk_factors r) <= 2).
Proof.
  unfold inflammation_trigger, _assess_inflammation_risk.
  destruct (PyDict.get biomarker_data "crp") as [crp|];
    [destruct (3.0 <? crp)%float eqn:Hcrp |];
    (destruct (PyDict.get biomarker_data "esr") as [esr|];
       [destruct (20 <? esr)%float eqn:Hesr |]);
    simpl;
    (split;
     [ split;
       [ intros Hnone; try done;
         intros [(? & [= <-] & ?)|(? & [= <-] & ?)]; congruence
       | intros Hno; try done; exfalso; apply Hno; eauto 6 ]
     | intros r [= <-]; simpl; repeat split; lia ]).
Qed.

(** ** The overall level *)

Section OverallFacts.

Lemma str_in_true (x : string) (l : list string) :
  str_in x l = true <-> In x l.
Proof.
  unfold str_in. rewrite existsb_exists. split.
  - by intros (y & Hy & ->%String.eqb_eq).
  - intros Hin. exists x. by rewrite String.eqb_refl.
Qed.

Lemma overall_high (risks : list RiskAssessment) :
  _calculate_overall_risk_level risks = "high"
  <-> exists r, In r risks /\ risk_level r = "high".
Proof.
  unfold _calculate_overall_risk_level.
  destruct risks as [|r0 risks]; [split; [done | by intros (? & [] & _)] |].
  destruct (str_in "high" (risk_level <$> r0 :: risks)) eqn:Hhigh.
  - split; [intros _|done].
    apply str_in_true, in_map_iff in Hhigh as (r & Hr & Hin). eauto.
  - assert (Hno : ~ exists r, In r (r0 :: risks) /\ risk_level r = "high").
    { intros (r & Hin & Hr).
      assert (str_in "high" (risk_level <$> r0 :: risks) = true); [|congruence].
      apply str_in_true, in_map_iff. eauto. }
    destruct (str_in "moderate" (risk_level <$> r0 :: risks)); by split.
Qed.

Lemma overall_moderate (risks : list RiskAssessment) :
  _calculate_overall_risk_level risks = "moderate"
  <-> (~ exists r, In r risks /\ risk_level r = "high")
      /\ exists r, In r risks /\ risk_level r = "moderate".
Proof.
  pose proof (overall_high risks) as Hhigh.
  unfold _calculate_overall_risk_level in *.
  destruct risks as [|r0 risks];
    [split; [done | by intros (_ & ? & [] & _)] |].
  destruct (str_in "high" (risk_level <$> r0 :: risks)).
  - split; [done |]. intros [Hno _]. exfalso. apply Hno. by apply Hhigh.
  - destruct (str_in "moderate" (risk_level <$> r0 :: risks)) eqn:Hmod.
    + split; [intros _|done]. split; [by intros ?%Hhigh |].
      apply str_in_true, in_map_iff in Hmod as (r & Hr & Hin). eauto.
    + split; [done |]. intros (_ & r & Hin & Hr).
      assert (str_in "moderate" (risk_level <$> r0 :: risks) = true);
        [|congruence].
      apply str_in_true, in_map_iff. eauto.
Qed.

Lemma overall_low (risks : list RiskAssessment) :
  _calculate_overall_risk_level risks = "low"
  <-> forall r, In r risks ->
        risk_level r <> "high" /\ risk_level r <> "moderate".
Proof.
  unfold _calculate_overall_risk_level.
  destruct risks as [|r0 risks]; [by split |].
  destruct (str_in "high" (risk_level <$> r0 :: risks)) eqn:Hhigh.
  { split; [done |]. intros Hnone.
    apply str_in_true, in_map_iff in Hhigh as (r & Hr & Hin).
    by destruct (Hnone r Hin). }
  destruct (str_in "moderate" (risk_level <$> r0 :: risks)) eqn:Hmod.
  { split; [done |]. intros Hnone.
    apply str_in_true, in_map_iff in Hmod as (r & Hr & Hin).
    by destruct (Hnone r Hin). }
  split; [intros _|done]. intros r Hin. split; intros Hr.
  - assert (str_in "high" (risk_level <$> r0 :: risks) = true); [|congruence].
    apply str_in_true, in_map_iff. eauto.
  - assert (str_in "moderate" (risk_level <$> r0 :: risks) = true);
      [|congruence].
    apply str_in_true, in_map_iff. eauto.
Qed.

Lemma overall_values (risks : list RiskAssessment) :
  _calculate_overall_risk_level risks = "high"
  \/ _calculate_overall_risk_level risks = "moderate"
  \/ _calculate_overall_risk_level risks = "low".
Proof.
  unfold _calculate_overall_risk_level. destruct risks; [tauto |].
  destruct (str_in "high" _); [tauto |].
  destruct (str_in "moderate" _); tauto.
Qed.

End OverallFacts.

(** X3. The overall level is the largest severity among the entries: it is
    high exactly when some entry is high, moderate exactly when none is high
    and some entry is moderate, and low otherwise (in particular for no
    entry at all). *)
Theorem overall_risk_is_largest (risks : list RiskAssessment) :
  (_calculate_overall_risk_level risks = "high"
   <-> exists r, In r risks /\ risk_level r = "high")
  /\ (_calculate_overall_risk_level risks = "moderate"
      <-> (~ exists r, In r risks /\ risk_level r = "high")
          /\ exists r, In r risks /\ risk_level r = "moderate")
  /\ (_calculate_overall_risk_level risks = "low"
      <-> forall r, In r risks ->
            risk_level r <> "high" /\ risk_level r <> "moderate").
Proof.
  split; [apply overall_high |]. split; [apply overall_moderate |].
  apply overall_low.
Qed.

(** X4. The overall level is monotonic: when every entry of one list of
    assessments is an entry of another, the overall level of the second is
    at least as severe as that of the first. Adding an assessment never
    lowers the overall level. *)
Theorem overall_risk_monotonic (risks more : list RiskAssessment) :
  (forall r, In r risks -> In r more) ->
  severity (_calculate_overall_risk_level risks)
  <= severity (_calculate_overall_risk_level more).
Proof.
  intros Hsub.
  destruct (overall_values risks) as [Hv|[Hv|Hv]]; rewrite Hv.
  - apply overall_high in Hv as (r & Hin & Hr).
    assert (_calculate_overall_risk_level more = "high") as ->
      by (apply overall_high; eauto).
    done.
  - apply overall_moderate in Hv as (_ & r & Hin & Hr).
    destruct (overall_values more) as [Hv'|[Hv'|Hv']]; rewrite Hv';
      [vm_compute; lia | done |].
    destruct (proj1 (overall_low more) Hv' r (Hsub r Hin)) as [_ Hne]. done.
  - vm_compute. lia.
Qed.

(** ** The third pillar *)

Section InsightFacts.
Context `{PyBuiltins}.

Lemma gated_append (gate : bool) (risks : list RiskAssessment)
    (r : option RiskAssessment) :
  (if gate then append_risk risks r else risks)
  = append_risk risks (if gate then r else None).
Proof. by destruct gate. Qed.

Lemma gated_entry (gate : bool) (o : option RiskAssessment)
    (P : RiskAssessment -> Prop) :
  (forall r, o = Some r -> P r) ->
  forall r, (if gate then o else None) = Some r -> P r.
Proof. destruct gate; [done | by intros _ r]. Qed.

Lemma append_risk_In (risks : list RiskAssessment)
    (o : option RiskAssessment) (r : RiskAssessment) :
  In r (append_risk risks o) <-> In r risks \/ o = Some r.
Proof.
  destruct o as [r'|]; simpl.
  - rewrite in_app_iff. simpl. split; intros [?|?]; auto.
    + destruct H0 as [->|[]]. by right.
    + right. left. congruence.
  - split; [by left | by intros [?|?]].
Qed.

Lemma append_risk_conditions (risks : list RiskAssessment)
    (o : option RiskAssessment) :
  condition <$> append_risk risks o
  = (condition <$> risks)
    ++ match o with Some r => [condition r] | None => [] end.
Proof.
  destruct o; simpl; [by rewrite fmap_app | by rewrite app_nil_r].
Qed.

(** Entries that are moderate or high give the overall level low only when
    there is none. *)
Lemma overall_low_nil (risks : list RiskAssessment) :
  (forall r, In r risks -> risk_level r = "moderate" \/ risk_level r = "high") ->
  _calculate_overall_risk_level risks = "low" <-> risks = [].
Proof.
  intros Hlevels. rewrite overall_low. split; [|by intros ->].
  destruct risks as [|r risks]; [done |]. intros Hnone.
  destruct (Hnone r (or_introl eq_refl)) as [Hhigh Hmod].
  by destruct (Hlevels r (or_introl eq_refl)).
Qed.

End InsightFacts.

(** X5. The risk assessments of the third pillar: every entry is moderate or
    high, never low, so the overall level is low exactly when no assessor
    contributed; and the entries come in the fixed order diabetes,
    cardiovascular, thyroid, inflammation, each condition at most once. *)
Theorem predictive_insights_entries `{PyBuiltins}
    (biomarker_data : dict float)
    (contextual_knowledge : dict (list Retrieved)) :
  let p3 := _generate_predictive_insights biomarker_data contextual_knowledge in
  (forall r, In r (risk_assessments p3) ->
             risk_level r = "moderate" \/ risk_level r = "high")
  /\ (overall_risk_level p3 = "low" <-> risk_assessments p3 = [])
  /\ sublist (condition <$> risk_assessments p3)
       [ "Diabetes/Pre-diabetes"; "Cardiovascular Disease";
         "Thyroid Dysfunction"; "Inflammation" ].
Proof.
  pose proof (diabetes_entry biomarker_data contextual_knowledge) as Hd.
  pose proof (cardiovascular_entry biomarker_data contextual_knowledge) as Hc.
  pose proof (thyroid_entry biomarker_data contextual_knowledge) as Ht.
  pose proof (inflammation_entry biomarker_data contextual_knowledge) as Hi.
  unfold _generate_predictive_insights. rewrite !gated_append.
  cbn [risk_assessments overall_risk_level].
  pose proof (gated_entry (PyDict.mem "glucose" biomarker_data
                           || PyDict.mem "hba1c" biomarker_data) _ _ Hd) as Hd'.
  pose proof (gated_entry (any_in lipid_names biomarker_data) _ _ Hc) as Hc'.
  pose proof (gated_entry (PyDict.mem "tsh" biomarker_data) _ _ Ht) as Ht'.
  pose proof (gated_entry (any_in ["crp"; "esr"] biomarker_data) _ _ Hi) as Hi'.
  clear Hd Hc Ht Hi.
  set (o1 := if PyDict.mem "glucose" biomarker_data
                || PyDict.mem "hba1c" biomarker_data then _ else _) in *.
  set (o2 := if any_in lipid_names biomarker_data then _ else _) in *.
  set (o3 := if PyDict.mem "tsh" biomarker_data then _ else _) in *.
  set (o4 := if any_in ["crp"; "esr"] biomarker_data then _ else _) in *.
  assert (Hlevels : forall r,
             In r (append_risk (append_risk (append_risk
                     (append_risk [] o1) o2) o3) o4) ->
             risk_level r = "moderate" \/ risk_level r = "high").
  { intros r. rewrite !append_risk_In.
    intros [[[[[]|E]|E]|E]|E];
      [apply (Hd' r E) | apply (Hc' r E) | apply (Ht' r E) | apply (Hi' r E)]. }
  split; [exact Hlevels |]. split; [exact (overall_low_nil _ Hlevels) |].
  rewrite !append_risk_conditions. rewrite fmap_nil, app_nil_l.
  destruct o1 as [d|]; [rewrite (proj1 (Hd' d eq_refl)) |];
    (destruct o2 as [c|]; [rewrite (proj1 (Hc' c eq_refl)) |]);
    (destruct o3 as [t|]; [rewrite (proj1 (Ht' t eq_refl)) |]);
    (destruct o4 as [i|]; [rewrite (proj1 (Hi' i eq_refl)) |]);
    cbn [app];
    repeat first [ apply sublist_nil | apply sublist_skip | apply sublist_cons ].
Qed.

(** ** Recommendations *)

(** X6. The lifestyle and monitoring recommendations depend only on which
    biomarkers are present: two inputs with the same biomarkers present get
    the same recommendations, whatever the values, the lifestyle text and
    the contextual knowledge; and the five general lifestyle items and the
    two general monitoring items always come first. *)
Theorem recommendations_depend_on_presence
    (a b : dict float) (lifestyle lifestyle' : string)
    (ck ck' : dict (list Retrieved)) :
  same_keys a b ->
  _generate_lifestyle_recommendations a lifestyle ck
  = _generate_lifestyle_recommendations b lifestyle' ck'
  /\ _generate_monitoring_recommendations a ck
     = _generate_monitoring_recommendations b ck'
  /\ take 5 (_generate_lifestyle_recommendations a lifestyle ck)
     = [ "Maintain a balanced diet rich in fruits, vegetables, and whole grains";
         "Engage in regular physical activity (at least 150 minutes per week)";
         "Maintain a healthy weight";
         "Avoid smoking and limit alcohol consumption";
         "Get adequate sleep (7-9 hours per night)" ]
  /\ take 2 (_generate_monitoring_recommendations a ck)
     = [ "Schedule regular follow-up lab tests as recommended by your healthcare provider";
         "Keep a record of your lab results to track trends over time" ].
Proof.
  intros Hsame.
  assert (Hany : forall names, any_in names a = any_in names b).
  { intros names. unfold any_in. induction names as [|n names IH]; [done |].
    simpl. by rewrite (Hsame n), IH. }
  unfold _generate_lifestyle_recommendations,
    _generate_monitoring_recommendations.
  rewrite !(Hsame _), !Hany. by repeat split.
Qed.

(** ** The loops of the analyzer *)

Section LoopFacts.
Context `{PyBuiltins} `{VectorBackend}.
Variable kb : MedicalKnowledgeBase.

Lemma contextual_loop_eq (biomarker_data : dict float) :
  _retrieve_contextual_knowledge kb biomarker_data
  = (contextual_knowledge ← contextual_loop kb biomarker_data [];
     general_knowledge ← retrieve_contextual_knowledge kb
                           "health risk assessment biomarker patterns" 5;
     Ok (PyDict.set contextual_knowledge "general" general_knowledge)).
Proof. reflexivity. Qed.

Lemma interpretation_loop_eq (name : string) (v : float) (st : string)
    (knowledge : list Retrieved) :
  _generate_biomarker_interpretation name v st knowledge
  = interpretation_loop (take 2 knowledge) (base_interpretation name v st).
Proof. reflexivity. Qed.

Lemma biomarkers_loop_eq (biomarker_data : dict float)
    (contextual_knowledge : dict (list Retrieved)) :
  _analyze_biomarkers kb biomarker_data contextual_knowledge
  = (entries ← biomarkers_loop kb contextual_knowledge biomarker_data [];
     Ok {| title1 := "Interpretation of Key Biomarkers";
           biomarkers := entries |}).
Proof. reflexivity. Qed.

Lemma correlations_loop_eq (biomarker_data : dict float)
    (user_symptoms : string) (contextual_knowledge : dict (list Retrieved)) :
  PyStr.is_empty (PyStr.strip_ws user_symptoms) = false ->
  _correlate_symptoms_biomarkers biomarker_data user_symptoms
    contextual_knowledge
  = (found ← correlations_loop contextual_knowledge user_symptoms
               biomarker_data;
     Ok {| title2 := "Correlation Between Symptoms and Biomarker Trends";
           correlations := found;
           symptom_analysis := _analyze_symptoms user_symptoms;
           note := None |}).
Proof.
  intros Hne. unfold _correlate_symptoms_biomarkers. by rewrite Hne.
Qed.

Lemma py_index_In {A} (l : list A) (i : Z) (x : A) :
  py_index l i = Ok x -> In x l.
Proof.
  unfold py_index.
  destruct (0 <=? i)%Z; [|destruct (0 <=? Z.of_nat (length l) + i)%Z; [|done]].
  - destruct (l !! Z.to_nat i) eqn:E; [|done]. intros [= <-].
    apply list_elem_of_In. by eapply list_elem_of_lookup_2.
  - destruct (l !! Z.to_nat (Z.of_nat (length l) + i)) eqn:E; [|done].
    intros [= <-]. apply list_elem_of_In. by eapply list_elem_of_lookup_2.
Qed.

Lemma retrieve_loop_items (texts : list KnowledgeItem)
    (hits : list (float * Z)) (results : list Retrieved) :
  retrieve_loop texts hits = Ok results ->
  Forall (fun r => In (item r) texts) results.
Proof.
  revert results. induction hits as [|[score idx] hits IH]; intros results.
  - intros [= <-]. constructor.
  - simpl. destruct (idx <? Z.of_nat (length texts))%Z; [|apply IH].
    destruct (py_index texts idx) as [it|] eqn:Hit; [|done]. simpl.
    destruct (retrieve_loop texts hits) as [rest|]; [|done]. simpl.
    intros [= <-]. constructor; [|by apply IH].
    simpl. by eapply py_index_In.
Qed.

(** Whatever retrieval returns is taken from the corpus. *)
Lemma retrieve_items (query : string) (k : Z) (results : list Retrieved) :
  retrieve_contextual_knowledge kb query k = Ok results ->
  Forall (fun r => In (item r) (knowledge_texts kb)) results.
Proof.
  unfold retrieve_contextual_knowledge.
  destruct (vector_index kb) as [index|]; [|intros [= <-]; constructor].
  destruct (embedding_model kb) as [model|]; [|intros [= <-]; constructor].
  destruct (search _ _ _) as [hits|]; [|done]. simpl.
  apply retrieve_loop_items.
Qed.

Lemma mem_set {V} (d : dict V) (k name : string) (v : V) :
  PyDict.mem name (PyDict.set d k v) = PyDict.mem name d || String.eqb k name.
Proof.
  unfold PyDict.mem. destruct (String.eqb_spec k name) as [->|Hne].
  - by rewrite get_set_eq, orb_true_r.
  - by rewrite get_set_ne, orb_false_r.
Qed.

Lemma mem_cons {V} (d : dict V) (k name : string) (v : V) :
  PyDict.mem name ((k, v) :: d) = String.eqb k name || PyDict.mem name d.
Proof. unfold PyDict.mem. simpl. by destruct (String.eqb k name). Qed.

Lemma contextual_loop_spec (items : list (string * float))
    (acc : dict (list Retrieved)) :
  index_ready kb ->
  exists ck,
    contextual_loop kb items acc = Ok ck
    /\ (forall name,
          PyDict.mem name ck = PyDict.mem name acc || PyDict.mem name items)
    /\ (forall name l,
          PyDict.get ck name = Some l ->
          PyDict.get acc name = Some l
          \/ exists v,
               In (name, v) items
               /\ retrieve_contextual_knowledge kb (query_of name v) 3 = Ok l).
Proof.
  intros Hready. revert acc.
  induction items as [|[b v] items IH]; intros acc.
  - exists acc. split; [done |]. split; [|by left].
    intros name. by rewrite orb_false_r.
  - destruct (retrieve_ready kb (query_of b v) 3 Hready) as (k & Hk); [lia |].
    destruct (IH (PyDict.set acc b k)) as (ck & Hck & Hmem & Hget).
    exists ck. cbn [contextual_loop]. fold (query_of b v). rewrite Hk.
    split; [exact Hck |]. split.
    + intros name. rewrite Hmem, mem_set, mem_cons. by rewrite orb_assoc.
    + intros name l Hl. destruct (Hget name l Hl) as [Hacc|(v' & Hin & Hv')].
      * destruct (String.eqb_spec b name) as [->|Hne].
        -- rewrite get_set_eq in Hacc. injection Hacc as ->.
           right. exists v. split; [by left | done].
        -- rewrite get_set_ne in Hacc by done. by left.
      * right. exists v'. split; [by right | done].
Qed.

End LoopFacts.

(** X7. The contextual knowledge gathered for a report, over a knowledge
    base that can be searched: the gathering raises nothing; the bucket
    [general] holds the result of the general query, also when a biomarker
    is itself named [general]; every other biomarker of the input has a
    bucket, and no other bucket exists; and a bucket holds the result of the
    query made for its biomarker with one of its values. *)
Theorem contextual_knowledge_buckets `{PyBuiltins} `{VectorBackend}
    (kb : MedicalKnowledgeBase) (biomarker_data : dict float) :
  index_ready kb ->
  exists ck general,
    _retrieve_contextual_knowledge kb biomarker_data = Ok ck
    /\ retrieve_contextual_knowledge kb
         "health risk assessment biomarker patterns" 5 = Ok general
    /\ PyDict.get ck "general" = Some general
    /\ (forall name, name <> "general" ->
          PyDict.mem name ck = PyDict.mem name biomarker_data)
    /\ (forall name l,
          name <> "general" -> PyDict.get ck name = Some l ->
          exists v,
            In (name, v) biomarker_data
            /\ retrieve_contextual_knowledge kb
                 (name +:+ " " +:+ float_str v +:+ " biomarker analysis") 3
               = Ok l).
Proof.
  intros Hready.
  destruct (contextual_loop_spec kb biomarker_data [] Hready)
    as (ck & Hck & Hmem & Hget).
  destruct (retrieve_ready kb "health risk assessment biomarker patterns" 5
              Hready) as (general & Hgeneral); [lia |].
  exists (PyDict.set ck "general" general), general.
  rewrite contextual_loop_eq, Hck. simpl. rewrite Hgeneral. simpl.
  split; [done |]. split; [done |]. split; [apply get_set_eq |]. split.
  - intros name Hne. rewrite mem_set, Hmem.
    destruct (String.eqb_spec "general" name); [congruence |].
    by rewrite orb_false_r.
  - intros name l Hne Hl. rewrite get_set_ne in Hl by congruence.
    destruct (Hget name l Hl) as [Hnil|Hv]; [done | exact Hv].
Qed.

Section ReportFacts.
Context `{PyBuiltins} `{VectorBackend}.
Variable kb : MedicalKnowledgeBase.

(** The loop over the insights raises only on an item of type
    [abnormality_mapping] without a condition, and only adds to the text. *)
Lemma interpretation_loop_ok (insights : list Retrieved) (start : string) :
  Forall (fun r => item_readable (item r)) insights ->
  exists more, interpretation_loop insights start = Ok (start +:+ more).
Proof.
  intros Hall. revert start.
  induction Hall as [|insight insights Hread _ IH]; intros start.
  - exists EmptyString. by rewrite append_nil_r.
  - cbn [interpretation_loop].
    destruct (String.eqb_spec (type (item insight)) "dataset_insight").
    { destruct (IH (start +:+ " " +:+ text (item insight))) as (more & ->).
      eexists. by rewrite !append_assoc. }
    destruct (String.eqb_spec (type (item insight)) "abnormality_mapping")
      as [Habn|_]; [|apply IH].
    destruct (Hread Habn) as (cond & ->). simpl.
    destruct (IH (start +:+ " This pattern is associated with " +:+ cond
                  +:+ ".")) as (more & ->).
    eexists. by rewrite !append_assoc.
Qed.

Lemma knowledge_readable (ck : dict (list Retrieved)) (name : string) :
  readable_knowledge ck ->
  Forall (fun r => item_readable (item r))
    (take 2 (default [] (PyDict.get ck name))).
Proof.
  intros Hck. apply Forall_take.
  destruct (PyDict.get ck name) as [l|] eqn:E; [by eapply Hck | constructor].
Qed.

Lemma biomarkers_loop_spec (ck : dict (list Retrieved))
    (items : list (string * float)) (acc : dict BiomarkerEntry) :
  readable_knowledge ck ->
  exists entries,
    biomarkers_loop kb ck items acc = Ok entries
    /\ (forall name,
          PyDict.mem name entries
          = PyDict.mem name acc || PyDict.mem name items)
    /\ (forall name e,
          PyDict.get entries name = Some e ->
          PyDict.get acc name = Some e
          \/ exists v more,
               In (name, v) items
               /\ value e = v
               /\ reference_range e = reference_ranges kb !! name
               /\ status e
                  = _classify_biomarker_status name v
                      (reference_ranges kb !! name)
               /\ contextual_insights e = default [] (PyDict.get ck name)
               /\ interpretation e
                  = base_interpretation name v (status e) +:+ more
               /\ _generate_biomarker_interpretation name v (status e)
                    (contextual_insights e) = Ok (interpretation e)).
Proof.
  intros Hck. revert acc.
  induction items as [|[b v] items IH]; intros acc.
  - exists acc. split; [done |]. split; [|by left].
    intros name. by rewrite orb_false_r.
  - cbn [biomarkers_loop]. rewrite interpretation_loop_eq.
    destruct (interpretation_loop_ok
                (take 2 (default [] (PyDict.get ck b)))
                (base_interpretation b v
                   (_classify_biomarker_status b v
                      (get_biomarker_reference_range kb b)))
                (knowledge_readable ck b Hck)) as (more & Hmore).
    rewrite Hmore. simpl.
    match goal with
    | |- context [biomarkers_loop kb ck items ?acc'] =>
        destruct (IH acc') as (entries & Hentries & Hmem & Hget)
    end.
    exists entries. split; [exact Hentries |]. split.
    + intros name. rewrite Hmem, mem_set, mem_cons. by rewrite orb_assoc.
    + intros name e He. destruct (Hget name e He) as [Hacc|Hlater].
      * destruct (String.eqb_spec b name) as [->|Hne].
        -- rewrite get_set_eq in Hacc. injection Hacc as <-.
           right. exists v, more. split; [by left |].
           cbn [value reference_range status contextual_insights
                interpretation].
           by rewrite interpretation_loop_eq.
        -- rewrite get_set_ne in Hacc by done. by left.
      * right. destruct Hlater as (v' & more' & Hin & Hrest).
        exists v', more'. split; [by right | exact Hrest].
Qed.

End ReportFacts.

(** X8. The first pillar, for contextual knowledge whose items can be read
    (an item of type [abnormality_mapping] has a condition): it raises
    nothing; it has an entry for exactly the biomarkers of the input; and an
    entry carries one of the values given for its biomarker, the reference
    range looked up for it, the status of that value against that range
    (Unknown when there is no range), the knowledge gathered for the
    biomarker, and an interpretation that opens with the sentence stating
    value and status. *)
Theorem analyze_biomarkers_entries `{PyBuiltins} `{VectorBackend}
    (kb : MedicalKnowledgeBase) (biomarker_data : dict float)
    (contextual_knowledge : dict (list Retrieved)) :
  readable_knowledge contextual_knowledge ->
  exists p1,
    _analyze_biomarkers kb biomarker_data contextual_knowledge = Ok p1
    /\ (forall name,
          PyDict.mem name (biomarkers p1) = PyDict.mem name biomarker_data)
    /\ (forall name e,
          PyDict.get (biomarkers p1) name = Some e ->
          exists v more,
            In (name, v) biomarker_data
            /\ value e = v
            /\ reference_range e = get_biomarker_reference_range kb name
            /\ (match get_biomarker_reference_range kb name with
                | None => status e = "Unknown"
                | Some range_info =>
                    status e = if PyStr.is_empty range_info then "Unknown"
                               else _classify_value v range_info
                end)
            /\ contextual_insights e
               = default [] (PyDict.get contextual_knowledge name)
            /\ interpretation e
               = "Your " +:+ name +:+ " level is " +:+ float_str v
                 +:+ ", which is classified as " +:+ status e +:+ "."
                 +:+ more).
Proof.
  intros Hck.
  destruct (biomarkers_loop_spec kb contextual_knowledge biomarker_data []
              Hck) as (entries & Hentries & Hmem & Hget).
  exists {| title1 := "Interpretation of Key Biomarkers";
            biomarkers := entries |}.
  rewrite biomarkers_loop_eq, Hentries. split; [done |]. split; [exact Hmem |].
  intros name e He. destruct (Hget name e He) as [Hnil|Hentry]; [done |].
  destruct Hentry
    as (v & more & Hin & Hv & Hrange & Hstatus & Hins & Hint & _).
  exists v, more. split; [done |]. split; [done |]. split; [done |].
  split; [|split; [done |]].
  - unfold get_biomarker_reference_range. rewrite Hstatus.
    unfold _classify_biomarker_status.
    by destruct (reference_ranges kb !! name).
  - rewrite Hint. unfold base_interpretation. by rewrite !append_assoc.
Qed.

(** ** The second pillar *)

Section CorrelationFacts.
Context `{PyBuiltins}.

Lemma find_correlation_spec (b : string) (v : float) (user_symptoms : string)
    (knowledge : list Retrieved) :
  PyStr.is_empty (PyStr.strip_ws user_symptoms) = false ->
  exists o,
    _find_symptom_biomarker_correlation b v user_symptoms knowledge = Ok o
    /\ forall c, o = Some c ->
         biomarker c = b /\ correlated_value c = v
         /\ correlated_symptoms c <> []
         /\ exists categories detected,
              PyDict.get symptom_correlations b = Some categories
              /\ detected_categories (_analyze_symptoms user_symptoms)
                 = Some detected
              /\ forall x, In x (correlated_symptoms c)
                           <-> In x detected /\ In x categories.
Proof.
  intros Hne. unfold _find_symptom_biomarker_correlation.
  destruct (PyDict.get symptom_correlations b) as [categories|];
    [|by exists None].
  destruct (detected_categories (_analyze_symptoms user_symptoms))
    as [detected|] eqn:Hdet;
    [|unfold _analyze_symptoms in Hdet; by rewrite Hne in Hdet].
  simpl.
  destruct (List.filter (fun cat => str_in cat categories) detected)
    as [|m ms] eqn:Hmatch; [by exists None |].
  eexists. split; [done |]. intros c [= <-].
  cbn [biomarker correlated_value correlated_symptoms].
  split; [done |]. split; [done |]. split; [done |].
  exists categories, detected. split; [done |]. split; [done |].
  intros x. rewrite <- Hmatch, filter_In. by rewrite str_in_true.
Qed.

Lemma correlations_loop_spec (ck : dict (list Retrieved))
    (user_symptoms : string) (items : list (string * float)) :
  PyStr.is_empty (PyStr.strip_ws user_symptoms) = false ->
  exists found,
    correlations_loop ck user_symptoms items = Ok found
    /\ forall c, In c found ->
         In (biomarker c, correlated_value c) items
         /\ correlated_symptoms c <> []
         /\ exists categories detected,
              PyDict.get symptom_correlations (biomarker c) = Some categories
              /\ detected_categories (_analyze_symptoms user_symptoms)
                 = Some detected
              /\ forall x, In x (correlated_symptoms c)
                           <-> In x detected /\ In x categories.
Proof.
  intros Hne. induction items as [|[b v] items (rest & Hrest & Hall)].
  - by exists [].
  - cbn [correlations_loop].
    destruct (find_correlation_spec b v user_symptoms
                (default [] (PyDict.get ck b)) Hne) as (o & -> & Ho).
    rewrite Hrest. simpl.
    assert (Hlater : forall c, In c rest ->
              In (biomarker c, correlated_value c) ((b, v) :: items)
              /\ correlated_symptoms c <> []
              /\ exists categories detected,
                   PyDict.get symptom_correlations (biomarker c)
                   = Some categories
                   /\ detected_categories (_analyze_symptoms user_symptoms)
                      = Some detected
                   /\ forall x, In x (correlated_symptoms c)
                                <-> In x detected /\ In x categories).
    { intros c Hc. destruct (Hall c Hc) as (Hin & Hrestc).
      split; [by right | exact Hrestc]. }
    destruct o as [c0|]; eexists; (split; [done |]); [|exact Hlater].
    intros c [<-|Hc]; [|by apply Hlater].
    destruct (Ho c0 eq_refl) as (-> & -> & Hnonempty & Hcats).
    split; [by left |]. by split.
Qed.

End CorrelationFacts.

(** X9. The second pillar raises nothing, for every input and every symptom
    text; and each correlation it lists is for a biomarker of the input
    with its value, among the six of the correlation table, and names at
    least one category: exactly the categories detected in the text that
    the table gives for that biomarker. *)
Theorem correlations_follow_the_table `{PyBuiltins}
    (biomarker_data : dict float) (user_symptoms : string)
    (contextual_knowledge : dict (list Retrieved)) :
  exists p2,
    _correlate_symptoms_biomarkers biomarker_data user_symptoms
      contextual_knowledge = Ok p2
    /\ symptom_analysis p2 = _analyze_symptoms user_symptoms
    /\ forall c, In c (correlations p2) ->
         In (biomarker c, correlated_value c) biomarker_data
         /\ correlated_symptoms c <> []
         /\ exists categories detected,
              PyDict.get symptom_correlations (biomarker c) = Some categories
              /\ detected_categories (_analyze_symptoms user_symptoms)
                 = Some detected
              /\ forall x, In x (correlated_symptoms c)
                           <-> In x detected /\ In x categories.
Proof.
  destruct (PyStr.is_empty (PyStr.strip_ws user_symptoms)) eqn:Hne.
  - unfold _correlate_symptoms_biomarkers. rewrite Hne.
    eexists. split; [done |]. by split.
  - destruct (correlations_loop_spec contextual_knowledge user_symptoms
                biomarker_data Hne) as (found & Hfound & Hall).
    rewrite (correlations_loop_eq _ _ _ Hne), Hfound.
    eexists. split; [done |]. by split.
Qed.

(** ** The whole analysis *)

Section AnalysisFacts.
Context `{PyBuiltins} `{VectorBackend}.
Variable kb : MedicalKnowledgeBase.

Lemma retrieved_readable (query : string) (k : Z) (results : list Retrieved) :
  Forall item_readable (knowledge_texts kb) ->
  retrieve_contextual_knowledge kb query k = Ok results ->
  Forall (fun r => item_readable (item r)) results.
Proof.
  intros Htexts Hres. apply retrieve_items in Hres.
  eapply Forall_impl; [exact Hres |]. simpl. intros r Hin.
  rewrite Forall_forall in Htexts. apply Htexts. by apply list_elem_of_In.
Qed.

Lemma retrieve_unbuilt (query : string) (k : Z) :
  vector_index kb = None \/ embedding_model kb = None ->
  retrieve_contextual_knowledge kb query k = Ok [].
Proof.
  unfold retrieve_contextual_knowledge.
  intros [-> | ->]; [done | by destruct (vector_index kb)].
Qed.

Lemma unbuilt_ready :
  vector_index kb = None \/ embedding_model kb = None -> index_ready kb.
Proof.
  unfold index_ready.
  intros [-> | ->]; [done | by destruct (vector_index kb)].
Qed.

(** The gathered knowledge, with what is known of each bucket. *)
Lemma gathered_knowledge (biomarker_data : dict float) :
  index_ready kb ->
  exists ck,
    _retrieve_contextual_knowledge kb biomarker_data = Ok ck
    /\ forall name l,
         PyDict.get ck name = Some l ->
         exists query k, retrieve_contextual_knowledge kb query k = Ok l.
Proof.
  intros Hready.
  destruct (contextual_loop_spec kb biomarker_data [] Hready)
    as (ck & Hck & _ & Hget).
  destruct (retrieve_ready kb "health risk assessment biomarker patterns" 5
              Hready) as (general & Hgeneral); [lia |].
  exists (PyDict.set ck "general" general).
  rewrite contextual_loop_eq, Hck. simpl. rewrite Hgeneral. simpl.
  split; [done |]. intros name l.
  destruct (String.eqb_spec "general" name) as [<-|Hne].
  - rewrite get_set_eq. intros [= <-]. eauto.
  - rewrite get_set_ne by done. intros Hl.
    destruct (Hget name l Hl) as [Hnil|(v & _ & Hv)]; [done | eauto].
Qed.

Lemma analysis_returns (now : string) (biomarker_data : dict float)
    (user_symptoms user_lifestyle : string) (ck : dict (list Retrieved)) :
  _retrieve_contextual_knowledge kb biomarker_data = Ok ck ->
  readable_knowledge ck ->
  exists report,
    analyze_health_report kb now biomarker_data user_symptoms user_lifestyle
    = Ok report
    /\ contextual_knowledge_used report = ck
    /\ timestamp report = now
    /\ _analyze_biomarkers kb biomarker_data ck
       = Ok (pillar_1_biomarker_interpretation report)
    /\ _correlate_symptoms_biomarkers biomarker_data user_symptoms ck
       = Ok (pillar_2_symptom_correlation report)
    /\ pillar_3_predictive_insights report
       = _generate_predictive_insights biomarker_data ck
    /\ pillar_4_actionable_recommendations report
       = _generate_recommendations biomarker_data user_symptoms
           user_lifestyle ck.
Proof.
  intros Hck Hread. unfold analyze_health_report. rewrite Hck. simpl.
  destruct (biomarkers_loop_spec kb ck biomarker_data [] Hread)
    as (entries & Hentries & _).
  rewrite biomarkers_loop_eq, Hentries. simpl.
  destruct (PyStr.is_empty (PyStr.strip_ws user_symptoms)) eqn:Hne.
  - unfold _correlate_symptoms_biomarkers. rewrite Hne. simpl.
    eexists. split; [done |]. by repeat split.
  - destruct (correlations_loop_spec ck user_symptoms biomarker_data Hne)
      as (found & Hfound & _).
    rewrite (correlations_loop_eq _ _ _ Hne), Hfound. simpl.
    eexists. split; [done |]. by repeat split.
Qed.

End AnalysisFacts.

(** X10. Over a knowledge base that can be searched and whose items can be
    read (an item of type [abnormality_mapping] has a condition),
    [analyze_health_report] returns a report for every input, symptom text
    and lifestyle text: no exception leaves it. The report carries the
    gathered contextual knowledge and the time given, and its pillars are
    the ones computed from that knowledge. *)
Theorem analysis_never_raises `{PyBuiltins} `{VectorBackend}
    (kb : MedicalKnowledgeBase) (now : string) (biomarker_data : dict float)
    (user_symptoms user_lifestyle : string) :
  index_ready kb ->
  Forall item_readable (knowledge_texts kb) ->
  exists report ck,
    analyze_health_report kb now biomarker_data user_symptoms user_lifestyle
    = Ok report
    /\ _retrieve_contextual_knowledge kb biomarker_data = Ok ck
    /\ contextual_knowledge_used report = ck
    /\ timestamp report = now
    /\ _analyze_biomarkers kb biomarker_data ck
       = Ok (pillar_1_biomarker_interpretation report)
    /\ _correlate_symptoms_biomarkers biomarker_data user_symptoms ck
       = Ok (pillar_2_symptom_correlation report)
    /\ pillar_3_predictive_insights report
       = _generate_predictive_insights biomarker_data ck
    /\ pillar_4_actionable_recommendations report
       = _generate_recommendations biomarker_data user_symptoms
           user_lifestyle ck.
Proof.
  intros Hready Htexts.
  destruct (gathered_knowledge kb biomarker_data Hready) as (ck & Hck & Hget).
  assert (Hread : readable_knowledge ck).
  { intros name l (query & k & Hl)%Hget. by eapply retrieved_readable. }
  destruct (analysis_returns kb now biomarker_data user_symptoms
              user_lifestyle ck Hck Hread) as (report & Hreport & Hrest).
  by exists report, ck.
Qed.

(** X11. Before the index is built (no index, or no embedding model) the
    analysis still returns a report for every input: every bucket of its
    contextual knowledge is empty, and every biomarker entry has no
    contextual insight and, as its interpretation, just the sentence stating
    value and status. *)
Theorem analysis_without_index `{PyBuiltins} `{VectorBackend}
    (kb : MedicalKnowledgeBase) (now : string) (biomarker_data : dict float)
    (user_symptoms user_lifestyle : string) :
  vector_index kb = None \/ embedding_model kb = None ->
  exists report,
    analyze_health_report kb now biomarker_data user_symptoms user_lifestyle
    = Ok report
    /\ (forall name l,
          PyDict.get (contextual_knowledge_used report) name = Some l ->
          l = [])
    /\ PyDict.get (contextual_knowledge_used report) "general" = Some []
    /\ (forall name e,
          PyDict.get (biomarkers (pillar_1_biomarker_interpretation report))
            name = Some e ->
          contextual_insights e = []
          /\ interpretation e
             = "Your " +:+ name +:+ " level is " +:+ float_str (value e)
               +:+ ", which is classified as " +:+ status e +:+ ".").
Proof.
  intros Hnone. pose proof (unbuilt_ready kb Hnone) as Hready.
  destruct (gathered_knowledge kb biomarker_data Hready) as (ck & Hck & Hget).
  assert (Hempty : forall name l, PyDict.get ck name = Some l -> l = []).
  { intros name l (query & k & Hl)%Hget.
    rewrite (retrieve_unbuilt kb query k Hnone) in Hl. congruence. }
  assert (Hread : readable_knowledge ck).
  { intros name l ->%Hempty. constructor. }
  destruct (analysis_returns kb now biomarker_data user_symptoms
              user_lifestyle ck Hck Hread)
    as (report & Hreport & Hused & _ & Hp1 & _).
  exists report. split; [done |]. rewrite Hused. split; [exact Hempty |].
  split.
  - rewrite contextual_loop_eq in Hck.
    destruct (contextual_loop kb biomarker_data []) as [ck0|]; [|done].
    simpl in Hck.
    rewrite (retrieve_unbuilt kb _ 5 Hnone) in Hck. simpl in Hck.
    injection Hck as <-. apply get_set_eq.
  - destruct (biomarkers_loop_spec kb ck biomarker_data [] Hread)
      as (entries & Hentries & _ & Hentry).
    rewrite biomarkers_loop_eq, Hentries in Hp1. injection Hp1 as <-.
    intros name e He. destruct (Hentry name e He) as [Hnil|Hfacts]; [done |].
    destruct Hfacts as (v & more & _ & Hv & _ & _ & Hins & _ & Hinterp).
    assert (Hnoins : contextual_insights e = []).
    { rewrite Hins. destruct (PyDict.get ck name) as [l|] eqn:El; [|done].
      simpl. by eapply Hempty. }
    split; [exact Hnoins |].
    rewrite Hnoins in Hinterp. subst v. by injection Hinterp as <-.
Qed.

(** ** The abnormality mapping *)

Section TupleFacts.

Import PyStr PyStrMore.

Lemma ends_with_app (suffix x : string) : ends_with suffix (x +:+ suffix) = true.
Proof.
  induction x as [|c x IH].
  - rewrite append_nil_l.
    destruct suffix; cbn [ends_with]; by rewrite String.eqb_refl.
  - rewrite append_cons. cbn [ends_with]. by rewrite IH, orb_true_r.
Qed.

Lemma drop_last_app (x : string) (c : ascii) :
  drop_last (x +:+ String c EmptyString) = x.
Proof.
  induction x as [|c' x IH]; [done |].
  rewrite append_cons. simpl. rewrite IH.
  by destruct x.
Qed.

Lemma split_go_skip (sep x rest : string) :
  split_str_go sep (String.length x) (x +:+ rest) = split_str_go sep 0 rest.
Proof.
  induction x as [|c x IH]; [done |]. by rewrite append_cons.
Qed.

Lemma tuple_sep_not_here (c : ascii) (s : string) :
  Ascii.eqb c dquote = false -> starts_with tuple_sep (String c s) = false.
Proof.
  intros Hc. unfold tuple_sep. cbn [starts_with].
  destruct (Ascii.eqb_spec dquote c) as [<-|_]; [|done].
  by rewrite Ascii.eqb_refl in Hc.
Qed.

(** A field without a double quote ends at the separator that follows it. *)
Lemma split_field (a rest : string) :
  contains_char dquote a = false ->
  split_str tuple_sep (a +:+ tuple_sep +:+ rest)
  = a :: split_str tuple_sep rest.
Proof.
  unfold split_str. induction a as [|c a IH].
  - intros _. rewrite append_nil_l.
    change (tuple_sep +:+ rest)
      with (String dquote (String "," (String " " (String dquote EmptyString))
                           +:+ rest)).
    cbn [split_str_go].
    change (String dquote
              (String "," (String " " (String dquote EmptyString)) +:+ rest))
      with (tuple_sep +:+ rest).
    rewrite starts_with_app.
    f_equal;
      apply (split_go_skip tuple_sep
               (String "," (String " " (String dquote EmptyString)))).
  - cbn [contains_char]. intros [Hc Ha]%orb_false_iff. rewrite append_cons.
    cbn [split_str_go]. rewrite (tuple_sep_not_here c _ Hc).
    by rewrite (IH Ha).
Qed.

(** The last field is read up to the end of what is split, the closing
    double quote included. *)
Lemma split_last_field (p : string) :
  contains_char dquote p = false ->
  split_str tuple_sep (p +:+ String dquote EmptyString)
  = [p +:+ String dquote EmptyString].
Proof.
  unfold split_str. induction p as [|c p IH].
  - done.
  - cbn [contains_char]. intros [Hc Hp]%orb_false_iff. rewrite append_cons.
    cbn [split_str_go]. rewrite (tuple_sep_not_here c _ Hc).
    by rewrite (IH Hp).
Qed.

(** What the parser sees of a tuple line: the line without its blanks opens
    and ends as a tuple, holds a separator, and its inside is the fields
    with the closing double quote of the last one. *)
Lemma tuple_line_read (lead trail first rest : string) :
  Shape.blank lead -> Shape.blank trail ->
  let inside := first +:+ tuple_sep +:+ rest +:+ String dquote EmptyString in
  let line := lead +:+ (tuple_open +:+ inside +:+ ")") +:+ trail in
  strip_ws line = tuple_open +:+ inside +:+ ")"
  /\ starts_with tuple_open (strip_ws line) = true
  /\ ends_with ")" (strip_ws line) = true
  /\ substring_in tuple_sep (strip_ws line) = true
  /\ drop_last (drop 2 (strip_ws line)) = inside.
Proof.
  intros Hlead Htrail inside line.
  assert (Hstrip : strip_ws line = tuple_open +:+ inside +:+ ")").
  { unfold line, strip_ws. apply strip_app; [done | done |]. split.
    - done.
    - rewrite last_char_app, is_empty_app, andb_false_r.
      by rewrite last_char_app. }
  rewrite Hstrip. split; [done |]. split; [apply starts_with_app |].
  split; [|split].
  - rewrite <- append_assoc. apply ends_with_app.
  - unfold inside.
    replace (tuple_open +:+ (first +:+ tuple_sep +:+ rest
                             +:+ String dquote EmptyString) +:+ ")")
      with ((tuple_open +:+ first) +:+ tuple_sep
            +:+ (rest +:+ String dquote EmptyString +:+ ")"))
      by (by rewrite !append_assoc).
    apply substring_in_app.
  - change (drop 2 (tuple_open +:+ inside +:+ ")")) with (inside +:+ ")").
    apply drop_last_app.
Qed.

Lemma parse_tuple_line (mapping : dict (list ConditionInfo))
    (line abnormality cond prevalence : string) :
  no_quote abnormality -> no_quote cond -> no_quote prevalence ->
  tuple_line line abnormality cond prevalence ->
  _parse_abnormalities_mapping_line mapping line
  = PyDict.set mapping abnormality
      (default [] (PyDict.get mapping abnormality)
       ++ [ {| info_condition := cond;
               info_prevalence := prevalence +:+ String dquote EmptyString |} ]).
Proof.
  intros Ha Hc Hp (lead & trail & -> & Hlead & Htrail).
  destruct (tuple_line_read lead trail abnormality
              (cond +:+ tuple_sep +:+ prevalence) Hlead Htrail)
    as (_ & Hopen & Hend & Hsep & Hinside).
  assert (E : lead +:+ tuple_open +:+ abnormality +:+ tuple_sep +:+ cond
              +:+ tuple_sep +:+ prevalence +:+ String dquote ")" +:+ trail
              = lead +:+ (tuple_open
                          +:+ (abnormality +:+ tuple_sep
                               +:+ (cond +:+ tuple_sep +:+ prevalence)
                               +:+ String dquote EmptyString) +:+ ")")
                +:+ trail)
    by (by rewrite !append_assoc).
  rewrite E. clear E. unfold _parse_abnormalities_mapping_line.
  rewrite Hopen, Hend, Hsep, Hinside. cbn [andb].
  rewrite split_field by done.
  rewrite !append_assoc, split_field by done.
  by rewrite split_last_field.
Qed.

Lemma parse_pair_line (mapping : dict (list ConditionInfo))
    (line abnormality cond : string) :
  no_quote abnormality -> no_quote cond ->
  pair_line line abnormality cond ->
  _parse_abnormalities_mapping_line mapping line
  = PyDict.set mapping abnormality
      (default [] (PyDict.get mapping abnormality)
       ++ [ {| info_condition := cond +:+ String dquote EmptyString;
               info_prevalence := EmptyString |} ]).
Proof.
  intros Ha Hc (lead & trail & -> & Hlead & Htrail).
  destruct (tuple_line_read lead trail abnormality cond Hlead Htrail)
    as (_ & Hopen & Hend & Hsep & Hinside).
  assert (E : lead +:+ tuple_open +:+ abnormality +:+ tuple_sep +:+ cond
              +:+ String dquote ")" +:+ trail
              = lead +:+ (tuple_open
                          +:+ (abnormality +:+ tuple_sep +:+ cond
                               +:+ String dquote EmptyString) +:+ ")")
                +:+ trail)
    by (by rewrite !append_assoc).
  rewrite E. clear E. unfold _parse_abnormalities_mapping_line.
  rewrite Hopen, Hend, Hsep, Hinside. cbn [andb].
  rewrite split_field by done.
  by rewrite split_last_field.
Qed.

Lemma extends_refl (m : dict (list ConditionInfo)) : extends m m.
Proof. intros k entries Hk. exists []. by rewrite app_nil_r. Qed.

Lemma extends_trans (a b c : dict (list ConditionInfo)) :
  extends a b -> extends b c -> extends a c.
Proof.
  intros Hab Hbc k entries Hk.
  destruct (Hab k entries Hk) as (more & Hb).
  destruct (Hbc k _ Hb) as (more' & Hc).
  exists (more ++ more'). by rewrite app_assoc.
Qed.

Lemma parse_line_extends (m : dict (list ConditionInfo)) (line : string) :
  extends m (_parse_abnormalities_mapping_line m line).
Proof.
  unfold _parse_abnormalities_mapping_line.
  destruct (_ && _); [|apply extends_refl].
  destruct (_ && _); [|apply extends_refl].
  destruct (split_str _ _) as [|a [|c rest]]; try apply extends_refl.
  intros k entries Hk. destruct (String.eqb_spec a k) as [->|Hne].
  - rewrite get_set_eq, Hk. simpl. eauto.
  - rewrite get_set_ne by done. exists []. by rewrite app_nil_r.
Qed.

Lemma parse_lines_extend (lines : list string)
    (m : dict (list ConditionInfo)) :
  extends m (fold_left _parse_abnormalities_mapping_line lines m).
Proof.
  revert m. induction lines as [|line lines IH]; intros m.
  - apply extends_refl.
  - simpl. eapply extends_trans; [apply parse_line_extends | apply IH].
Qed.

Lemma parse_line_not_tuple (m : dict (list ConditionInfo)) (line : string) :
  not_a_tuple line -> _parse_abnormalities_mapping_line m line = m.
Proof.
  unfold _parse_abnormalities_mapping_line.
  intros [H1|[H2|H3]].
  - by rewrite H1.
  - by rewrite H2, andb_false_r.
  - rewrite H3, andb_false_r. by destruct (_ && _).
Qed.

Lemma parse_lines_not_tuples (lines : list string)
    (m : dict (list ConditionInfo)) :
  Forall not_a_tuple lines ->
  fold_left _parse_abnormalities_mapping_line lines m = m.
Proof.
  intros Hall. induction Hall as [|line lines Hline _ IH]; [done |].
  simpl. by rewrite parse_line_not_tuple.
Qed.

(** Stripping on the left never goes past a character outside the class. *)
Lemma lstrip_keeps (p : ascii -> bool) (x : string) (c : ascii)
    (trail : string) :
  p c = false ->
  exists y, lstrip p (x +:+ String c trail) = y +:+ String c trail.
Proof.
  intros Hc. induction x as [|a x IH].
  - exists EmptyString. rewrite !append_nil_l. simpl. by rewrite Hc.
  - rewrite append_cons. simpl. destruct (p a).
    + exact IH.
    + exists (String a x). by rewrite append_cons.
Qed.

(** The last character that is no blank stays the last one of the stripped
    line. *)
Lemma strip_keeps_last (x : string) (c : ascii) (trail : string) :
  is_space c = false -> Shape.blank trail ->
  exists y, strip_ws (x +:+ String c trail) = y +:+ String c EmptyString.
Proof.
  intros Hc Htrail. destruct (lstrip_keeps is_space x c trail Hc) as (y & Hy).
  exists y. unfold strip_ws, strip. rewrite Hy.
  replace (y +:+ String c trail)
    with ((y +:+ String c EmptyString) +:+ trail)
    by (by rewrite append_assoc, append_cons, append_nil_l).
  apply rstrip_app; [done |].
  by rewrite last_char_app.
Qed.

Lemma ends_with_last (d c : ascii) (y : string) :
  ends_with (String d EmptyString) (y +:+ String c EmptyString)
  = Ascii.eqb d c.
Proof.
  induction y as [|a y IH].
  - rewrite append_nil_l. cbn. by destruct (Ascii.eqb d c).
  - rewrite append_cons. cbn [ends_with]. rewrite IH.
    destruct y as [|b y].
    + rewrite append_nil_l. cbn. by destruct (Ascii.eqb d a).
    + rewrite append_cons. cbn. by destruct (Ascii.eqb d a).
Qed.

Lemma parse_line_other_end (m : dict (list ConditionInfo)) (x : string)
    (c : ascii) (trail : string) :
  is_space c = false -> c <> ")"%char -> Shape.blank trail ->
  _parse_abnormalities_mapping_line m (x +:+ String c trail) = m.
Proof.
  intros Hc Hne Htrail. apply parse_line_not_tuple. right; left.
  destruct (strip_keeps_last x c trail Hc Htrail) as (y & ->).
  rewrite ends_with_last. apply Ascii.eqb_neq. congruence.
Qed.

(** The entry a line appends is found after the whole text is read, behind
    the entries that were there before. *)
Lemma parse_content_entry (m : dict (list ConditionInfo))
    (content : string) (before after : list string) (line a : string)
    (e : ConditionInfo) :
  split_on newline content = before ++ line :: after ->
  (forall m', _parse_abnormalities_mapping_line m' line
              = PyDict.set m' a (default [] (PyDict.get m' a) ++ [e])) ->
  exists earlier later,
    PyDict.get (_parse_abnormalities_mapping m content) a
    = Some (earlier ++ e :: later)
    /\ forall old, PyDict.get m a = Some old -> exists mid, earlier = old ++ mid.
Proof.
  intros Hlines Hline. unfold _parse_abnormalities_mapping.
  rewrite Hlines, fold_left_app. cbn [fold_left].
  set (m1 := fold_left _parse_abnormalities_mapping_line before m).
  assert (H1 : extends m m1) by apply parse_lines_extend.
  rewrite Hline.
  destruct (parse_lines_extend after
              (PyDict.set m1 a (default [] (PyDict.get m1 a) ++ [e]))
              a _ (get_set_eq _ _ _)) as (later & Hlater).
  exists (default [] (PyDict.get m1 a)), later. split.
  - rewrite Hlater. by rewrite <- app_assoc.
  - intros old Hold. destruct (H1 a old Hold) as (mid & ->). simpl. eauto.
Qed.

Lemma lookup_abnormality (m : dict (list ConditionInfo))
    (biomarker a : string) (conds : list ConditionInfo) (e : ConditionInfo) :
  In (a, conds) m -> substring_in (lower biomarker) (lower a) = true ->
  In e conds -> In e (get_abnormalities_for_biomarker m biomarker).
Proof.
  intros Hin Hsub He. unfold get_abnormalities_for_biomarker.
  apply in_flat_map. exists (a, conds). split; [done |]. by rewrite Hsub.
Qed.

Lemma parsed_entry_looked_up (m : dict (list ConditionInfo))
    (content : string) (before after : list string) (line a : string)
    (e : ConditionInfo) :
  split_on newline content = before ++ line :: after ->
  (forall m', _parse_abnormalities_mapping_line m' line
              = PyDict.set m' a (default [] (PyDict.get m' a) ++ [e])) ->
  (exists earlier later,
      PyDict.get (_parse_abnormalities_mapping m content) a
      = Some (earlier ++ e :: later)
      /\ forall old, PyDict.get m a = Some old ->
                     exists mid, earlier = old ++ mid)
  /\ forall biomarker,
       substring_in (lower biomarker) (lower a) = true ->
       In e (get_abnormalities_for_biomarker
               (_parse_abnormalities_mapping m content) biomarker).
Proof.
  intros Hlines Hline.
  destruct (parse_content_entry m content before after line a e Hlines Hline)
    as (earlier & later & Hget & Hold).
  split; [by exists earlier, later |].
  intros biomarker Hsub.
  apply (lookup_abnormality _ biomarker a (earlier ++ e :: later));
    [by apply get_In | done |].
  apply in_or_app. right. by left.
Qed.

End TupleFacts.

(** X12. Reading the abnormality source, a tuple line of three fields
    without double quotes, blanks allowed around it: after the whole text is
    read, the abnormality holds an entry with the condition of the line and,
    as prevalence, the third field followed by the closing double quote of
    the line (the slice [line[2:-1]] takes off the parenthesis only). The
    entry comes behind the entries the abnormality had before, and
    [get_abnormalities_for_biomarker] returns it for every biomarker whose
    lower-case name occurs in the lower-case abnormality. *)
Theorem abnormality_tuple_recorded
    (mapping : dict (list ConditionInfo)) (content : string)
    (before after : list string) (line abnormality cond prevalence : string) :
  PyStr.split_on PyStr.newline content = before ++ line :: after ->
  tuple_line line abnormality cond prevalence ->
  no_quote abnormality -> no_quote cond -> no_quote prevalence ->
  let entry :=
    {| info_condition := cond;
       info_prevalence := prevalence +:+ String PyStr.dquote EmptyString |} in
  (exists earlier later,
      PyDict.get (_parse_abnormalities_mapping mapping content) abnormality
      = Some (earlier ++ entry :: later)
      /\ forall old, PyDict.get mapping abnormality = Some old ->
                     exists mid, earlier = old ++ mid)
  /\ forall biomarker,
       PyStr.substring_in (PyStr.lower biomarker) (PyStr.lower abnormality)
       = true ->
       In entry (get_abnormalities_for_biomarker
                   (_parse_abnormalities_mapping mapping content) biomarker).
Proof.
  intros Hlines Hline Ha Hc Hp entry.
  apply (parsed_entry_looked_up mapping content before after line); [done |].
  intros m'. by apply parse_tuple_line.
Qed.

(** X13. A tuple line of two fields only: the entry recorded has an empty
    prevalence, and its condition is the second field followed by the
    closing double quote of the line. *)
Theorem abnormality_pair_recorded
    (mapping : dict (list ConditionInfo)) (content : string)
    (before after : list string) (line abnormality cond : string) :
  PyStr.split_on PyStr.newline content = before ++ line :: after ->
  pair_line line abnormality cond ->
  no_quote abnormality -> no_quote cond ->
  let entry :=
    {| info_condition := cond +:+ String PyStr.dquote EmptyString;
       info_prevalence := EmptyString |} in
  (exists earlier later,
      PyDict.get (_parse_abnormalities_mapping mapping content) abnormality
      = Some (earlier ++ entry :: later)
      /\ forall old, PyDict.get mapping abnormality = Some old ->
                     exists mid, earlier = old ++ mid)
  /\ forall biomarker,
       PyStr.substring_in (PyStr.lower biomarker) (PyStr.lower abnormality)
       = true ->
       In entry (get_abnormalities_for_biomarker
                   (_parse_abnormalities_mapping mapping content) biomarker).
Proof.
  intros Hlines Hline Ha Hc entry.
  apply (parsed_entry_looked_up mapping content before after line); [done |].
  intros m'. by apply parse_pair_line.
Qed.

(** X14. Reading the abnormality source only adds: every abnormality
    known before is known afterwards, its entries first and in their order,
    and no line raises. A text none of whose lines is a tuple line for the
    parser changes nothing; and a line whose last character that is not
    blank is not a closing parenthesis is no tuple line, so a tuple
    followed by a comma is not recorded. *)
Theorem abnormality_parsing_appends
    (mapping : dict (list ConditionInfo)) (content : string) :
  extends mapping (_parse_abnormalities_mapping mapping content)
  /\ (Forall not_a_tuple (PyStr.split_on PyStr.newline content) ->
      _parse_abnormalities_mapping mapping content = mapping)
  /\ (forall x c trail,
        PyStr.is_space c = false -> c <> ")"%char -> Shape.blank trail ->
        not_a_tuple (x +:+ String c trail)
        /\ _parse_abnormalities_mapping_line mapping (x +:+ String c trail)
           = mapping).
Proof.
  split; [apply parse_lines_extend |].
  split; [apply parse_lines_not_tuples |].
  intros x c trail Hc Hne Htrail.
  split; [|by apply parse_line_other_end].
  right; left.
  destruct (strip_keeps_last x c trail Hc Htrail) as (y & ->).
  rewrite ends_with_last. apply Ascii.eqb_neq. congruence.
Qed.

(** X15. [get_abnormalities_for_biomarker]: an entry is returned exactly
    when it is listed under an abnormality whose lower-case name holds the
    lower-case biomarker; so the lookup does not tell apart two spellings of
    a biomarker that differ in case only, and for the empty name it returns
    the entries of every abnormality, in the order of the mapping. *)
Theorem abnormalities_for_biomarker_found
    (mapping : dict (list ConditionInfo)) (biomarker : string) :
  (forall e,
      In e (get_abnormalities_for_biomarker mapping biomarker)
      <-> exists abnormality conditions,
            In (abnormality, conditions) mapping
            /\ PyStr.substring_in (PyStr.lower biomarker)
                 (PyStr.lower abnormality) = true
            /\ In e conditions)
  /\ (forall other,
        PyStr.lower other = PyStr.lower biomarker ->
        get_abnormalities_for_biomarker mapping other
        = get_abnormalities_for_biomarker mapping biomarker)
  /\ get_abnormalities_for_biomarker mapping EmptyString
     = flat_map snd mapping.
Proof.
  split; [|split].
  - intros e. unfold get_abnormalities_for_biomarker. rewrite in_flat_map.
    split.
    + intros ([a conds] & Hin & He).
      destruct (PyStr.substring_in _ _) eqn:Hsub; [|done].
      by exists a, conds.
    + intros (a & conds & Hin & Hsub & He).
      exists (a, conds). split; [done |]. by rewrite Hsub.
  - intros other Hother. unfold get_abnormalities_for_biomarker.
    by rewrite Hother.
  - unfold get_abnormalities_for_biomarker.
    induction mapping as [|[a conds] m IH]; [done |].
    cbn [flat_map]. rewrite IH. f_equal.
    by destruct (PyStr.lower a).
Qed.

(** ** [analyze_biomarker_values] *)

Section AnalyzeValuesFacts.
Context `{PyBuiltins} `{VectorBackend}.
Variable kb : MedicalKnowledgeBase.

Lemma analyze_loop_spec (items : list (string * float))
    (acc : dict BiomarkerAnalysis) :
  index_ready kb ->
  exists analysis,
    analyze_biomarker_values_loop kb items acc = Ok analysis
    /\ (forall name,
          PyDict.mem name analysis = true
          <-> PyDict.mem name acc = true
              \/ (PyDict.mem name items = true
                  /\ is_Some (get_biomarker_reference_range kb name)))
    /\ (forall name e,
          PyDict.get analysis name = Some e ->
          PyDict.get acc name = Some e
          \/ exists v range_info,
               In (name, v) items
               /\ get_biomarker_reference_range kb name = Some range_info
               /\ analysis_value e = v
               /\ analysis_reference_range e = range_info
               /\ analysis_status e = _classify_value v range_info
               /\ retrieve_contextual_knowledge kb
                    (name +:+ " " +:+ float_str v) 3
                  = Ok (analysis_contextual_knowledge e)).
Proof.
  intros Hready. revert acc.
  induction items as [|[b v] items IH]; intros acc.
  - exists acc. split; [done |]. split; [|by left].
    intros name. split; [by left | by intros [?|[? _]]].
  - cbn [analyze_biomarker_values_loop].
    unfold get_biomarker_reference_range in *.
    destruct (reference_ranges kb !! b) as [range_info|] eqn:Hrange.
    + destruct (retrieve_ready kb (b +:+ " " +:+ float_str v) 3 Hready)
        as (k & Hk); [lia |].
      rewrite Hk. simpl.
      set (entry := {| analysis_value := v;
                       analysis_reference_range := range_info;
                       analysis_status := _classify_value v range_info;
                       analysis_contextual_knowledge := k |}).
      destruct (IH (PyDict.set acc b entry)) as (an & Han & Hmem & Hget).
      exists an. split; [exact Han |]. split.
      * intros name. rewrite Hmem, mem_set, mem_cons.
        destruct (String.eqb_spec b name) as [<-|Hne].
        -- rewrite orb_true_r, orb_true_l, Hrange.
           split; [intros _; right; by split | by left].
        -- by rewrite orb_false_r, orb_false_l.
      * intros name e He. destruct (Hget name e He) as [Hacc|Hitems].
        -- destruct (String.eqb_spec b name) as [<-|Hne].
           ++ rewrite get_set_eq in Hacc. injection Hacc as <-.
              right. exists v, range_info. by repeat split; [left|..].
           ++ rewrite get_set_ne in Hacc by done. by left.
        -- destruct Hitems as (v' & r' & Hin & Hrest).
           right. exists v', r'. split; [by right | done].
    + destruct (IH acc) as (an & Han & Hmem & Hget).
      exists an. split; [exact Han |]. split.
      * intros name. rewrite Hmem, mem_cons.
        destruct (String.eqb_spec b name) as [<-|Hne]; [|done].
        rewrite orb_true_l, Hrange.
        split.
        -- intros [?|[_ []%is_Some_None]]; by left.
        -- intros [?|[_ []%is_Some_None]]; by left.
      * intros name e He. destruct (Hget name e He) as [Hacc|Hitems].
        -- by left.
        -- destruct Hitems as (v' & r' & Hin & Hrest).
           right. exists v', r'. split; [by right | done].
Qed.

End AnalyzeValuesFacts.

(** X16. [analyze_biomarker_values], over a knowledge base that can be
    searched (or whose index is not built): it raises nothing; a biomarker
    has an entry exactly when it is in the input and has a reference range,
    so a biomarker without a range is left out without a word; and an entry
    carries one of the values given for its biomarker, its reference range,
    the status of that value against that range, and what retrieval returns
    for the query made of the name and the value. *)
Theorem analyze_biomarker_values_entries `{PyBuiltins} `{VectorBackend}
    (kb : MedicalKnowledgeBase) (biomarker_values : dict float) :
  index_ready kb ->
  exists analysis,
    analyze_biomarker_values kb biomarker_values = Ok analysis
    /\ (forall name,
          PyDict.mem name analysis = true
          <-> PyDict.mem name biomarker_values = true
              /\ is_Some (get_biomarker_reference_range kb name))
    /\ (forall name e,
          PyDict.get analysis name = Some e ->
          exists v range_info,
            In (name, v) biomarker_values
            /\ get_biomarker_reference_range kb name = Some range_info
            /\ analysis_value e = v
            /\ analysis_reference_range e = range_info
            /\ analysis_status e = _classify_value v range_info
            /\ retrieve_contextual_knowledge kb
                 (name +:+ " " +:+ float_str v) 3
               = Ok (analysis_contextual_knowledge e)).
Proof.
  intros Hready.
  destruct (analyze_loop_spec kb biomarker_values [] Hready)
    as (an & Han & Hmem & Hget).
  exists an. split; [exact Han |]. split.
  - intros name. rewrite Hmem. split; [by intros [?|?] | by right].
  - intros name e He. by destruct (Hget name e He) as [?|?].
Qed.

(** ** [validate_biomarker_values] *)

Section ValidationFacts.
Context `{PyBuiltins}.

(** A bound compared with a value that is not a number is never met. *)
Lemma leb_number (a v : float) :
  (a <=? v)%float = true -> (v =? v)%float = true.
Proof.
  rewrite leb_spec, FloatAxioms.eqb_spec. unfold SFleb, SFeqb, SFcompare.
  destruct (Prim2SF a) as [sa|sa| |sa ma ea],
           (Prim2SF v) as [sv|sv| |sv mv ev];
    try destruct sa; try destruct sv; try discriminate; try reflexivity;
    intros _; rewrite Z.compare_refl;
    change (Pos.compare_cont Eq mv mv) with (Pos.compare mv mv);
    by rewrite ?Pos.compare_refl.
Qed.

Lemma validate_fold_spec (items : dict float) (acc : dict Validation) :
  let validated :=
    fold_left
      (fun validated '(biomarker, value) =>
         PyDict.set validated biomarker (validation_entry biomarker value))
      items acc in
  (forall name,
      PyDict.mem name validated = PyDict.mem name acc || PyDict.mem name items)
  /\ (forall name e,
        PyDict.get validated name = Some e ->
        PyDict.get acc name = Some e
        \/ exists v, In (name, v) items /\ e = validation_entry name v).
Proof.
  revert acc. induction items as [|[b v] items IH]; intros acc.
  - split; [|by left]. intros name. by rewrite orb_false_r.
  - cbn [fold_left].
    destruct (IH (PyDict.set acc b (validation_entry b v))) as (Hmem & Hget).
    cbv zeta in *. split.
    + intros name. rewrite Hmem, mem_set, mem_cons. by rewrite orb_assoc.
    + intros name e He. destruct (Hget name e He) as [Hacc|(v' & Hin & Hv')].
      * destruct (String.eqb_spec b name) as [<-|Hne].
        -- rewrite get_set_eq in Hacc. injection Hacc as <-.
           right. exists v. split; [by left | done].
        -- rewrite get_set_ne in Hacc by done. by left.
      * right. exists v'. split; [by right | done].
Qed.

Lemma get_None_notin {V} (d : dict V) (k : string) :
  PyDict.get d k = None <-> ~ In k d.*1.
Proof.
  rewrite <- (mem_In_keys d k). unfold PyDict.mem.
  destruct (PyDict.get d k); split; done.
Qed.

(** Over an input without a repeated key, the entries are written one
    after the other, each behind the ones before. *)
Lemma validate_fold_nodup (items : dict float) (acc : dict Validation) :
  NoDup (acc.*1 ++ items.*1) ->
  let validated :=
    fold_left
      (fun validated '(biomarker, value) =>
         PyDict.set validated biomarker (validation_entry biomarker value))
      items acc in
  validated.*1 = acc.*1 ++ items.*1
  /\ forall name,
       PyDict.get validated name
       = match PyDict.get acc name with
         | Some e => Some e
         | None => validation_entry name <$> PyDict.get items name
         end.
Proof.
  revert acc. induction items as [|[b v] items IH]; intros acc Hnodup.
  - cbn. rewrite app_nil_r. split; [done |].
    intros name. by destruct (PyDict.get acc name).
  - cbn [fold_left]. rewrite fmap_cons in Hnodup. cbn [fst] in Hnodup.
    assert (Hb : PyDict.get acc b = None).
    { apply get_None_notin. intros Hin.
      apply NoDup_app in Hnodup as (_ & Hdisj & _).
      apply (Hdisj b); [by apply list_elem_of_In | left]. }
    assert (Hkeys : (PyDict.set acc b (validation_entry b v)).*1
                    = acc.*1 ++ [b]).
    { rewrite set_keys. unfold PyDict.mem. by rewrite Hb. }
    destruct (IH (PyDict.set acc b (validation_entry b v))) as (Hk & Hget).
    { rewrite Hkeys, <- app_assoc. exact Hnodup. }
    cbv zeta in *. split.
    + rewrite Hk, Hkeys, <- app_assoc. by rewrite fmap_cons.
    + intros name. rewrite Hget. cbn [PyDict.get].
      destruct (String.eqb_spec b name) as [<-|Hne].
      * by rewrite get_set_eq, Hb.
      * by rewrite get_set_ne.
Qed.

Lemma validation_entry_status (name : string) (v : float) :
  let e := validation_entry name v in
  validated_value e = v
  /\ validation_range e = PyDict.get validation_ranges name
  /\ (validation_status e = "valid"
      <-> exists lo hi,
            PyDict.get validation_ranges name = Some (lo, hi)
            /\ (lo <=? v)%float = true /\ (v <=? hi)%float = true)
  /\ (validation_status e = "out_of_range"
      <-> exists lo hi,
            PyDict.get validation_ranges name = Some (lo, hi)
            /\ ((lo <=? v)%float = false \/ (v <=? hi)%float = false))
  /\ (validation_status e = "unknown_range"
      <-> PyDict.get validation_ranges name = None)
  /\ (validation_note e = None <-> validation_status e = "valid").
Proof.
  unfold validation_entry.
  destruct (PyDict.get validation_ranges name) as [[lo hi]|].
  - destruct (lo <=? v)%float eqn:Hlo, (v <=? hi)%float eqn:Hhi;
      cbn [andb validated_value validation_range validation_status
           validation_note];
      repeat split; try done;
      try (intros _; exists lo, hi; split; [done |];
           first [by split | by left | by right]);
      intros (? & ? & [= <- <-] & ?); intuition congruence.
  - cbn. repeat split; try done; by intros (? & ? & ? & _).
Qed.

End ValidationFacts.

(** X17. [validate_biomarker_values] writes one entry for each biomarker
    of the input and no other, in the order of the input; the entry of a
    biomarker carries its value and the validation range of the table, which
    is absent exactly for a name the table does not know. *)
Theorem validation_covers_the_input `{PyBuiltins} (biomarkers : dict float) :
  NoDup biomarkers.*1 ->
  (validate_biomarker_values biomarkers).*1 = biomarkers.*1
  /\ forall name,
       match PyDict.get biomarkers name with
       | None => PyDict.get (validate_biomarker_values biomarkers) name = None
       | Some v =>
           exists e,
             PyDict.get (validate_biomarker_values biomarkers) name = Some e
             /\ validated_value e = v
             /\ validation_range e = PyDict.get validation_ranges name
       end.
Proof.
  intros Hnodup.
  destruct (validate_fold_nodup biomarkers []) as (Hkeys & Hget); [done |].
  cbv zeta in *. split; [exact Hkeys |].
  intros name. unfold validate_biomarker_values. rewrite Hget. cbn.
  destruct (PyDict.get biomarkers name) as [v|]; [|done].
  exists (validation_entry name v). split; [done |].
  destruct (validation_entry_status name v) as (Hv & Hr & _). by split.
Qed.

(** X18. The status [validate_biomarker_values] gives: valid exactly when
    the table has a range for the biomarker and the value lies within its
    bounds, the bounds included; unknown_range exactly when the table has no
    range; out_of_range exactly when there is a range and a bound is not
    met, which is the case of a value that is not a number. One of the three
    holds, and a note is given for every status but valid. *)
Theorem validation_status_bands `{PyBuiltins} (biomarkers : dict float)
    (name : string) (e : Validation) :
  PyDict.get (validate_biomarker_values biomarkers) name = Some e ->
  let v := validated_value e in
  In (name, v) biomarkers
  /\ (validation_status e = "valid"
      <-> exists lo hi,
            PyDict.get validation_ranges name = Some (lo, hi)
            /\ (lo <=? v)%float = true /\ (v <=? hi)%float = true)
  /\ (validation_status e = "out_of_range"
      <-> exists lo hi,
            PyDict.get validation_ranges name = Some (lo, hi)
            /\ ((lo <=? v)%float = false \/ (v <=? hi)%float = false))
  /\ (validation_status e = "unknown_range"
      <-> PyDict.get validation_ranges name = None)
  /\ (validation_status e = "valid" \/ validation_status e = "out_of_range"
      \/ validation_status e = "unknown_range")
  /\ ((v =? v)%float = false -> validation_status e <> "valid")
  /\ (validation_note e = None <-> validation_status e = "valid").
Proof.
  intros He v.
  destruct (validate_fold_spec biomarkers []) as (_ & Hget).
  destruct (Hget name e He) as [Hnil|(v' & Hin & ->)]; [done |].
  destruct (validation_entry_status name v')
    as (Hv & Hr & Hvalid & Hout & Hunknown & Hnote).
  cbv zeta in *. subst v. rewrite Hv in *.
  split; [done |]. split; [done |]. split; [done |]. split; [done |].
  split; [|split; [|done]].
  - unfold validation_entry.
    destruct (PyDict.get validation_ranges name) as [[lo hi]|];
      [|by right; right].
    destruct (_ && _); [by left | by right; left].
  - intros Hnan (lo & hi & _ & Hlo & _)%Hvalid.
    apply leb_number in Hlo. congruence.
Qed.

(** ** More on the symptoms and on the diabetes assessor *)

Section DetectionFacts.

Import PyStr.

Lemma filter_keys_sublist {V} (f : string * V -> bool) (table : dict V) :
  sublist (List.filter f table).*1 table.*1.
Proof.
  induction table as [|entry table IH]; [done |].
  cbn [List.filter]. destruct (f entry); rewrite ?fmap_cons.
  - by apply sublist_skip.
  - by apply sublist_cons.
Qed.

Lemma filter_keys_In {V} (f : string * V -> bool) (table : dict V)
    (k : string) :
  In k (List.filter f table).*1
  <-> exists v, In (k, v) table /\ f (k, v) = true.
Proof.
  rewrite <- list_elem_of_In, list_elem_of_fmap. split.
  - intros ([k' v] & -> & Hin%list_elem_of_In%filter_In). by exists v.
  - intros (v & Hin & Hf). exists (k, v). split; [done |].
    by apply list_elem_of_In, filter_In.
Qed.

End DetectionFacts.

(** X19. The categories [_analyze_symptoms] detects in a text that is not
    blank: a category is detected exactly when one of its keywords occurs in
    the lower-case text, as a piece of it and not only as a word; so a
    category with a keyword among the words of the text is detected, and two
    texts that differ in case only get the same categories. The categories
    come in the order of the table, each at most once, and the text is
    given back as it was. *)
Theorem symptom_categories_detected (user_symptoms : string) :
  PyStr.is_empty (PyStr.strip_ws user_symptoms) = false ->
  exists detected,
    detected_categories (_analyze_symptoms user_symptoms) = Some detected
    /\ raw_symptoms (_analyze_symptoms user_symptoms) = Some user_symptoms
    /\ symptoms_provided (_analyze_symptoms user_symptoms) = true
    /\ sublist detected
         [ "fatigue"; "weight_changes"; "mood_changes"; "digestive_issues";
           "cardiovascular"; "neurological" ]
    /\ (forall category,
          In category detected
          <-> exists keywords keyword,
                In (category, keywords) common_symptoms
                /\ In keyword keywords
                /\ PyStr.substring_in keyword (PyStr.lower user_symptoms)
                   = true)
    /\ (forall category,
          In category (spec_detected_categories user_symptoms) ->
          In category detected)
    /\ (forall other,
          PyStr.lower other = PyStr.lower user_symptoms ->
          PyStr.is_empty (PyStr.strip_ws other) = false ->
          detected_categories (_analyze_symptoms other) = Some detected).
Proof.
  intros Hne. unfold _analyze_symptoms. rewrite Hne. cbn [detected_categories
    raw_symptoms symptoms_provided].
  eexists. split; [done |]. split; [done |]. split; [done |].
  split; [|split; [|split]].
  - apply (filter_keys_sublist _ common_symptoms).
  - intros category. rewrite filter_keys_In. split.
    + intros (keywords & Hin & (keyword & Hk & Hsub)%existsb_exists).
      by exists keywords, keyword.
    + intros (keywords & keyword & Hin & Hk & Hsub).
      exists keywords. split; [done |]. apply existsb_exists. eauto.
  - intros category. apply keyword_filter_mono.
  - intros other Hother Hne'. rewrite Hne'. cbn [detected_categories].
    by rewrite Hother.
Qed.

(** X20. The diabetes assessor, with the band of a marker that is absent
    taken as low: it contributes nothing exactly when both bands are low; an
    entry it contributes has one risk factor for each marker whose band is
    not low, glucose first; its level is the band of HbA1c unless that is
    low, and only then the band of glucose; and its insights are the first
    two of the general knowledge. *)
Theorem diabetes_risk_bands `{PyBuiltins} (biomarker_data : dict float)
    (contextual_knowledge : dict (list Retrieved)) :
  let g := from_option glucose_band "low" (PyDict.get biomarker_data "glucose") in
  let h := from_option hba1c_band "low" (PyDict.get biomarker_data "hba1c") in
  (_assess_diabetes_risk biomarker_data contextual_knowledge = None
   <-> g = "low" /\ h = "low")
  /\ forall r,
       _assess_diabetes_risk biomarker_data contextual_knowledge = Some r ->
       risk_level r = (if String.eqb h "low" then g else h)
       /\ length (risk_factors r)
          = (if String.eqb g "low" then 0 else 1)
            + (if String.eqb h "low" then 0 else 1)
       /\ risk_insights r
          = take 2 (default [] (PyDict.get contextual_knowledge "general")).
Proof.
  intros g h. subst g h. unfold _assess_diabetes_risk, general_insights.
  destruct (PyDict.get biomarker_data "glucose") as [glucose|],
           (PyDict.get biomarker_data "hba1c") as [hba1c|];
    cbn [from_option]; unfold glucose_band, hba1c_band;
    repeat match goal with
           | |- context [(?a <=? ?b)%float] => destruct (a <=? b)%float
           end;
    cbn; (split; [split; [done | by intros [? ?]] |]);
    intros r [= <-]; done.
Qed.

(** ** Retrieval, for every index *)

Section HitFacts.

Lemma py_index_in_range {A} (l : list A) (i : Z) :
  (- Z.of_nat (length l) <= i < Z.of_nat (length l))%Z ->
  exists x, py_index l i = Ok x.
Proof.
  intros Hi. unfold py_index.
  destruct (Z.leb_spec 0 i).
  - destruct (lookup_lt_is_Some_2 l (Z.to_nat i)) as (x & ->); [lia |].
    by exists x.
  - destruct (Z.leb_spec 0 (Z.of_nat (length l) + i)); [|lia].
    destruct (lookup_lt_is_Some_2 l (Z.to_nat (Z.of_nat (length l) + i)))
      as (x & ->); [lia |].
    by exists x.
Qed.

Lemma py_index_below {A} (l : list A) (i : Z) :
  (i < - Z.of_nat (length l))%Z -> py_index l i = Raise IndexError.
Proof.
  intros Hi. unfold py_index.
  destruct (Z.leb_spec 0 i); [lia |].
  by destruct (Z.leb_spec 0 (Z.of_nat (length l) + i)); [lia |].
Qed.

Lemma retrieve_loop_follows (texts : list KnowledgeItem)
    (hits : list (float * Z)) :
  Forall (fun h : float * Z => (- Z.of_nat (length texts) <= h.2)%Z) hits ->
  exists results,
    retrieve_loop texts hits = Ok results
    /\ Forall2
         (fun (r : Retrieved) (h : float * Z) =>
            relevance_score r = h.1 /\ py_index texts h.2 = Ok (item r))
         results
         (List.filter (fun h : float * Z => (h.2 <? Z.of_nat (length texts))%Z)
            hits).
Proof.
  intros Hall. induction Hall as [|[score idx] hits Hidx _ IH].
  - exists []. by split.
  - destruct IH as (rest & IH & Hrest). cbn [retrieve_loop List.filter snd].
    cbn [snd] in Hidx.
    destruct (Z.ltb_spec idx (Z.of_nat (length texts))).
    + destruct (py_index_in_range texts idx) as (x & Hx); [lia |].
      rewrite Hx, IH. simpl. eexists. split; [done |].
      constructor; [by split | done].
    + by exists rest.
Qed.

Lemma retrieve_loop_raises (texts : list KnowledgeItem)
    (hits : list (float * Z)) :
  Exists (fun h : float * Z => (h.2 < - Z.of_nat (length texts))%Z) hits ->
  retrieve_loop texts hits = Raise IndexError.
Proof.
  induction hits as [|[score idx] hits IH]; intros Hex.
  - by apply Exists_nil in Hex.
  - cbn [retrieve_loop].
    destruct (Z.lt_ge_cases idx (- Z.of_nat (length texts))) as [Hlow|Hok].
    + destruct (Z.ltb_spec idx (Z.of_nat (length texts))); [|lia].
      by rewrite py_index_below.
    + apply Exists_cons in Hex as [Hhead|Htail]; [cbn [snd] in Hhead; lia |].
      rewrite (IH Htail).
      destruct (Z.ltb_spec idx (Z.of_nat (length texts))); [|done].
      destruct (py_index_in_range texts idx) as (x & ->); [lia |]. done.
Qed.

End HitFacts.

(** X21. Retrieval over a built index, whatever the index answers: the hits
    whose label is below the size of the corpus are kept, in their order,
    the others are dropped; a result carries the score of its hit and the
    entry of the corpus at the label of the hit, a negative label counting
    from the end; so there are never more results than hits. A label below
    minus the size of the corpus makes the call raise IndexError. *)
Theorem retrieval_follows_the_hits `{VectorBackend}
    (kb : MedicalKnowledgeBase) (query : string) (top_k : Z)
    (index : Index) (model : Model) (hits : list (float * Z)) :
  vector_index kb = Some index -> embedding_model kb = Some model ->
  search index (normalize_L2 (encode model query)) top_k = Ok hits ->
  let n := Z.of_nat (length (knowledge_texts kb)) in
  (Forall (fun h : float * Z => (- n <= h.2)%Z) hits ->
   exists results,
     retrieve_contextual_knowledge kb query top_k = Ok results
     /\ Forall2
          (fun (r : Retrieved) (h : float * Z) =>
             relevance_score r = h.1
             /\ py_index (knowledge_texts kb) h.2 = Ok (item r))
          results
          (List.filter (fun h : float * Z => (h.2 <? n)%Z) hits)
     /\ length results <= length hits)
  /\ (Exists (fun h : float * Z => (h.2 < - n)%Z) hits ->
      retrieve_contextual_knowledge kb query top_k = Raise IndexError).
Proof.
  intros Hindex Hmodel Hsearch n. unfold retrieve_contextual_knowledge.
  rewrite Hindex, Hmodel, Hsearch. simpl. split.
  - intros Hall.
    destruct (retrieve_loop_follows _ _ Hall) as (results & Hres & Hfollow).
    exists results. split; [done |]. split; [done |].
    rewrite (Forall2_length _ _ _ Hfollow). apply List.filter_length_le.
  - apply retrieve_loop_raises.
Qed.

(** ** Further theorems on concrete inputs *)

Lemma thyroid_risk_bands_witness :
  PyDict.get [("tsh", 12%float)] "tsh" = Some 12%float
  /\ forall r,
       @_assess_thyroid_risk python_builtins [("tsh", 12%float)] [] = Some r ->
       risk_level r = "high".
Proof.
  split; [reflexivity |]. intros r Hr.
  destruct (@thyroid_risk_bands python_builtins [("tsh", 12%float)] []
              12%float eq_refl) as (_ & Hentry).
  destruct (Hentry r Hr) as (_ & Hhigh & _). by apply Hhigh.
Defined.

Lemma overall_risk_monotonic_witness :
  severity
    (_calculate_overall_risk_level
       [ {| condition := "Inflammation"; risk_level := "moderate";
            risk_factors := []; risk_insights := [] |} ])
  <= severity
       (_calculate_overall_risk_level
          [ {| condition := "Thyroid Dysfunction"; risk_level := "high";
               risk_factors := []; risk_insights := [] |};
            {| condition := "Inflammation"; risk_level := "moderate";
               risk_factors := []; risk_insights := [] |} ]).
Proof.
  apply overall_risk_monotonic. intros r [<-|[]]. right. by left.
Defined.

Lemma recommendations_depend_on_presence_witness :
  _generate_lifestyle_recommendations [("glucose", 90%float)] EmptyString []
  = _generate_lifestyle_recommendations [("glucose", 300%float)]
      "I run every day" []
  /\ _generate_monitoring_recommendations [("glucose", 90%float)] []
     = _generate_monitoring_recommendations [("glucose", 300%float)] [].
Proof.
  destruct (recommendations_depend_on_presence
              [("glucose", 90%float)] [("glucose", 300%float)]
              EmptyString "I run every day" [] [])
    as (Hlife & Hmon & _).
  - intros name. unfold PyDict.mem. cbn [PyDict.get].
    by destruct (String.eqb "glucose" name).
  - by split.
Defined.

Lemma contextual_knowledge_buckets_witness :
  exists ck general,
    @_retrieve_contextual_knowledge python_builtins flat_backend Example.kb
      [("glucose", 110%float)] = Ok ck
    /\ PyDict.get ck "general" = Some general
    /\ PyDict.mem "glucose" ck = true.
Proof.
  destruct (@contextual_knowledge_buckets python_builtins flat_backend
              Example.kb [("glucose", 110%float)] example_kb_ready)
    as (ck & general & Hck & _ & Hgeneral & Hmem & _).
  exists ck, general. split; [done |]. split; [done |].
  by rewrite Hmem.
Defined.

Lemma analyze_biomarkers_entries_witness :
  exists p1,
    @_analyze_biomarkers python_builtins flat_backend Example.kb
      [("glucose", 110%float)] [] = Ok p1
    /\ PyDict.mem "glucose" (biomarkers p1) = true.
Proof.
  destruct (@analyze_biomarkers_entries python_builtins flat_backend
              Example.kb [("glucose", 110%float)] [])
    as (p1 & Hp1 & Hmem & _).
  - intros name l Hl. discriminate Hl.
  - exists p1. split; [done |]. by rewrite Hmem.
Defined.

Lemma analysis_never_raises_witness :
  exists report,
    @analyze_health_report python_builtins flat_backend Example.kb
      "2026-01-01T00:00:00" [("glucose", 110%float)] "I feel tired"
      EmptyString = Ok report
    /\ timestamp report = "2026-01-01T00:00:00".
Proof.
  destruct (@analysis_never_raises python_builtins flat_backend Example.kb
              "2026-01-01T00:00:00" [("glucose", 110%float)] "I feel tired"
              EmptyString example_kb_ready)
    as (report & ck & Hreport & _ & _ & Htime & _).
  - repeat constructor; intros Htype; discriminate Htype.
  - by exists report.
Defined.

Lemma analysis_without_index_witness :
  exists report,
    @analyze_health_report python_builtins flat_backend Example.loaded
      "2026-01-01T00:00:00" [("glucose", 110%float)] "I feel tired"
      EmptyString = Ok report
    /\ PyDict.get (contextual_knowledge_used report) "general" = Some [].
Proof.
  destruct (@analysis_without_index python_builtins flat_backend
              Example.loaded "2026-01-01T00:00:00" [("glucose", 110%float)]
              "I feel tired" EmptyString)
    as (report & Hreport & _ & Hgeneral & _).
  - left. reflexivity.
  - by exists report.
Defined.

Lemma abnormality_tuple_recorded_witness :
  In {| info_condition := "Hypothyroidism";
        info_prevalence := "common" +:+ String PyStr.dquote EmptyString |}
    (get_abnormalities_for_biomarker
       (_parse_abnormalities_mapping []
          ("# thyroid"
           +:+ String PyStr.newline
                 (tuple_open +:+ "High TSH" +:+ tuple_sep +:+ "Hypothyroidism"
                  +:+ tuple_sep +:+ "common" +:+ String PyStr.dquote ")")))
       "TSH").
Proof.
  destruct (abnormality_tuple_recorded []
              ("# thyroid"
               +:+ String PyStr.newline
                     (tuple_open +:+ "High TSH" +:+ tuple_sep
                      +:+ "Hypothyroidism" +:+ tuple_sep +:+ "common"
                      +:+ String PyStr.dquote ")"))
              ["# thyroid"] []
              (tuple_open +:+ "High TSH" +:+ tuple_sep +:+ "Hypothyroidism"
               +:+ tuple_sep +:+ "common" +:+ String PyStr.dquote ")")
              "High TSH" "Hypothyroidism" "common")
    as (_ & Hlookup).
  - reflexivity.
  - exists EmptyString, EmptyString. by repeat split.
  - reflexivity.
  - reflexivity.
  - reflexivity.
  - apply Hlookup. reflexivity.
Defined.

Lemma abnormality_pair_recorded_witness :
  In {| info_condition := "Hashimoto" +:+ String PyStr.dquote EmptyString;
        info_prevalence := EmptyString |}
    (get_abnormalities_for_biomarker
       (_parse_abnormalities_mapping []
          (tuple_open +:+ "High TSH" +:+ tuple_sep +:+ "Hashimoto"
           +:+ String PyStr.dquote ")"))
       "tsh").
Proof.
  destruct (abnormality_pair_recorded []
              (tuple_open +:+ "High TSH" +:+ tuple_sep +:+ "Hashimoto"
               +:+ String PyStr.dquote ")")
              [] []
              (tuple_open +:+ "High TSH" +:+ tuple_sep +:+ "Hashimoto"
               +:+ String PyStr.dquote ")")
              "High TSH" "Hashimoto")
    as (_ & Hlookup).
  - reflexivity.
  - exists EmptyString, EmptyString. by repeat split.
  - reflexivity.
  - reflexivity.
  - apply Hlookup. reflexivity.
Defined.

Lemma analyze_biomarker_values_entries_witness :
  exists analysis,
    @analyze_biomarker_values python_builtins flat_backend Example.kb
      [("glucose", 110%float); ("ldl", 90%float)] = Ok analysis
    /\ forall name,
         PyDict.mem name analysis = true ->
         PyDict.mem name [("glucose", 110%float); ("ldl", 90%float)] = true.
Proof.
  destruct (@analyze_biomarker_values_entries python_builtins flat_backend
              Example.kb [("glucose", 110%float); ("ldl", 90%float)]
              example_kb_ready)
    as (analysis & Hanalysis & Hmem & _).
  exists analysis. split; [done |].
  intros name Hname. by apply Hmem in Hname as [? _].
Defined.

Lemma validation_covers_the_input_witness :
  (@validate_biomarker_values python_builtins
     [("glucose", 90%float); ("zinc", 1%float)]).*1
  = ["glucose"; "zinc"].
Proof.
  destruct (@validation_covers_the_input python_builtins
              [("glucose", 90%float); ("zinc", 1%float)])
    as (Hkeys & _).
  - apply (bool_decide_unpack _). reflexivity.
  - exact Hkeys.
Defined.

Lemma validation_status_bands_witness :
  exists e,
    PyDict.get
      (@validate_biomarker_values python_builtins [("glucose", 90%float)])
      "glucose" = Some e
    /\ validation_status e = "valid"
    /\ validation_note e = None.
Proof.
  eexists. split; [reflexivity |].
  destruct (@validation_status_bands python_builtins [("glucose", 90%float)]
              "glucose" _ eq_refl)
    as (_ & Hvalid & _ & _ & _ & _ & Hnote).
  assert (Hstatus : validation_status
                      (@validation_entry python_builtins "glucose" 90%float)
                    = "valid").
  { apply Hvalid. by exists 50%float, 500%float. }
  split; [exact Hstatus | by apply Hnote].
Defined.

Lemma symptom_categories_detected_witness :
  exists detected,
    detected_categories (_analyze_symptoms "I feel Tired") = Some detected
    /\ In "fatigue" detected.
Proof.
  destruct (symptom_categories_detected "I feel Tired" eq_refl)
    as (detected & Hdetected & _ & _ & _ & Hin & _).
  exists detected. split; [done |].
  apply Hin. exists ["tired"; "fatigue"; "exhausted"; "weak"], "tired".
  split; [by left |]. split; [by left | reflexivity].
Defined.

Lemma retrieval_follows_the_hits_witness :
  exists results,
    @retrieve_contextual_knowledge flat_backend Example.kb "glucose" 3
    = Ok results
    /\ length results <= 3.
Proof.
  destruct (@retrieval_follows_the_hits flat_backend Example.kb "glucose" 3
              (FlatIP.normalize <$> (Example.model <$> (text <$> Example.texts)))
              Example.model
              [ (1%float, 0%Z); (0%float, 1%Z); (FlatIP.neg_flt_max, (-1)%Z) ]
              eq_refl eq_refl eq_refl)
    as (Hfollow & _).
  destruct Hfollow as (results & Hresults & _ & Hlength).
  - repeat constructor; simpl; lia.
  - by exists results.
Defined.
